(** * projectify: configuration resolver and scaffold emitter

    A shallow embedding of [projectify.py] (the resolver [coerce_config],
    the renderers [format_*] and [build_*], and the emitter
    [generate_from_config]) together with the properties its specification
    states about them.

    Conventions of the model.
    - A Python [str] is a Rocq [string]; one [ascii] stands for one code
      point below 256, so the model covers the Latin-1 range of Python
      text.  Every literal of the program is plain ASCII.
    - A Python [dict] keeps insertion order, so it is an association list
      whose keys are pairwise distinct; keys are strings, as the program's
      annotations ([dict[str, object]], [dict[str, list[str]]]) have them.
    - The YAML parser is outside the program: the resolver starts from
      the value tree the parser returns.
    - Exceptions are values of an error type; code that touches the file
      tree is written in a small state-and-exception monad over the tree,
      so that a raised exception still says what the tree has become. *)

From Stdlib Require Import String Ascii List Bool Arith ZArith Lia.
From Stdlib Require Import DecimalString Permutation.
Import ListNotations.
Set Warnings "-register-all".
Open Scope list_scope.
Open Scope string_scope.

(* ================================================================== *)
(** * Part I: definitions                                              *)
(* ================================================================== *)

(** ** Python's string built-ins, as far as the program calls them *)

Module Py.

(** The double quote and the line feed, which a literal cannot hold. *)
Definition dq : ascii := ascii_of_nat 34.
Definition nl : ascii := ascii_of_nat 10.
Definition tab : ascii := ascii_of_nat 9.
Definition DQ : string := String dq "".
Definition NL : string := String nl "".

(** Literals of the program are written with [~] where the source has a
    double quote (the source itself never uses [~]); [lit] puts the
    quotes back. *)
Fixpoint lit (s : string) : string :=
  match s with
  | "" => ""
  | String c rest => String (if Ascii.eqb c "~" then dq else c) (lit rest)
  end.

Fixpoint map_chars (f : ascii -> ascii) (s : string) : string :=
  match s with
  | "" => ""
  | String c rest => String (f c) (map_chars f rest)
  end.

(** [sep.join(parts)] *)
Fixpoint join (sep : string) (parts : list string) : string :=
  match parts with
  | [] => ""
  | [p] => p
  | p :: rest => p ++ sep ++ join sep rest
  end.

(** [s.replace(old, new)]: occurrences of [old] are found left to right
    and do not overlap; [skip] counts the characters of a match still to
    be passed over.  With an empty [old], Python puts [new] before every
    character and at the end. *)
Fixpoint replace_from (old new : string) (skip : nat) (s : string) : string :=
  match s with
  | "" => ""
  | String c rest =>
      match skip with
      | S k => replace_from old new k rest
      | O =>
          if prefix old s
          then new ++ replace_from old new (String.length old - 1) rest
          else String c (replace_from old new 0 rest)
      end
  end.

Fixpoint replace_empty (new s : string) : string :=
  match s with
  | "" => new
  | String c rest => new ++ String c (replace_empty new rest)
  end.

Definition replace (old new s : string) : string :=
  match old with
  | "" => replace_empty new s
  | _ => replace_from old new 0 s
  end.

(** [str.isspace] on one character: the code points below 256 that
    Python's [strip] family removes by default. *)
Definition is_space (c : ascii) : bool :=
  let n := nat_of_ascii c in
  (((9 <=? n) && (n <=? 13)) || ((28 <=? n) && (n <=? 32))
   || (n =? 133) || (n =? 160))%nat.

Fixpoint mem_char (c : ascii) (chars : string) : bool :=
  match chars with
  | "" => false
  | String d rest => Ascii.eqb c d || mem_char c rest
  end.

(** The common shape of [rstrip]: drop the longest suffix whose
    characters all satisfy [drop]. *)
Fixpoint rstrip_by (drop : ascii -> bool) (s : string) : string :=
  match s with
  | "" => ""
  | String c rest =>
      match rstrip_by drop rest with
      | "" => if drop c then "" else String c ""
      | kept => String c kept
      end
  end.

(** [s.rstrip()] *)
Definition rstrip (s : string) : string := rstrip_by is_space s.

(** [s.rstrip(chars)] *)
Definition rstrip_chars (chars s : string) : string :=
  rstrip_by (fun c => mem_char c chars) s.

(** An f-string: its literal pieces and the values of its expressions,
    one after the other. *)
Definition fstring (pieces : list string) : string := fold_right append "" pieces.

(** [" " * n] *)
Fixpoint spaces (n : nat) : string :=
  match n with
  | O => ""
  | S k => String " " (spaces k)
  end.

(** [str(n)] for an integer. *)
Definition str_of_Z (z : Z) : string := NilZero.string_of_int (Z.to_int z).

(** [repr(s)] for a string: single quotes unless the text has a single
    quote and no double quote; backslash, the chosen quote, tab, line
    feed and carriage return are escaped, and the code points that are
    not printable are written [\xhh]. *)
Definition hex_digit (n : nat) : ascii :=
  if (n <? 10)%nat then ascii_of_nat (48 + n) else ascii_of_nat (87 + n).

Definition hex_escape (c : ascii) : string :=
  let n := nat_of_ascii c in
  String "\" (String "x" (String (hex_digit (n / 16)) (String (hex_digit (n mod 16)) ""))).

Definition printable (c : ascii) : bool :=
  let n := nat_of_ascii c in
  (((32 <=? n) && (n <? 127)) || ((161 <=? n) && negb (n =? 173)))%nat.

Definition repr_quote (s : string) : ascii :=
  if mem_char "'" s && negb (mem_char dq s) then dq else "'"%char.

Fixpoint repr_body (quote : ascii) (s : string) : string :=
  match s with
  | "" => ""
  | String c rest =>
      (if Ascii.eqb c quote || Ascii.eqb c "\" then String "\" (String c "")
       else if Ascii.eqb c tab then "\t"
       else if Ascii.eqb c nl then "\n"
       else if Ascii.eqb c (ascii_of_nat 13) then "\r"
       else if printable c then String c ""
       else hex_escape c)
      ++ repr_body quote rest
  end.

Definition repr_str (s : string) : string :=
  let quote := repr_quote s in
  String quote (repr_body quote s ++ String quote "").

(** [s.split(sep)] for a separator of one character. *)
Fixpoint split_on (sep : ascii) (s : string) : list string :=
  match s with
  | "" => [""]
  | String c rest =>
      if Ascii.eqb c sep then "" :: split_on sep rest
      else match split_on sep rest with
           | [] => [String c ""]
           | item :: more => String c item :: more
           end
  end.

Definition split_lines (s : string) : list string := split_on nl s.

(** [textwrap.dedent] (the regular-expression version of Python 3.11 to
    3.13).  Lines made only of spaces and tabs become empty; the margin
    is the longest run of spaces and tabs that starts every other
    non-empty line; the margin is removed from the lines that start with
    it. *)
Definition is_blank (c : ascii) : bool := Ascii.eqb c " " || Ascii.eqb c tab.

Fixpoint all_blank (line : string) : bool :=
  match line with
  | "" => true
  | String c rest => is_blank c && all_blank rest
  end.

Fixpoint leading_blanks (line : string) : string :=
  match line with
  | "" => ""
  | String c rest => if is_blank c then String c (leading_blanks rest) else ""
  end.

Fixpoint common_prefix (a b : string) : string :=
  match a, b with
  | String x a', String y b' =>
      if Ascii.eqb x y then String x (common_prefix a' b') else ""
  | _, _ => ""
  end.

Fixpoint drop_chars (n : nat) (s : string) : string :=
  match n, s with
  | S k, String _ rest => drop_chars k rest
  | _, _ => s
  end.

Definition remove_prefix (p line : string) : string :=
  if prefix p line then drop_chars (String.length p) line else line.

Definition dedent_margin (lines : list string) : option string :=
  fold_left
    (fun margin line =>
       if all_blank line then margin
       else match margin with
            | None => Some (leading_blanks line)
            | Some m => Some (common_prefix m (leading_blanks line))
            end)
    lines None.

Definition dedent (text : string) : string :=
  let lines := map (fun line => if all_blank line then "" else line) (split_lines text) in
  match dedent_margin lines with
  | None | Some "" => join NL lines
  | Some margin => join NL (map (remove_prefix margin) lines)
  end.

(** A template cut into literal text and replacement fields. *)
Inductive segment : Type :=
| Text (text : string)
| Field (field_name : string).

Definition push_char (c : ascii) (segments : list segment) : list segment :=
  match segments with
  | Text text :: more => Text (String c text) :: more
  | _ => Text (String c "") :: segments
  end.

(** [kwargs[field_name]] for each field; [None] stands for [KeyError]. *)
Fixpoint render (kwargs : list (string * string)) (segments : list segment)
  : option string :=
  match segments with
  | [] => Some ""
  | Text text :: more => option_map (append text) (render kwargs more)
  | Field field_name :: more =>
      match find (fun kv => String.eqb (fst kv) field_name) kwargs with
      | Some kv => option_map (append (snd kv)) (render kwargs more)
      | None => None
      end
  end.

(** [template.format(name=value, ...)] for templates whose replacement
    fields are plain keyword names, which is all the program has: [{{]
    and [}}] stand for one brace, [{name}] for [kwargs[name]].  [None]
    stands for the exception Python raises (an unknown field, a stray
    brace).  [field] holds the characters of the field name read so far. *)
Fixpoint parse_format (field : option string) (s : string) : option (list segment) :=
  match s with
  | "" => match field with None => Some [] | Some _ => None end
  | String c rest =>
      match field with
      | Some field_name =>
          if Ascii.eqb c "}"
          then option_map (cons (Field field_name)) (parse_format None rest)
          else parse_format (Some (field_name ++ String c "")) rest
      | None =>
          if Ascii.eqb c "{" then
            match rest with
            | String "{" rest' => option_map (push_char "{") (parse_format None rest')
            | _ => parse_format (Some "") rest
            end
          else if Ascii.eqb c "}" then
            match rest with
            | String "}" rest' => option_map (push_char "}") (parse_format None rest')
            | _ => None
            end
          else option_map (push_char c) (parse_format None rest)
      end
  end.

Definition format (template : string) (kwargs : list (string * string)) : option string :=
  match parse_format None template with
  | Some segments => render kwargs segments
  | None => None
  end.

(** [string.Template(template).substitute(name=value, ...)]: [$$] is a
    dollar, [$name] and [${name}] are [kwargs[name]], where a name is a
    letter or underscore followed by letters, digits and underscores,
    taken as long as possible.  [None] stands for [KeyError] or
    [ValueError]. *)
Definition is_id_start (c : ascii) : bool :=
  let n := nat_of_ascii c in
  (((65 <=? n) && (n <=? 90)) || ((97 <=? n) && (n <=? 122)) || (n =? 95))%nat.

Definition is_id_char (c : ascii) : bool :=
  let n := nat_of_ascii c in
  is_id_start c || ((48 <=? n) && (n <=? 57))%nat.

Inductive subst_state : Type :=
| InText
| AfterDollar
| InName (id : string)
| InBraces (id : string).

Fixpoint parse_template (st : subst_state) (s : string) : option (list segment) :=
  match s with
  | "" =>
      match st with
      | InText => Some []
      | InName id => Some [Field id]
      | AfterDollar | InBraces _ => None
      end
  | String c rest =>
      match st with
      | InText =>
          if Ascii.eqb c "$" then parse_template AfterDollar rest
          else option_map (push_char c) (parse_template InText rest)
      | AfterDollar =>
          if Ascii.eqb c "$" then option_map (push_char "$") (parse_template InText rest)
          else if is_id_start c then parse_template (InName (String c "")) rest
          else if Ascii.eqb c "{" then parse_template (InBraces "") rest
          else None
      | InName id =>
          if is_id_char c then parse_template (InName (id ++ String c "")) rest
          else option_map (cons (Field id))
                 (if Ascii.eqb c "$" then parse_template AfterDollar rest
                  else option_map (push_char c) (parse_template InText rest))
      | InBraces id =>
          if Ascii.eqb c "}" then
            match id with
            | "" => None
            | _ => option_map (cons (Field id)) (parse_template InText rest)
            end
          else if (match id with "" => is_id_start c | _ => is_id_char c end)
          then parse_template (InBraces (id ++ String c "")) rest
          else None
      end
  end.

Definition substitute (template : string) (kwargs : list (string * string)) : option string :=
  match parse_template InText template with
  | Some segments => render kwargs segments
  | None => None
  end.

End Py.

(** ** Parsed documents *)

(** [l.append(x)] *)
Definition list_append {A : Type} (l : list A) (x : A) : list A := (l ++ [x])%list.

(** A Python dict: the items in insertion order. *)
Definition dict (V : Type) : Type := list (string * V).

(** [d[key]]; [None] stands for [KeyError]. *)
Fixpoint dict_get {V : Type} (d : dict V) (key : string) : option V :=
  match d with
  | [] => None
  | (k, v) :: rest => if String.eqb k key then Some v else dict_get rest key
  end.

(** [d[key] = value]: an existing key keeps its place, a new one goes
    last. *)
Fixpoint dict_set {V : Type} (d : dict V) (key : string) (value : V) : dict V :=
  match d with
  | [] => [(key, value)]
  | (k, v) :: rest =>
      if String.eqb k key then (k, value) :: rest
      else (k, v) :: dict_set rest key value
  end.

Definition dict_keys {V : Type} (d : dict V) : list string := map fst d.

(** The value tree a YAML parser hands over.  [VScalar] is any scalar of
    another type (a float, a date): the program only ever applies [str]
    to it, so it is kept as its [str] and [repr] texts. *)
Inductive PyVal : Type :=
| VNone
| VBool (b : bool)
| VInt (z : Z)
| VStr (s : string)
| VScalar (str_text repr_text : string)
| VList (elements : list PyVal)
| VDict (items : list (string * PyVal)).

Fixpoint py_repr (v : PyVal) : string :=
  match v with
  | VNone => "None"
  | VBool true => "True"
  | VBool false => "False"
  | VInt z => Py.str_of_Z z
  | VStr s => Py.repr_str s
  | VScalar _ repr_text => repr_text
  | VList elements => "[" ++ Py.join ", " (map py_repr elements) ++ "]"
  | VDict items =>
      "{" ++ Py.join ", "
               (map (fun kv => Py.repr_str (fst kv) ++ ": " ++ py_repr (snd kv)) items)
          ++ "}"
  end.

(** [str(v)] *)
Definition py_str (v : PyVal) : string :=
  match v with
  | VStr s => s
  | VScalar str_text _ => str_text
  | _ => py_repr v
  end.

(** ** The resolver *)

(** [ConfigError], one constructor per message the program raises. *)
Inductive ConfigError : Type :=
| EmptyDocument
| NotAMapping
| Missing (key : string)
| NotAList (key : string)
| AuthorsEmpty
| AuthorNotMapping
| AuthorMissingKeys
| GroupsNotMapping
| GroupNotList (group_name : string).

Definition message (e : ConfigError) : string :=
  match e with
  | EmptyDocument => "Configuration file is empty."
  | NotAMapping => "Configuration must define a mapping at the top level."
  | Missing key => "Missing '" ++ key ++ "' in configuration"
  | NotAList key => "'" ++ key ++ "' must be a list"
  | AuthorsEmpty => "'authors' must contain at least one entry"
  | AuthorNotMapping => "Each author entry must be a mapping with name/email"
  | AuthorMissingKeys => "Author entries require 'name' and 'email'"
  | GroupsNotMapping => "'dependency_groups' must be a mapping"
  | GroupNotList group_name => "Dependency group '" ++ group_name ++ "' must be a list"
  end.

(** An author entry of the descriptor: the dict [{"name": .., "email": ..}]
    the resolver builds. *)
Record Author : Type := mkAuthor { name : string; email : string }.

Record ProjectConfig : Type := mkProjectConfig {
  project_name : string;
  description : string;
  project_url : string;
  authors : list Author;
  dependencies : list string;
  dependency_groups : dict (list string);
  dev_extras : list string
}.

Definition DEFAULT_DEPENDENCY_GROUPS : dict (list string) :=
  [ ("test", ["pytest >=7"; "pytest-cov >=3"; "coverage[toml]"]);
    ("docs", ["sphinx>=7"; "furo"; "myst-parser<5"; "sphinx-design";
              "sphinx-togglebutton"; "sphinx-copybutton";
              "sphinx-autodoc-typehints"; "myst-nb"; "sphinxcontrib-mermaid"]);
    ("examples", ["rich"; "matplotlib>=3.10.7"]) ].

Definition DEV_BASELINE : list string := ["ipython"; "ruff"; "pre_commit"; "mypy"].

(** The result of code that may raise [ConfigError]. *)
Definition Checked (A : Type) : Type := (ConfigError + A)%type.

Definition check_bind {A B : Type} (c : Checked A) (k : A -> Checked B) : Checked B :=
  match c with
  | inl e => inl e
  | inr a => k a
  end.

Notation "x <-? c ;; k" := (check_bind c (fun x => k))
  (at level 61, c at next level, right associativity).

(** [try: raw[key] except KeyError: raise ConfigError("Missing ...")] *)
Definition lookup_required (raw : dict PyVal) (key : string) : Checked PyVal :=
  match dict_get raw key with
  | Some v => inr v
  | None => inl (Missing key)
  end.

(** [if not isinstance(v, list): raise ConfigError("'<key>' must be a list")] *)
Definition expect_list (key : string) (v : PyVal) : Checked (list PyVal) :=
  match v with
  | VList elements => inr elements
  | _ => inl (NotAList key)
  end.

(** The loop over [authors_raw]; [authors] is the list built so far. *)
Fixpoint coerce_authors (entries : list PyVal) (authors : list Author)
  : Checked (list Author) :=
  match entries with
  | [] => inr authors
  | entry :: rest =>
      match entry with
      | VDict fields =>
          match dict_get fields "name", dict_get fields "email" with
          | Some n, Some e =>
              coerce_authors rest (list_append authors (mkAuthor (py_str n) (py_str e)))
          | _, _ => inl AuthorMissingKeys
          end
      | _ => inl AuthorNotMapping
      end
  end.

(** The loop over [groups_raw.items()]. *)
Fixpoint overlay_groups (items : list (string * PyVal))
                        (dependency_groups : dict (list string))
  : Checked (dict (list string)) :=
  match items with
  | [] => inr dependency_groups
  | (group_name, deps) :: rest =>
      match deps with
      | VList elements =>
          overlay_groups rest (dict_set dependency_groups group_name (map py_str elements))
      | _ => inl (GroupNotList group_name)
      end
  end.

Definition coerce_config (raw : dict PyVal) : Checked ProjectConfig :=
  project_name_raw <-? lookup_required raw "project_name" ;;
  let project_name := py_str project_name_raw in
  description_raw <-? lookup_required raw "description" ;;
  let description := py_str description_raw in
  project_url_raw <-? lookup_required raw "project_url" ;;
  let project_url := py_str project_url_raw in
  authors_raw <-? lookup_required raw "authors" ;;
  authors_list <-? expect_list "authors" authors_raw ;;
  authors <-? match authors_list with
              | [] => inl AuthorsEmpty
              | _ => coerce_authors authors_list []
              end ;;
  dependencies_raw <-? lookup_required raw "dependencies" ;;
  dependencies_list <-? expect_list "dependencies" dependencies_raw ;;
  let dependencies := map py_str dependencies_list in
  groups_raw <-? lookup_required raw "dependency_groups" ;;
  groups_items <-? match groups_raw with
                   | VDict items => inr items
                   | _ => inl GroupsNotMapping
                   end ;;
  dependency_groups <-?
    overlay_groups groups_items
      (map (fun kv => (fst kv, map (fun dep : string => dep) (snd kv)))
           DEFAULT_DEPENDENCY_GROUPS) ;;
  dev_extras_raw <-? lookup_required raw "dev_extras" ;;
  dev_extras_list <-? expect_list "dev_extras" dev_extras_raw ;;
  let dev_extras := map py_str dev_extras_list in
  inr (mkProjectConfig project_name description
         (Py.rstrip_chars "/" project_url)
         authors dependencies dependency_groups dev_extras).

(** [read_config], after the external parser has produced [data]:
    reading the file and parsing it, and what these can raise, are
    outside the model. *)
Definition read_config (data : PyVal) : Checked (dict PyVal) :=
  match data with
  | VNone => inl EmptyDocument
  | VDict items => inr items
  | _ => inl NotAMapping
  end.

(** ** Derived names and renderers *)

Definition normalize_package_name (project_name : string) : string :=
  Py.replace " " "_" (Py.replace "-" "_" project_name).

Definition format_authors (authors : list Author) : string :=
  match authors with
  | [] => Py.lit "    { name = ~Mo~, email = ~todo@example.com~ },"
  | _ =>
      let lines :=
        fold_left
          (fun lines author =>
             list_append lines
               (Py.lit "    { name = ~" ++ name author
                  ++ Py.lit "~, email = ~" ++ email author ++ Py.lit "~ },"))
          authors [] in
      Py.join Py.NL lines
  end.

Definition format_string_array (values : list string) (indent : nat) : string :=
  match values with
  | [] => Py.spaces indent ++ "# Add entries here"
  | _ =>
      Py.join Py.NL
        (map (fun value => Py.spaces indent ++ Py.DQ ++ value ++ Py.lit "~,") values)
  end.

Definition format_dependency_groups (groups : dict (list string))
                                    (extra_dev : list string) : string :=
  let output_lines : list string := [] in
  let output_lines :=
    fold_left
      (fun output_lines item =>
         let '(group_name, deps) := item in
         if String.eqb group_name "dev" then output_lines
         else
           let output_lines := list_append output_lines (group_name ++ " = [") in
           let output_lines := list_append output_lines (format_string_array deps 4) in
           list_append output_lines ("]" ++ Py.NL))
      groups output_lines in
  let include_groups :=
    filter (fun name => negb (String.eqb name "dev")) (dict_keys groups) in
  let output_lines := list_append output_lines "dev = [" in
  let output_lines :=
    fold_left
      (fun output_lines group =>
         list_append output_lines
           (Py.lit "    { include-group = ~" ++ group ++ Py.lit "~ },"))
      include_groups output_lines in
  let output_lines :=
    fold_left
      (fun output_lines dep =>
         list_append output_lines ("    " ++ Py.DQ ++ dep ++ Py.lit "~,"))
      (DEV_BASELINE ++ extra_dev)%list output_lines in
  let output_lines := list_append output_lines "]" in
  Py.join Py.NL output_lines.

Definition escape_toml_string (value : string) : string :=
  Py.replace Py.DQ ("\" ++ Py.DQ) (Py.replace "\" "\\" value).

Definition build_author_label (authors : list Author) (project_name : string) : string :=
  match authors with
  | [] => project_name ++ " developers"
  | _ => Py.join ", " (map name authors)
  end.

(** The four URL fields of the manifest, as [build_pyproject] computes
    them. *)
Definition homepage (config : ProjectConfig) : string :=
  escape_toml_string (project_url config).
Definition issues_url (config : ProjectConfig) : string :=
  escape_toml_string (project_url config ++ "/issues").
Definition discussions_url (config : ProjectConfig) : string :=
  escape_toml_string (project_url config ++ "/discussions").
Definition releases_url (config : ProjectConfig) : string :=
  escape_toml_string (project_url config ++ "/releases").

(** ** The literal templates

    Each is the text of the source literal, with [~] for the double
    quote. *)

Definition PRE_COMMIT_CONFIG : string :=
  Py.dedent (Py.lit "    ci:
      autoupdate_commit_msg: ~chore: update pre-commit hooks~
      autofix_commit_msg: ~style: pre-commit fixes~

    repos:
      - repo: https://github.com/pre-commit/pre-commit-hooks
        rev: ~v6.0.0~
        hooks:
          - id: check-added-large-files
          - id: check-case-conflict
          - id: check-merge-conflict
          - id: check-symlinks
          - id: check-yaml
          - id: debug-statements
          - id: end-of-file-fixer
          - id: mixed-line-ending
          - id: name-tests-test
            args: [~--pytest-test-first~]
          - id: trailing-whitespace

      - repo: https://github.com/astral-sh/ruff-pre-commit
        rev: ~v0.12.9~
        hooks:
          - id: ruff
            args: [~--fix~, ~--show-fixes~]
          - id: ruff-format

      - repo: https://github.com/pre-commit/mirrors-mypy
        rev: ~v1.17.1~
        hooks:
          - id: mypy
            files: src|tests
            args: [--config-file=pyproject.toml]
            additional_dependencies:
              - pytest

      - repo: https://github.com/shellcheck-py/shellcheck-py
        rev: ~v0.11.0.1~
        hooks:
          - id: shellcheck

      - repo: https://github.com/adamchainz/blacken-docs
        rev: ~1.19.1~
        hooks:
          - id: blacken-docs
            additional_dependencies:
              - black==24.10.0

      - repo: https://github.com/codespell-project/codespell
        rev: v2.4.1
        hooks:
          - id: codespell
            exclude: ^(LICENSE$)

      - repo: https://github.com/henryiii/validate-pyproject-schema-store
        rev: 2025.08.15
        hooks:
          - id: validate-pyproject

      - repo: https://github.com/python-jsonschema/check-jsonschema
        rev: 0.33.3
        hooks:
          - id: check-readthedocs
          - id: check-github-workflows

      - repo: local
        hooks:
          - id: coverage
            name: coverage
            entry: bash -c 'if command -v uv >/dev/null 2>&1; then uv run coverage erase && uv run coverage run -m pytest && uv run coverage report --fail-under=85; else coverage erase && coverage run -m pytest && coverage report --fail-under=85; fi'
            language: system
            types: [python]
            pass_filenames: false
    ").

Definition READTHEDOCS_CONFIG : string :=
  Py.dedent (Py.lit "    # https://docs.readthedocs.com/platform/stable/build-customization.html#install-dependencies-with-uv

    version: 2

    sphinx:
       configuration: docs/conf.py

    build:
       os: ubuntu-24.04
       tools:
          python: ~3.13~
       jobs:
          pre_create_environment:
             - asdf plugin add uv
             - asdf install uv latest
             - asdf global uv latest
          create_environment:
             - uv venv ~${READTHEDOCS_VIRTUALENV_PATH}~
          install:
             - UV_PROJECT_ENVIRONMENT=~${READTHEDOCS_VIRTUALENV_PATH}~ uv sync --group docs
    ").

Definition LICENSE_TEXT : string :=
  Py.dedent (Py.lit "    MIT License

    Copyright (c) 2024 {copyright_holder}

    Permission is hereby granted, free of charge, to any person obtaining a copy
    of this software and associated documentation files (the ~Software~), to deal
    in the Software without restriction, including without limitation the rights
    to use, copy, modify, merge, publish, distribute, sublicense, and/or sell
    copies of the Software, and to permit persons to whom the Software is
    furnished to do so, subject to the following conditions:

    The above copyright notice and this permission notice shall be included in all
    copies or substantial portions of the Software.

    THE SOFTWARE IS PROVIDED ~AS IS~, WITHOUT WARRANTY OF ANY KIND, EXPRESS OR
    IMPLIED, INCLUDING BUT NOT LIMITED TO THE WARRANTIES OF MERCHANTABILITY,
    FITNESS FOR A PARTICULAR PURPOSE AND NONINFRINGEMENT. IN NO EVENT SHALL THE
    AUTHORS OR COPYRIGHT HOLDERS BE LIABLE FOR ANY CLAIM, DAMAGES OR OTHER
    LIABILITY, WHETHER IN AN ACTION OF CONTRACT, TORT OR OTHERWISE, ARISING FROM,
    OUT OF OR IN CONNECTION WITH THE SOFTWARE OR THE USE OR OTHER DEALINGS IN THE
    SOFTWARE.
    ").

Definition README_STUB : string :=
  "# {project_name}

This is a STUB.
".

Definition DOC_STUB : string :=
  "This is a STUB.
".

Definition DOC_INDEX_TEMPLATE : string :=
  "# {project_name} documentation

This is a STUB.

```{{toctree}}
:maxdepth: 1
:caption: User Guide

introduction
quickstart
concepts
tutorials
```

```{{toctree}}
:maxdepth: 1
:caption: Developer Guide

architecture
contributing
```

```{{toctree}}
:maxdepth: 1
:caption: Reference

api/index
```
".

Definition DOC_API_INDEX : string :=
  Py.dedent ("    # API Reference

    The API reference is generated automatically from the source code. Modules are
    listed roughly in the order you will encounter them.

    ```{eval-rst}
    .. toctree::
       :maxdepth: 2
    ```

    This is a STUB.
    ").

Definition DOC_CONF_TEMPLATE : string :=
  Py.lit "    ~~~Sphinx configuration for the $project_name documentation.~~~

    from __future__ import annotations

    import datetime as _dt
    import sys
    from pathlib import Path

    PROJECT_ROOT = Path(__file__).resolve().parents[1]
    sys.path.insert(0, str(PROJECT_ROOT / ~src~))

    project = ~$project_name~
    author = ~$author_label~
    copyright = f~{{_dt.datetime.now().year}}, $author_label~

    extensions = [
        ~myst_nb~,
        ~sphinx_design~,
        ~sphinx.ext.autodoc~,
        ~sphinx.ext.autosummary~,
        ~sphinx.ext.napoleon~,
        ~sphinx.ext.intersphinx~,
        ~sphinx.ext.viewcode~,
        ~sphinxcontrib.mermaid~,
    ]

    autosummary_generate = True
    autosummary_imported_members = False
    autodoc_typehints = ~description~
    napoleon_google_docstring = True
    napoleon_numpy_docstring = True

    autodoc_default_options = {
        ~members~: True,
        ~undoc-members~: False,
        ~show-inheritance~: False,
    }
    autodoc_member_order = ~bysource~

    myst_enable_extensions = [
        ~colon_fence~,
        ~deflist~,
        ~html_image~,
    ]

    myst_fence_as_directive = [~mermaid~]

    nb_execution_mode = ~off~

    html_theme = ~furo~
    html_static_path = [~_static~]
    html_css_files = [~custom.css~]
    html_logo = None
    html_theme_options = {{
        ~footer_icons~: [
            {{
                ~name~: ~GitHub~,
                ~url~: ~$repository_url~,
                ~html~: ~~~
                    <svg stroke=~currentColor~ fill=~currentColor~ stroke-width=~0~ viewBox=~0 0 16 16~>
                        <path fill-rule=~evenodd~ d=~M8 0C3.58 0 0 3.58 0 8c0 3.54 2.29 6.53 5.47 7.59.4.07.55-.17.55-.38 0-.19-.01-.82-.01-1.49-2.01.37-2.53-.49-2.69-.94-.09-.23-.48-.94-.82-1.13-.28-.15-.68-.52-.01-.53.63-.01 1.08.58 1.23.82.72 1.21 1.87.87 2.33.66.07-.52.28-.87.51-1.07-1.78-.2-3.64-.89-3.64-3.95 0-.87.31-1.59.82-2.15-.08-.2-.36-1.02.08-2.12 0 0 .67-.21 2.2.82.64-.18 1.32-.27 2-.27.68 0 1.36.09 2 .27 1.53-1.04 2.2-.82 2.2-.82.44 1.1.16 1.92.08 2.12.51.56.82 1.27.82 2.15 0 3.07-1.87 3.75-3.65 3.95.29.25.54.73.54 1.48 0 1.07-.01 1.93-.01 2.2 0 .21.15.46.55.38A8.013 8.013 0 0 0 16 8c0-4.42-3.58-8-8-8z~></path>
                    </svg>
                ~~~,
                ~class~: ~~,
            }},
        ],
        ~source_repository~: ~$repository_url~,
        ~source_branch~: ~main~,
        ~source_directory~: ~docs/~,
    }}

    intersphinx_mapping = {{
        ~python~: (~https://docs.python.org/3~, None),
        ~numpy~: (~https://numpy.org/doc/stable/~, None),
        ~jax~: (~https://jax.readthedocs.io/en/latest/~, None),
    }}

    templates_path = [~_templates~]
    exclude_patterns = [~_build~, ~Thumbs.db~, ~.DS_Store~, ~python/~]

    html_title = ~ ~
    html_baseurl = ~https://$project_name.readthedocs.io/~
    ".

Definition DOCS_CUSTOM_CSS : string :=
  Py.dedent ("    /* Force left alignment for autosummary tables in API reference */
    table.autosummary {
        margin-left: 0 !important;
        margin-right: auto !important;
    }

    /* Force left alignment for all docutils tables */
    table.docutils {
        margin-left: 0 !important;
        margin-right: auto !important;
    }

    /* Force left alignment for longtable */
    table.longtable {
        margin-left: 0 !important;
        margin-right: auto !important;
    }

    /* Ensure function/class signature blocks are left-aligned */
    dl.py,
    dl.function,
    dl.class,
    dl.method,
    dl.attribute {
        text-align: left !important;
    }

    /* Force left alignment for definition lists */
    dl {
        margin-left: 0 !important;
    }
    ").

Definition DOCS_MAKEFILE : string :=
  Py.dedent (Py.lit "    # Makefile for Sphinx documentation
    # taken from: https://github.com/cms-cat/order/blob/master/docs/Makefile

    # You can set these variables from the command line.
    SPHINXOPTS  =
    SPHINXBUILD = sphinx-build
    PAPER       =
    BUILDDIR    = _build

    # User-friendly check for sphinx-build
    ifeq ($(shell which $(SPHINXBUILD) >/dev/null 2>&1; echo $$?), 1)
    $(error The '$(SPHINXBUILD)' command was not found. Make sure you have Sphinx installed, then set the SPHINXBUILD environment variable to point to the full path of the '$(SPHINXBUILD)' executable. Alternatively you can add the directory with the executable to your PATH. If you don't have Sphinx installed, grab it from http://sphinx-doc.org/)
    endif

    # Internal variables.
    PAPEROPT_a4     = -D latex_paper_size=a4
    PAPEROPT_letter = -D latex_paper_size=letter
    ALLSPHINXOPTS   = -d $(BUILDDIR)/doctrees $(PAPEROPT_$(PAPER)) $(SPHINXOPTS) .
    # the i18n builder cannot share the environment and doctrees with the others
    I18NSPHINXOPTS  = $(PAPEROPT_$(PAPER)) $(SPHINXOPTS) .

    .PHONY: help clean html

    help:
    	@echo ~Please use `make <target>' where <target> is one of~
    	@echo ~  clean      to cleanup all build files~
    	@echo ~  html       to make standalone HTML files~

    clean:
    	rm -rf $(BUILDDIR)/*

    html:
    	$(SPHINXBUILD) -b html $(ALLSPHINXOPTS) $(BUILDDIR)/html
    	@echo
    	@echo ~Build finished. The HTML pages are in $(BUILDDIR)/html.~
    ").

Definition INIT_TEMPLATE : string :=
  Py.dedent (Py.lit "    ~~~
    {project_name}: {description}
    ~~~

    from __future__ import annotations

    import datetime

    __name__ = ~{package_name}~
    __author__ = ~{author_label}~
    __copyright__ = f~Copyright {{datetime.datetime.now().year}}, {author_label}~
    __version__ = ~0.0.1~

    __all__ = [
        ~__version__~,
    ]
    ").

Definition CI_WORKFLOW : string :=
  Py.dedent (Py.lit "    name: CI

    concurrency:
      group: ${{ github.workflow }}-${{ github.ref }}
      cancel-in-progress: true

    on:
      workflow_dispatch:
      pull_request:
      push:
        branches:
          - main

    jobs:
      pre-commit:
        name: Format + lint code
        runs-on: ubuntu-latest
        steps:
          - uses: actions/checkout@v5
            with:
              fetch-depth: 0
          - uses: actions/setup-python@v6
            with:
              python-version: ~3.13~
          - name: Install uv
            uses: astral-sh/setup-uv@v7
          - name: Sync project dependencies
            run: uv sync --group=dev
          - uses: pre-commit/action@v3.0.1
            with:
              extra_args: --all-files

      checks:
        name: Run tests for Python ${{ matrix.python-version }} on ${{ matrix.runs-on }}
        runs-on: ${{ matrix.runs-on }}
        needs: [pre-commit]
        strategy:
          fail-fast: false
          matrix:
            python-version: [~3.11~, ~3.12~, ~3.13~]
            runs-on: [ubuntu-latest]

        steps:
          - uses: actions/checkout@v5
            with:
              fetch-depth: 0

          - uses: actions/setup-python@v6
            with:
              python-version: ${{ matrix.python-version }}
              allow-prereleases: true

          - name: Install uv
            uses: astral-sh/setup-uv@v7

          - name: Sync project + test deps
            run: uv sync --group=test

          - name: Test package
            run: >-
              uv run pytest -ra --cov --cov-report=xml --cov-report=term
              --durations=20

      docs:
        name: Build documentation
        runs-on: ubuntu-latest
        needs: [pre-commit]
        steps:
          - uses: actions/checkout@v5
            with:
              fetch-depth: 0

          - uses: actions/setup-python@v6
            with:
              python-version: ~3.13~

          - name: Install uv
            uses: astral-sh/setup-uv@v7

          - name: Sync project + docs deps
            run: uv sync --group=docs

          - name: Build docs
            run: uv run sphinx-build -M html docs docs/_build -W --keep-going
    ").

Definition GITIGNORE_DEFAULT : string :=
  Py.dedent ("    __pycache__/
    *.pyc
    ").


Definition placeholder_test : string :=
  Py.dedent ("        from __future__ import annotations


        def test_placeholder() -> None:
            assert True
        ").

(** ** The manifest *)

Definition build_pyproject (config : ProjectConfig) : string :=
  let package_name := normalize_package_name (project_name config) in
  let authors_block := format_authors (authors config) in
  let dependencies_block := format_string_array (dependencies config) 4 in
  let dependency_groups_block :=
    format_dependency_groups (dependency_groups config) (dev_extras config) in
  let description := escape_toml_string (description config) in
  Py.dedent
    (Py.fstring
      [ Py.lit "        [build-system]
        requires = [~hatchling~]
        build-backend = ~hatchling.build~


        [project]
        name = ~";
       project_name config;
       Py.lit "~
        description = ~";
       description;
       Py.lit "~
        license = ~MIT~
        license-files = [~LICENSE~]
        readme = ~README.md~
        requires-python = ~>=3.11~
        classifiers = [
            ~Development Status :: 1 - Planning~,
            ~Intended Audience :: Science/Research~,
            ~Intended Audience :: Developers~,
            ~Operating System :: OS Independent~,
            ~Programming Language :: Python~,
            ~Programming Language :: Python :: 3~,
            ~Programming Language :: Python :: 3 :: Only~,
            ~Programming Language :: Python :: 3.11~,
            ~Programming Language :: Python :: 3.12~,
            ~Programming Language :: Python :: 3.13~,
            ~Topic :: Scientific/Engineering~,
            ~Typing :: Typed~,
        ]
        dynamic = [~version~]
        authors = [
        ";
       authors_block;
       "
        ]
        dependencies = [
        ";
       dependencies_block;
       "
        ]


        [dependency-groups]
        ";
       dependency_groups_block;
       Py.lit "


        [project.urls]
        Homepage = ~";
       homepage config;
       Py.lit "~
        ~Bug Tracker~ = ~";
       issues_url config;
       Py.lit "~
        Discussions = ~";
       discussions_url config;
       Py.lit "~
        Changelog = ~";
       releases_url config;
       Py.lit "~


        [tool.hatch]
        version.path = ~src/";
       package_name;
       Py.lit "/__init__.py~


        [tool.pytest.ini_options]
        minversion = ~7~
        xfail_strict = true
        addopts = [~-ra~, ~--strict-config~, ~--strict-markers~]
        pythonpath = [~src~]
        filterwarnings = [
            ~error~,
        ]
        log_cli_level = ~INFO~
        testpaths = [~tests~]


        [tool.coverage]
        run.source = [~";
       package_name;
       Py.lit "~]
        port.exclude_lines = ['pragma: no cover', '\.\.\.', 'if typing.TYPE_CHECKING:']


        [tool.mypy]
        files = [~src~, ~tests~]
        python_version = ~3.13~
        warn_unreachable = true
        disallow_untyped_defs = false
        disallow_incomplete_defs = false
        check_untyped_defs = true
        enable_error_code = [~ignore-without-code~, ~redundant-expr~, ~truthy-bool~]
        strict = false
        ignore_missing_imports = true


        [tool.ruff.lint]
        preview = true
        ignore = [
            ~PLR~,
            ~E501~,
            ~I002~,
            ~ISC001~,
            ~PLC0415~,
            ~PLW3201~,
            ~RUF052~,
            ~F722~,
        ]
        select = [
            ~E~,
            ~F~,
            ~W~,
            ~B~,
            ~I~,
            ~C4~,
            ~EM~,
            ~ICN~,
            ~ISC~,
            ~G~,
            ~PGH~,
            ~PIE~,
            ~PL~,
            ~PT~,
            ~PTH~,
            ~RET~,
            ~RUF~,
            ~SIM~,
            ~UP~,
            ~YTT~,
            ~EXE~,
            ~E303~,
        ]
        unfixable = [
            ~F841~,
        ]
        flake8-unused-arguments.ignore-variadic-names = true
        isort.required-imports = [~from __future__ import annotations~]
        " ]).

(** ** The file tree

    The operating system under [pathlib] is outside the program; what
    follows is the part of it the emitter relies on: directories and
    regular files, no symbolic links, and a component [..] that is a name
    like any other.  The tree is that of a file system for paths made of
    ordinary names ([component_ok], [path_ok] below): a file system
    reads [..] as the directory above and refuses a name with a null
    character and a name or a path that is too long, and none of this
    is in the tree. *)

(** A resolved absolute path: its components, innermost first, so that
    the parent directory is the tail and the root is the empty list. *)
Definition Path : Type := list string.

Inductive Node : Type :=
| Dir
| File (content : string).

(** The tree maps a path to what is stored there.  Only entries reached
    through directories count ([stat]). *)
Definition FS : Type := Path -> option Node.

Definition path_eqb (p q : Path) : bool :=
  if list_eq_dec string_dec p q then true else false.

Definition store (fs : FS) (p : Path) (n : Node) : FS :=
  fun q => if path_eqb q p then Some n else fs q.

Inductive OSError : Type :=
| FileNotFoundError
| FileExistsError
| NotADirectoryError
| IsADirectoryError.

(** What a run can raise, on paths made of ordinary names.  (For a
    name with a null character Python raises [ValueError], which is
    not here.) *)
Inductive Exception : Type :=
| ConfigErr (e : ConfigError)
| DestinationMissing (destination_path : Path)
| AlreadyExists (project_root : Path)
| OSErr (kind : OSError) (path : Path)
| TemplateErr.

(** [path / segment] of pathlib: the segment is cut at slashes, empty
    and [.] components are dropped, and a segment that starts with a
    slash replaces the path. *)
Definition path_parts (segment : string) : list string :=
  filter (fun part => negb (String.eqb part "" || String.eqb part "."))
         (Py.split_on "/" segment).

Definition join_path (path : Path) (segment : string) : Path :=
  if prefix "/" segment then rev (path_parts segment)
  else (rev (path_parts segment) ++ path)%list.

Notation "p // s" := (join_path p s) (at level 40, left associativity).

(** Following a path from the root. *)
Fixpoint stat (fs : FS) (p : Path) : OSError + Node :=
  match p with
  | [] => inr Dir
  | _ :: parent =>
      match stat fs parent with
      | inl e => inl e
      | inr (File _) => inl NotADirectoryError
      | inr Dir =>
          match fs p with
          | Some n => inr n
          | None => inl FileNotFoundError
          end
      end
  end.

Definition os_mkdir (fs : FS) (p : Path) : OSError + FS :=
  match p with
  | [] => inl FileExistsError
  | _ :: parent =>
      match stat fs parent with
      | inl e => inl e
      | inr (File _) => inl NotADirectoryError
      | inr Dir =>
          match fs p with
          | Some _ => inl FileExistsError
          | None => inr (store fs p Dir)
          end
      end
  end.

Definition os_write (fs : FS) (p : Path) (content : string) : OSError + FS :=
  match p with
  | [] => inl IsADirectoryError
  | _ :: parent =>
      match stat fs parent with
      | inl e => inl e
      | inr (File _) => inl NotADirectoryError
      | inr Dir =>
          match fs p with
          | Some Dir => inl IsADirectoryError
          | _ => inr (store fs p (File content))
          end
      end
  end.

(** ** Code with effects on the file tree *)

Inductive Outcome (A : Type) : Type :=
| Returned (value : A) (fs : FS)
| Raised (e : Exception) (fs : FS).
Arguments Returned {A} value fs.
Arguments Raised {A} e fs.

Definition IO (A : Type) : Type := FS -> Outcome A.

Definition ret {A : Type} (a : A) : IO A := fun fs => Returned a fs.
Definition raise {A : Type} (e : Exception) : IO A := fun fs => Raised e fs.
Definition bind {A B : Type} (c : IO A) (k : A -> IO B) : IO B :=
  fun fs =>
    match c fs with
    | Returned a fs' => k a fs'
    | Raised e fs' => Raised e fs'
    end.

Notation "x <- c ;; k" := (bind c (fun x => k))
  (at level 61, c at next level, right associativity).
Notation "c ;; k" := (bind c (fun _ => k))
  (at level 61, right associativity).

Definition final_fs {A : Type} (o : Outcome A) : FS :=
  match o with
  | Returned _ fs => fs
  | Raised _ fs => fs
  end.

(** [for x in items: body(x)] *)
Fixpoint for_each {A : Type} (body : A -> IO unit) (items : list A) : IO unit :=
  match items with
  | [] => ret tt
  | x :: rest => body x ;; for_each body rest
  end.

(** [path.exists()] *)
Definition path_exists (p : Path) : IO bool :=
  fun fs => Returned (match stat fs p with inr _ => true | inl _ => false end) fs.

Definition is_dir (fs : FS) (p : Path) : bool :=
  match stat fs p with
  | inr Dir => true
  | _ => false
  end.

(** [path.mkdir(parents=False, exist_ok=exist_ok)] *)
Definition mkdir_here (exist_ok : bool) (p : Path) : IO unit :=
  fun fs =>
    match os_mkdir fs p with
    | inr fs' => Returned tt fs'
    | inl FileNotFoundError => Raised (OSErr FileNotFoundError p) fs
    | inl e => if exist_ok && is_dir fs p then Returned tt fs else Raised (OSErr e p) fs
    end.

(** [path.mkdir(parents=True, exist_ok=exist_ok)]: when the parent is
    missing it is made first, with [exist_ok=True], and the directory
    itself is then made without [parents]. *)
Fixpoint mkdir_parents (exist_ok : bool) (p : Path) : IO unit :=
  fun fs =>
    match os_mkdir fs p with
    | inr fs' => Returned tt fs'
    | inl FileNotFoundError =>
        match p with
        | [] => Raised (OSErr FileNotFoundError p) fs
        | _ :: parent => (mkdir_parents true parent ;; mkdir_here exist_ok p) fs
        end
    | inl e => if exist_ok && is_dir fs p then Returned tt fs else Raised (OSErr e p) fs
    end.

(** [path.write_text(text)] *)
Definition write_text (p : Path) (text : string) : IO unit :=
  fun fs =>
    match os_write fs p text with
    | inr fs' => Returned tt fs'
    | inl e => Raised (OSErr e p) fs
    end.

(** The value of a [format] or [substitute] call, or its exception. *)
Definition formatted (result : option string) : IO string :=
  match result with
  | Some text => ret text
  | None => raise TemplateErr
  end.

(** ** The emitter *)

Definition ensure_directory (path : Path) : IO unit := mkdir_parents true path.

Definition write_file (path : Path) (content : string) : IO unit :=
  write_text path (Py.rstrip content ++ Py.NL).

(** [GITIGNORE_CONTENT] is fixed when the module is loaded: the text of
    [.gitignore] in the working directory when there is one. *)
Definition GITIGNORE_CONTENT (local_gitignore : option string) : string :=
  match local_gitignore with
  | Some text => text
  | None => GITIGNORE_DEFAULT
  end.

(** The body of [generate_from_config] from the destination check on:
    the emission of one validated descriptor.  [destination_path] is the
    destination already resolved. *)
Definition emit (local_gitignore : option string) (config : ProjectConfig)
                (destination_path : Path) : IO Path :=
  destination_exists <- path_exists destination_path ;;
  if negb destination_exists then raise (DestinationMissing destination_path) else
  let project_root := destination_path // project_name config in
  project_root_exists <- path_exists project_root ;;
  if project_root_exists then raise (AlreadyExists project_root) else
  let package_name := normalize_package_name (project_name config) in
  let author_label_value := build_author_label (authors config) (project_name config) in
  let directories :=
    [ project_root // "src" // package_name;
      project_root // "tests";
      project_root // "docs" // "_static";
      project_root // "docs" // "_templates";
      project_root // "docs" // "api";
      project_root // ".github" // "workflows";
      project_root // "examples" ] in
  for_each ensure_directory directories ;;
  write_file (project_root // "pyproject.toml") (build_pyproject config) ;;
  write_file (project_root // ".pre-commit-config.yaml") PRE_COMMIT_CONFIG ;;
  write_file (project_root // ".readthedocs.yaml") READTHEDOCS_CONFIG ;;
  license <- formatted (Py.format LICENSE_TEXT [("copyright_holder", author_label_value)]) ;;
  write_file (project_root // "LICENSE") license ;;
  readme <- formatted (Py.format README_STUB [("project_name", project_name config)]) ;;
  write_file (project_root // "README.md") readme ;;
  write_file (project_root // ".gitignore") (GITIGNORE_CONTENT local_gitignore) ;;
  write_file (project_root // ".github" // "workflows" // "ci.yml") CI_WORKFLOW ;;
  index <- formatted (Py.format DOC_INDEX_TEMPLATE [("project_name", project_name config)]) ;;
  write_file (project_root // "docs" // "index.md") index ;;
  conf <- formatted (Py.substitute DOC_CONF_TEMPLATE
                       [ ("project_name", project_name config);
                         ("author_label", author_label_value);
                         ("repository_url", project_url config) ]) ;;
  write_file (project_root // "docs" // "conf.py") conf ;;
  write_file (project_root // "docs" // "introduction.md") ("# Introduction" ++ Py.NL ++ Py.NL ++ DOC_STUB) ;;
  write_file (project_root // "docs" // "quickstart.md") ("# Quickstart" ++ Py.NL ++ Py.NL ++ DOC_STUB) ;;
  write_file (project_root // "docs" // "concepts.md") ("# Core Concepts" ++ Py.NL ++ Py.NL ++ DOC_STUB) ;;
  write_file (project_root // "docs" // "tutorials.md") ("# Tutorials" ++ Py.NL ++ Py.NL ++ DOC_STUB) ;;
  write_file (project_root // "docs" // "architecture.md") ("# Architecture" ++ Py.NL ++ Py.NL ++ DOC_STUB) ;;
  write_file (project_root // "docs" // "contributing.md") ("# Contributing Guide" ++ Py.NL ++ Py.NL ++ DOC_STUB) ;;
  write_file (project_root // "docs" // "api" // "index.md") DOC_API_INDEX ;;
  write_file (project_root // "docs" // "api" // "inference.md") ("# Inference API" ++ Py.NL ++ Py.NL ++ DOC_STUB) ;;
  write_file (project_root // "docs" // "api" // "parameters.md") ("# Parameters API" ++ Py.NL ++ Py.NL ++ DOC_STUB) ;;
  write_file (project_root // "docs" // "api" // "statelib.md") ("# Statelib API" ++ Py.NL ++ Py.NL ++ DOC_STUB) ;;
  write_file (project_root // "docs" // "_static" // "custom.css") DOCS_CUSTOM_CSS ;;
  write_file (project_root // "docs" // "_templates" // ".gitkeep") "" ;;
  write_file (project_root // "docs" // "Makefile") DOCS_MAKEFILE ;;
  init <- formatted (Py.format INIT_TEMPLATE
                       [ ("project_name", project_name config);
                         ("description", description config);
                         ("package_name", package_name);
                         ("author_label", author_label_value) ]) ;;
  write_file (project_root // "src" // package_name // "__init__.py") init ;;
  write_file (project_root // "tests" // "test_placeholder.py") placeholder_test ;;
  write_file (project_root // "examples" // ".gitkeep") "" ;;
  ret project_root.

(** [generate_from_config]: [data] is what the parser made of the
    configuration file, so a run starts where the file has been read
    and parsed. *)
Definition generate_from_config (local_gitignore : option string) (data : PyVal)
                                (destination_path : Path) : IO Path :=
  match check_bind (read_config data) coerce_config with
  | inl e => raise (ConfigErr e)
  | inr config => emit local_gitignore config destination_path
  end.

(* ================================================================== *)
(** * Part II: the vocabulary of the properties                        *)
(* ================================================================== *)

(** ** Text *)

(** [sub] occurs in [s]. *)
Definition Contains (sub s : string) : Prop :=
  exists pre post, s = pre ++ sub ++ post.

(** ** Package identifier *)

(** What the specification says of one character of a project name. *)
Definition identifier_char (c : ascii) : ascii :=
  if Ascii.eqb c "-" || Ascii.eqb c " " then "_"%char else c.

(** ** Dependency groups *)

Definition is_dev (item : string * list string) : bool := String.eqb (fst item) "dev".

(** The groups that are not called [dev], in encounter order. *)
Definition other_groups (groups : dict (list string)) : dict (list string) :=
  filter (fun item => negb (is_dev item)) groups.

(** The list block of one group: a header, the quoted entries and the
    closing bracket followed by an empty line. *)
Definition group_block (item : string * list string) : list string :=
  [fst item ++ " = ["; format_string_array (snd item) 4; "]" ++ Py.NL].

Definition include_line (group : string) : string :=
  Py.lit "    { include-group = ~" ++ group ++ Py.lit "~ },".

Definition entry_line (dep : string) : string :=
  "    " ++ Py.DQ ++ dep ++ Py.DQ ++ ",".

(** The synthesized [dev] group. *)
Definition dev_block (groups : dict (list string)) (dev_extras : list string)
  : list string :=
  (["dev = ["]
   ++ map include_line (dict_keys (other_groups groups))
   ++ map entry_line ["ipython"; "ruff"; "pre_commit"; "mypy"]
   ++ map entry_line dev_extras
   ++ ["]"])%list.

(** The entries of a list block, as the manifest has them: one quoted
    line per entry, or the comment line when the group is empty. *)
Definition entries_block (deps : list string) : string :=
  match deps with
  | [] => "    # Add entries here"
  | _ => Py.join Py.NL (map entry_line deps)
  end.

(** The list block of one group, line by line: the header with the
    name of the group, its entries, and the closing bracket followed by
    an empty line. *)
Definition list_block (item : string * list string) : list string :=
  [fst item ++ " = ["; entries_block (snd item); "]" ++ Py.NL].

(** Groups with a [dev] group of the caller's, and what is rendered
    for them with [pytest-xdist] as the only extra. *)
Definition groups_with_dev : dict (list string) :=
  [("test", ["pytest"]); ("dev", ["black"; "tox"])].

Definition groups_with_dev_rendered : string :=
  Py.lit "test = [
    ~pytest~,
]

dev = [
    { include-group = ~test~ },
    ~ipython~,
    ~ruff~,
    ~pre_commit~,
    ~mypy~,
    ~pytest-xdist~,
]".

(** ** Resolution *)

(** The order in which the resolver looks at the fields. *)
Definition checking_order : list string :=
  ["project_name"; "description"; "project_url"; "authors";
   "dependencies"; "dependency_groups"; "dev_extras"].

Definition scalar_fields : list string := ["project_name"; "description"; "project_url"].

Definition is_list (v : PyVal) : bool :=
  match v with
  | VList _ => true
  | _ => false
  end.

Definition has_key (fields : dict PyVal) (key : string) : bool :=
  match dict_get fields key with
  | Some _ => true
  | None => false
  end.

(** An author entry is a mapping with a name and an email. *)
Definition author_entry_ok (entry : PyVal) : bool :=
  match entry with
  | VDict fields => has_key fields "name" && has_key fields "email"
  | _ => false
  end.

(** Whether a field is present and well formed: a scalar field only has
    to be present; [authors] is a non-empty sequence of author entries;
    [dependencies] and [dev_extras] are sequences; [dependency_groups]
    is a mapping whose values are sequences. *)
Definition field_ok (raw : dict PyVal) (field : string) : bool :=
  match dict_get raw field with
  | None => false
  | Some v =>
      if String.eqb field "authors" then
        match v with
        | VList (entry :: entries) => forallb author_entry_ok (entry :: entries)
        | _ => false
        end
      else if String.eqb field "dependencies" || String.eqb field "dev_extras" then is_list v
      else if String.eqb field "dependency_groups" then
        match v with
        | VDict items => forallb (fun item => is_list (snd item)) items
        | _ => false
        end
      else true
  end.

Definition first_offending (raw : dict PyVal) : option string :=
  find (fun field => negb (field_ok raw field)) checking_order.

(** The field a [ConfigError] is about. *)
Definition error_field (e : ConfigError) : option string :=
  match e with
  | EmptyDocument | NotAMapping => None
  | Missing key | NotAList key => Some key
  | AuthorsEmpty | AuthorNotMapping | AuthorMissingKeys => Some "authors"
  | GroupsNotMapping | GroupNotList _ => Some "dependency_groups"
  end.

(** The errors about one entry of a field (an author entry, a group):
    their messages speak of the entry and do not quote the field. *)
Definition about_entry (e : ConfigError) : bool :=
  match e with
  | AuthorNotMapping | AuthorMissingKeys | GroupNotList _ => true
  | _ => false
  end.

(** A caller-supplied group, stringified. *)
Definition stringified (v : PyVal) : list string :=
  match v with
  | VList elements => map py_str elements
  | _ => []
  end.

(** The scalar fields of a descriptor, by name. *)
Definition scalar_field (config : ProjectConfig) (key : string) : string :=
  if String.eqb key "project_name" then project_name config
  else if String.eqb key "description" then description config
  else project_url config.

(** ** URLs *)

(** What [dedent] does to a line before it looks for the margin. *)
Definition blank_to_empty (line : string) : string :=
  if Py.all_blank line then "" else line.

Fixpoint all_chars (p : ascii -> bool) (s : string) : bool :=
  match s with
  | "" => true
  | String c rest => p c && all_chars p rest
  end.

Fixpoint last_char (s : string) : option ascii :=
  match s with
  | "" => None
  | String c "" => Some c
  | String _ rest => last_char rest
  end.

Definition is_slash (c : ascii) : bool := Ascii.eqb c "/".

(** No backslash and no double quote: nothing for [escape_toml_string]
    to escape. *)
Definition toml_plain (s : string) : bool :=
  all_chars (fun c => negb (Ascii.eqb c "\" || Ascii.eqb c Py.dq)) s.

(** The text [dedent] returns when there is no margin to remove. *)
Definition lines_text (text : string) : string :=
  Py.join Py.NL (map blank_to_empty (Py.split_lines text)).

Definition no_line_feed (s : string) : bool :=
  all_chars (fun c => negb (Ascii.eqb c Py.nl)) s.

(** ** Sample documents *)

Definition sample_document : dict PyVal :=
  [ ("project_name", VStr "sample-project");
    ("description", VStr "Sample description of the project.");
    ("project_url", VStr "https://github.com/MoAly98/sample-project//");
    ("authors", VList [VDict [("name", VStr "Mo"); ("email", VStr "mo@example.com")]]);
    ("dependencies", VList [VStr "numpy"; VStr "scipy"]);
    ("dependency_groups", VDict [("test", VList [VStr "pytest"]); ("bench", VList [VInt 3])]);
    ("dev_extras", VList [VStr "pytest-xdist"]) ].

Definition null_name_document : dict PyVal :=
  dict_set sample_document "project_name" VNone.

(** ** Written files *)

(** Text that ends with one line feed and has no other trailing
    whitespace. *)
Definition well_terminated (text : string) : Prop :=
  exists body, text = body ++ Py.NL /\ Py.rstrip body = body.

Fixpoint endswith (suffix s : string) : bool :=
  String.eqb s suffix ||
  match s with
  | "" => false
  | String _ rest => endswith suffix rest
  end.

(** A field called [field_name] stands between text that ends with
    [before] and text that starts with [after]. *)
Fixpoint seg_occurs (before field_name after : string) (segments : list Py.segment)
  : bool :=
  match segments with
  | [] => false
  | seg :: rest =>
      match seg, rest with
      | Py.Text t1, Py.Field n :: Py.Text t2 :: _ =>
          endswith before t1 && String.eqb n field_name && prefix after t2
      | _, _ => false
      end
      || seg_occurs before field_name after rest
  end.

(** ** Relations between file trees *)

(** An action keeps [R] between the tree it starts from and the tree it
    leaves, whether it returns or raises. *)
Definition preserves {A : Type} (R : FS -> FS -> Prop) (c : IO A) : Prop :=
  forall fs, R fs (final_fs (c fs)).

(** An action can only return [v]. *)
Definition returns_only {A : Type} (v : A) (c : IO A) : Prop :=
  forall fs a fs', c fs = Returned a fs' -> a = v.

(** Every file of [fs'] was already in [fs] with the same text, or is
    well terminated. *)
Definition only_terminated_writes (fs fs' : FS) : Prop :=
  forall p text,
    fs' p = Some (File text) -> fs p = Some (File text) \/ well_terminated text.

(** Directories stay directories and files stay files. *)
Definition nodes_kept (fs fs' : FS) : Prop :=
  forall p,
    (fs p = Some Dir -> fs' p = Some Dir)
    /\ (forall text, fs p = Some (File text) -> exists text', fs' p = Some (File text')).

(** The entry at [p] is left alone. *)
Definition keeps (p : Path) (fs fs' : FS) : Prop := fs' p = fs p.

(** A path segment that is one plain component. *)
Definition simple_name (s : string) : bool :=
  negb (prefix "/" s) &&
  match path_parts s with
  | [part] => String.eqb part s
  | _ => false
  end.

(** A tree with an empty directory [/tmp]. *)
Definition sample_tree : FS :=
  fun p => if path_eqb p ["tmp"] then Some Dir else None.

Definition sample_config : ProjectConfig :=
  mkProjectConfig "sample-project" "Sample description of the project."
    "https://github.com/MoAly98/sample-project"
    [mkAuthor "Mo" "mo@example.com"] ["numpy"; "scipy"]
    (dict_set (dict_set DEFAULT_DEPENDENCY_GROUPS "test" ["pytest"]) "bench" ["3"])
    ["pytest-xdist"].

Definition is_returned {A : Type} (o : Outcome A) : bool :=
  match o with
  | Returned _ _ => true
  | Raised _ _ => false
  end.

(** The segments of a template that parses, none otherwise. *)
Definition segments_of (parsed : option (list Py.segment)) : list Py.segment :=
  match parsed with
  | Some segments => segments
  | None => []
  end.

(** ** Rendered groups of the sample descriptor *)

Definition sample_groups_rendered : string :=
  Py.lit "test = [
    ~pytest~,
]

docs = [
    ~sphinx>=7~,
    ~furo~,
    ~myst-parser<5~,
    ~sphinx-design~,
    ~sphinx-togglebutton~,
    ~sphinx-copybutton~,
    ~sphinx-autodoc-typehints~,
    ~myst-nb~,
    ~sphinxcontrib-mermaid~,
]

examples = [
    ~rich~,
    ~matplotlib>=3.10.7~,
]

bench = [
    ~3~,
]

dev = [
    { include-group = ~test~ },
    { include-group = ~docs~ },
    { include-group = ~examples~ },
    { include-group = ~bench~ },
    ~ipython~,
    ~ruff~,
    ~pre_commit~,
    ~mypy~,
    ~pytest-xdist~,
]".

(** A descriptor with an empty group and no extras. *)
Definition empty_group_config : ProjectConfig :=
  mkProjectConfig "demo" "A demo" "https://example.org/demo"
    [mkAuthor "Mo" "mo@example.com"] [] [("docs", []); ("lint", ["ruff"])] [].

Definition empty_group_rendered : string :=
  Py.lit "docs = [
    # Add entries here
]

lint = [
    ~ruff~,
]

dev = [
    { include-group = ~docs~ },
    { include-group = ~lint~ },
    ~ipython~,
    ~ruff~,
    ~pre_commit~,
    ~mypy~,
]".

(* ================================================================== *)
(** * Part II, continued: vocabulary of the further properties         *)
(* ================================================================== *)

(** ** Escaped text *)

(** Replacing every character by a piece of text. *)
Fixpoint subst_chars (f : ascii -> string) (s : string) : string :=
  match s with
  | "" => ""
  | String c rest => f c ++ subst_chars f rest
  end.

(** What [escape_toml_string] puts for one character. *)
Definition escaped_char (c : ascii) : string :=
  if Ascii.eqb c "\" then "\\"
  else if Ascii.eqb c Py.dq then String "\" Py.DQ
  else String c "".

(** Reading a quoted manifest value back: a backslash stands for the
    character after it. *)
Fixpoint toml_unescape (s : string) : string :=
  match s with
  | "" => ""
  | String c rest =>
      if Ascii.eqb c "\" then
        match rest with
        | String d rest' => String d (toml_unescape rest')
        | "" => ""
        end
      else String c (toml_unescape rest)
  end.

(** No double quote stands on its own, and no backslash is left
    dangling at the end: the text can sit between two double quotes. *)
Fixpoint quotable (s : string) : bool :=
  match s with
  | "" => true
  | String c rest =>
      if Ascii.eqb c "\" then
        match rest with
        | String _ rest' => quotable rest'
        | "" => false
        end
      else negb (Ascii.eqb c Py.dq) && quotable rest
  end.

(** ** Quoted fields of the manifest *)

(** Reading a quoted value: the text up to the first double quote that
    is not behind a backslash, with each backslash pair read back as its
    second character; nothing when the closing quote is missing. *)
Fixpoint read_quoted (s : string) : option string :=
  match s with
  | "" => None
  | String c rest =>
      if Ascii.eqb c Py.dq then Some ""
      else if Ascii.eqb c "\" then
        match rest with
        | String d rest' => option_map (String d) (read_quoted rest')
        | "" => None
        end
      else option_map (String c) (read_quoted rest)
  end.

Fixpoint skip (n : nat) (s : string) : string :=
  match n, s with
  | S n', String _ rest => skip n' rest
  | _, _ => s
  end.

(** The value read where [text] starts with [opening]. *)
Definition value_at (opening text : string) : list string :=
  if prefix opening text then
    match read_quoted (skip (String.length opening) text) with
    | Some value => [value]
    | None => []
    end
  else [].

(** The values read after each occurrence of [opening] in [text], in
    order. *)
Fixpoint field_values (opening text : string) : list string :=
  (value_at opening text
   ++ match text with
      | "" => []
      | String _ rest => field_values opening rest
      end)%list.

(** The values of the fields [key = "..."] of a text. *)
Definition quoted_field_values (key text : string) : list string :=
  field_values (key ++ Py.lit " = ~") text.

(** The URL table: the keys of the manifest and the values the
    specification gives them for a base URL. *)
Definition url_fields (base : string) : list (string * string) :=
  [ ("Homepage", base);
    (Py.lit "~Bug Tracker~", base ++ "/issues");
    ("Discussions", base ++ "/discussions");
    ("Changelog", base ++ "/releases") ].

(** A document whose URL holds a line of one space. *)
Definition line_feed_url : string :=
  "https://x.org/a" ++ Py.NL ++ " " ++ Py.NL ++ "b/".

Definition line_feed_url_document : dict PyVal :=
  [ ("project_name", VStr "demo");
    ("description", VStr "A demo");
    ("project_url", VStr line_feed_url);
    ("authors", VList [VDict [("name", VStr "Mo"); ("email", VStr "mo@example.com")]]);
    ("dependencies", VList []);
    ("dependency_groups", VDict []);
    ("dev_extras", VList []) ].

(** ** Rendered lists *)

Definition array_line (indent : nat) (value : string) : string :=
  Py.spaces indent ++ Py.DQ ++ value ++ Py.DQ ++ ",".

Definition author_line (author : Author) : string :=
  Py.lit "    { name = ~" ++ name author ++ Py.lit "~, email = ~" ++ email author
    ++ Py.lit "~ },".

Definition author_plain (author : Author) : bool :=
  no_line_feed (name author) && no_line_feed (email author).

(** ** Resolved authors *)

(** The text of one key of an author entry. *)
Definition entry_text (entry : PyVal) (key : string) : string :=
  match entry with
  | VDict fields =>
      match dict_get fields key with
      | Some v => py_str v
      | None => ""
      end
  | _ => ""
  end.

Definition author_of (entry : PyVal) : Author :=
  mkAuthor (entry_text entry "name") (entry_text entry "email").

(** ** The manifest, line by line *)

Definition manifest_lines (config : ProjectConfig) : list string :=
  Py.split_lines (build_pyproject config).

Definition package_of (config : ProjectConfig) : string :=
  normalize_package_name (project_name config).

(** ** Ordinary names

    The tree of the model has an entry for each name, whatever the
    name.  A file system gives a meaning of its own to some names and
    refuses others: [..] is the directory above, a name cannot hold a
    slash or a null character, and names and paths have a largest size.
    What is stated about runs of the program on a file system is stated
    for the names below, for which the tree of the model is what the
    file system has. *)






(** ** Changes to the file tree *)

(** Every entry is as before, or is a directory where there was
    nothing. *)
Definition only_new_directories (fs fs' : FS) : Prop :=
  forall q, fs' q = fs q \/ (fs q = None /\ fs' q = Some Dir).





(** ** The scaffold *)












(** ** What the emitter raises *)




(* ================================================================== *)
(** * Part III: properties                                             *)
(* ================================================================== *)

(** ** Strings *)

Lemma append_empty_r (s : string) : s ++ "" = s.
Proof. induction s as [|c s IH]; simpl; [reflexivity | now rewrite IH]. Qed.

Lemma append_assoc (a b c : string) : (a ++ b) ++ c = a ++ b ++ c.
Proof. induction a as [|x a IH]; simpl; [reflexivity | now rewrite IH]. Qed.

Lemma prefix_empty (s : string) : prefix "" s = true.
Proof. destruct s; reflexivity. Qed.

Lemma prefix_char (a c : ascii) (rest : string) :
  prefix (String a "") (String c rest) = Ascii.eqb c a.
Proof.
  simpl. destruct (ascii_dec a c) as [->|Hne].
  - now rewrite prefix_empty, Ascii.eqb_refl.
  - symmetry. apply Ascii.eqb_neq. congruence.
Qed.

(** Replacing one character by one character is a character map. *)
Lemma replace_char (a b : ascii) (s : string) :
  Py.replace (String a "") (String b "") s
  = Py.map_chars (fun c => if Ascii.eqb c a then b else c) s.
Proof.
  unfold Py.replace.
  induction s as [|c s IH]; [reflexivity|].
  cbn [Py.replace_from Py.map_chars]. rewrite prefix_char.
  destruct (Ascii.eqb c a); cbn; now rewrite IH.
Qed.

Lemma map_chars_compose (f g : ascii -> ascii) (s : string) :
  Py.map_chars g (Py.map_chars f s) = Py.map_chars (fun c => g (f c)) s.
Proof. induction s as [|c s IH]; simpl; [reflexivity | now rewrite IH]. Qed.

Lemma map_chars_ext (f g : ascii -> ascii) (s : string) :
  (forall c, f c = g c) -> Py.map_chars f s = Py.map_chars g s.
Proof. intros H. induction s as [|c s IH]; simpl; [reflexivity | now rewrite H, IH]. Qed.

(** C7: the package identifier is the project name with every hyphen and
    every space replaced by an underscore and every other character
    kept; [sample-project] gives [sample_project] and [My Project] gives
    [My_Project]. *)
Theorem normalize_package_name_spec :
  (forall project_name : string,
     normalize_package_name project_name = Py.map_chars identifier_char project_name)
  /\ normalize_package_name "sample-project" = "sample_project"
  /\ normalize_package_name "My Project" = "My_Project".
Proof.
  split; [|split; reflexivity].
  intros s. unfold normalize_package_name.
  rewrite !replace_char, map_chars_compose.
  apply map_chars_ext. intros c. unfold identifier_char.
  destruct (Ascii.eqb c "-") eqn:E1; simpl.
  - reflexivity.
  - reflexivity.
Qed.

(** ** Dictionaries *)

Lemma dict_get_set_same {V : Type} (d : dict V) (k : string) (v : V) :
  dict_get (dict_set d k v) k = Some v.
Proof.
  induction d as [|[k' v'] d IH]; simpl.
  - now rewrite String.eqb_refl.
  - destruct (String.eqb k' k) eqn:E; simpl; rewrite E; [reflexivity | assumption].
Qed.

Lemma dict_get_set_other {V : Type} (d : dict V) (k k' : string) (v : V) :
  k <> k' -> dict_get (dict_set d k v) k' = dict_get d k'.
Proof.
  intros Hne. induction d as [|[k0 v0] d IH]; simpl.
  - destruct (String.eqb k k') eqn:E; [apply String.eqb_eq in E; contradiction | reflexivity].
  - destruct (String.eqb k0 k) eqn:E; simpl.
    + apply String.eqb_eq in E. subst k0.
      destruct (String.eqb k k') eqn:E'; [apply String.eqb_eq in E'; contradiction | reflexivity].
    + destruct (String.eqb k0 k'); [reflexivity | assumption].
Qed.

Lemma dict_keys_set {V : Type} (d : dict V) (k : string) (v : V) :
  exists added, dict_keys (dict_set d k v) = (dict_keys d ++ added)%list.
Proof.
  unfold dict_keys. induction d as [|[k0 v0] d IH]; simpl.
  - now exists [k].
  - destruct (String.eqb k0 k); simpl.
    + exists []. now rewrite app_nil_r.
    + destruct IH as [added ->]. now exists added.
Qed.

Lemma dict_get_not_in {V : Type} (d : dict V) (k : string) :
  ~ In k (dict_keys d) -> dict_get d k = None.
Proof.
  unfold dict_keys. induction d as [|[k0 v0] d IH]; simpl; intros Hn; [reflexivity|].
  destruct (String.eqb k0 k) eqn:E.
  - apply String.eqb_eq in E. exfalso. apply Hn. now left.
  - apply IH. intros H. apply Hn. now right.
Qed.

(** ** Rendering the dependency groups *)

Lemma fold_left_list_append {A B : Type} (f : B -> A) (l : list B) (acc : list A) :
  fold_left (fun out x => list_append out (f x)) l acc = (acc ++ map f l)%list.
Proof.
  revert acc. induction l as [|x l IH]; intros acc; simpl.
  - now rewrite app_nil_r.
  - rewrite IH. unfold list_append. now rewrite <- app_assoc.
Qed.

Lemma fold_left_group_blocks (groups : dict (list string)) (acc : list string) :
  fold_left
    (fun output_lines item =>
       let '(group_name, deps) := item in
       if String.eqb group_name "dev" then output_lines
       else
         let output_lines := list_append output_lines (group_name ++ " = [") in
         let output_lines := list_append output_lines (format_string_array deps 4) in
         list_append output_lines ("]" ++ Py.NL))
    groups acc
  = (acc ++ flat_map group_block (other_groups groups))%list.
Proof.
  revert acc. induction groups as [|[group_name deps] groups IH]; intros acc; simpl.
  - now rewrite app_nil_r.
  - rewrite IH. unfold is_dev. simpl.
    destruct (String.eqb group_name "dev"); simpl.
    + reflexivity.
    + unfold list_append. now rewrite <- !app_assoc.
Qed.

Lemma dict_keys_other_groups (groups : dict (list string)) :
  filter (fun name => negb (String.eqb name "dev")) (dict_keys groups)
  = dict_keys (other_groups groups).
Proof.
  unfold dict_keys, other_groups, is_dev.
  induction groups as [|[k v] groups IH]; simpl; [reflexivity|].
  destruct (String.eqb k "dev"); simpl; now rewrite IH.
Qed.

Lemma format_dependency_groups_lines (groups : dict (list string)) (extra_dev : list string) :
  format_dependency_groups groups extra_dev
  = Py.join Py.NL (flat_map group_block (other_groups groups) ++ dev_block groups extra_dev).
Proof.
  unfold format_dependency_groups, dev_block.
  rewrite fold_left_group_blocks.
  rewrite dict_keys_other_groups.
  rewrite (fold_left_list_append
             (fun group => Py.lit "    { include-group = ~" ++ group ++ Py.lit "~ },")).
  rewrite (fold_left_list_append (fun dep => "    " ++ Py.DQ ++ dep ++ Py.lit "~,")).
  unfold list_append, DEV_BASELINE. cbn [app].
  f_equal. rewrite <- !app_assoc. reflexivity.
Qed.

Lemma group_block_list_block (item : string * list string) :
  group_block item = list_block item.
Proof.
  unfold group_block, list_block, format_string_array, entries_block.
  now destruct (snd item).
Qed.

Lemma flat_map_list_block (groups : dict (list string)) :
  flat_map group_block groups = flat_map list_block groups.
Proof.
  induction groups as [|item groups IH]; [reflexivity|].
  cbn [flat_map]. now rewrite group_block_list_block, IH.
Qed.

(** C1: the rendered block is, joined by line feeds, the list block of
    every group other than [dev] in encounter order (the header with
    the name, one quoted line per entry or the comment line of an empty
    group, the closing bracket and an empty line), followed by the
    synthesized [dev] group: one include-group reference per other
    group in encounter order, then the baseline tools, then
    [dev_extras].  The sample descriptor and a descriptor with an empty
    group are rendered as written out. *)
Theorem format_dependency_groups_spec (config : ProjectConfig) :
  format_dependency_groups (dependency_groups config) (dev_extras config)
  = Py.join Py.NL
      (flat_map list_block (other_groups (dependency_groups config))
       ++ ["dev = ["]
       ++ map include_line (dict_keys (other_groups (dependency_groups config)))
       ++ map entry_line ["ipython"; "ruff"; "pre_commit"; "mypy"]
       ++ map entry_line (dev_extras config)
       ++ ["]"])
  /\ format_dependency_groups (dependency_groups sample_config) (dev_extras sample_config)
     = sample_groups_rendered
  /\ format_dependency_groups (dependency_groups empty_group_config)
                              (dev_extras empty_group_config)
     = empty_group_rendered.
Proof.
  split; [|split; reflexivity].
  rewrite format_dependency_groups_lines, flat_map_list_block. reflexivity.
Qed.

Lemma other_groups_idem (groups : dict (list string)) :
  other_groups (other_groups groups) = other_groups groups.
Proof.
  unfold other_groups. induction groups as [|item groups IH]; simpl; [reflexivity|].
  destruct (is_dev item) eqn:E; simpl; [assumption|]. now rewrite E, IH.
Qed.

(** C9: a group called [dev] in the descriptor leaves no trace in the
    rendered block: the block is the one rendered without that group,
    it has no list block for it, no include-group reference to it, and
    it ends with the synthesized [dev] group.  With the groups test and
    dev (black, tox) the block has test and the synthesized dev only. *)
Theorem dev_group_ignored (groups : dict (list string)) (extra_dev : list string) :
  format_dependency_groups groups extra_dev
  = format_dependency_groups (other_groups groups) extra_dev
  /\ format_dependency_groups groups extra_dev
     = Py.join Py.NL (flat_map group_block (other_groups groups)
                      ++ dev_block (other_groups groups) extra_dev)
  /\ ~ In "dev" (dict_keys (other_groups groups))
  /\ dict_get (other_groups groups) "dev" = None
  /\ format_dependency_groups groups_with_dev ["pytest-xdist"] = groups_with_dev_rendered.
Proof.
  assert (Hnot : forall g : dict (list string), ~ In "dev" (dict_keys (other_groups g))).
  { intros g. unfold dict_keys, other_groups. intros Hin.
    apply in_map_iff in Hin. destruct Hin as ([k v] & Hk & Hin). simpl in Hk. subst k.
    apply filter_In in Hin. destruct Hin as [_ Hf]. unfold is_dev in Hf. simpl in Hf.
    discriminate. }
  split; [|split; [|split; [|split]]].
  - rewrite !format_dependency_groups_lines. unfold dev_block.
    now rewrite other_groups_idem.
  - rewrite format_dependency_groups_lines. unfold dev_block.
    now rewrite other_groups_idem.
  - apply Hnot.
  - apply dict_get_not_in, Hnot.
  - reflexivity.
Qed.

(** ** The loops of the resolver *)

Lemma coerce_authors_ok (entries : list PyVal) (acc : list Author) :
  forallb author_entry_ok entries = true ->
  exists result, coerce_authors entries acc = inr result.
Proof.
  revert acc. induction entries as [|entry entries IH]; intros acc H; simpl in *.
  - now exists acc.
  - apply andb_true_iff in H. destruct H as [He Hrest].
    destruct entry; try discriminate. unfold author_entry_ok, has_key in He.
    destruct (dict_get items "name"); [|discriminate].
    destruct (dict_get items "email"); [|discriminate].
    now apply IH.
Qed.

Lemma coerce_authors_bad (entries : list PyVal) (acc : list Author) :
  forallb author_entry_ok entries = false ->
  exists e, coerce_authors entries acc = inl e /\ error_field e = Some "authors".
Proof.
  revert acc. induction entries as [|entry entries IH]; intros acc H; simpl in *.
  - discriminate.
  - destruct entry; try (now eexists; split; [reflexivity|reflexivity]).
    unfold author_entry_ok, has_key in H.
    destruct (dict_get items "name"); simpl in H.
    + destruct (dict_get items "email"); simpl in H.
      * now apply IH.
      * now eexists; split; [reflexivity|].
    + now eexists; split; [reflexivity|].
Qed.

Lemma overlay_groups_ok (items : list (string * PyVal)) (acc : dict (list string)) :
  forallb (fun item => is_list (snd item)) items = true ->
  exists result, overlay_groups items acc = inr result.
Proof.
  revert acc. induction items as [|[k v] items IH]; intros acc H; simpl in *.
  - now exists acc.
  - apply andb_true_iff in H. destruct H as [Hv Hrest].
    destruct v; try discriminate. now apply IH.
Qed.

Lemma overlay_groups_bad (items : list (string * PyVal)) (acc : dict (list string)) :
  forallb (fun item => is_list (snd item)) items = false ->
  exists e, overlay_groups items acc = inl e /\ error_field e = Some "dependency_groups".
Proof.
  revert acc. induction items as [|[k v] items IH]; intros acc H; simpl in *.
  - discriminate.
  - destruct v; simpl in H; try (now eexists; split; [reflexivity|]).
    now apply IH.
Qed.

Lemma overlay_groups_lists (items : list (string * PyVal)) (acc result : dict (list string)) :
  overlay_groups items acc = inr result ->
  forallb (fun item => is_list (snd item)) items = true.
Proof.
  revert acc. induction items as [|[k v] items IH]; intros acc H; simpl in *.
  - reflexivity.
  - destruct v; try discriminate. simpl. now apply (IH _ H).
Qed.

(** The overlay, key by key. *)
Lemma overlay_groups_get (items : list (string * PyVal)) (acc result : dict (list string)) :
  NoDup (dict_keys items) ->
  overlay_groups items acc = inr result ->
  forall group,
    dict_get result group
    = match dict_get items group with
      | Some v => Some (stringified v)
      | None => dict_get acc group
      end.
Proof.
  revert acc. induction items as [|[k v] items IH]; intros acc Hnd H group; simpl in *.
  - now inversion H.
  - inversion Hnd as [|? ? Hnotin Hnd']; subst.
    destruct v; try discriminate.
    rewrite (IH _ Hnd' H group).
    destruct (String.eqb k group) eqn:E.
    + apply String.eqb_eq in E. subst group.
      rewrite (dict_get_not_in items k Hnotin). now rewrite dict_get_set_same.
    + destruct (dict_get items group); [reflexivity|].
      apply dict_get_set_other. intros ->. now rewrite String.eqb_refl in E.
Qed.

Lemma overlay_groups_keys (items : list (string * PyVal)) (acc result : dict (list string)) :
  overlay_groups items acc = inr result ->
  exists added, dict_keys result = (dict_keys acc ++ added)%list.
Proof.
  revert acc. induction items as [|[k v] items IH]; intros acc H; simpl in *.
  - inversion H. exists []. now rewrite app_nil_r.
  - destruct v; try discriminate.
    destruct (IH _ H) as [added1 ->].
    destruct (dict_keys_set acc k (map py_str elements)) as [added2 ->].
    exists (added2 ++ added1)%list. now rewrite app_assoc.
Qed.

(** ** The resolver, field by field *)

Lemma default_groups_copy :
  map (fun kv : string * list string => (fst kv, map (fun dep : string => dep) (snd kv)))
      DEFAULT_DEPENDENCY_GROUPS
  = DEFAULT_DEPENDENCY_GROUPS.
Proof. reflexivity. Qed.

(** What a successful resolution says about the document. *)
Lemma coerce_config_inr (raw : dict PyVal) (config : ProjectConfig) :
  coerce_config raw = inr config ->
  exists pn ds url entries deps items extras,
    dict_get raw "project_name" = Some pn
    /\ dict_get raw "description" = Some ds
    /\ dict_get raw "project_url" = Some url
    /\ dict_get raw "authors" = Some (VList entries)
    /\ entries <> []
    /\ coerce_authors entries [] = inr (authors config)
    /\ dict_get raw "dependencies" = Some (VList deps)
    /\ dict_get raw "dependency_groups" = Some (VDict items)
    /\ overlay_groups items DEFAULT_DEPENDENCY_GROUPS = inr (dependency_groups config)
    /\ dict_get raw "dev_extras" = Some (VList extras)
    /\ project_name config = py_str pn
    /\ description config = py_str ds
    /\ project_url config = Py.rstrip_chars "/" (py_str url)
    /\ dependencies config = map py_str deps
    /\ dev_extras config = map py_str extras.
Proof.
  unfold coerce_config, lookup_required, expect_list, check_bind.
  rewrite default_groups_copy.
  destruct (dict_get raw "project_name") as [pn|]; [|discriminate].
  destruct (dict_get raw "description") as [ds|]; [|discriminate].
  destruct (dict_get raw "project_url") as [url|]; [|discriminate].
  destruct (dict_get raw "authors") as [[| | | | |entries|]|]; try discriminate.
  destruct entries as [|entry entries]; [discriminate|].
  destruct (coerce_authors (entry :: entries) []) as [|auths] eqn:Ha; [discriminate|].
  destruct (dict_get raw "dependencies") as [[| | | | |deps|]|]; try discriminate.
  destruct (dict_get raw "dependency_groups") as [[| | | | | |items]|]; try discriminate.
  destruct (overlay_groups items DEFAULT_DEPENDENCY_GROUPS) as [|groups] eqn:Hg; [discriminate|].
  destruct (dict_get raw "dev_extras") as [[| | | | |extras|]|]; try discriminate.
  intros H. inversion H; subst; clear H. simpl.
  exists pn, ds, url, (entry :: entries), deps, items, extras.
  repeat split; try reflexivity; try assumption. discriminate.
Qed.

Ltac keep_loops := cbn -[coerce_authors overlay_groups forallb].

(** Resolution fails on the first offending field, and succeeds when
    there is none. *)
Lemma coerce_config_cases (raw : dict PyVal) :
  match first_offending raw with
  | Some field => exists e, coerce_config raw = inl e /\ error_field e = Some field
  | None => exists config, coerce_config raw = inr config
  end.
Proof.
  unfold first_offending, checking_order, coerce_config, lookup_required,
    expect_list, check_bind.
  rewrite default_groups_copy. cbn [find]. unfold field_ok.
  destruct (dict_get raw "project_name") as [pn|]; keep_loops;
    [|now eexists; split; reflexivity].
  destruct (dict_get raw "description") as [ds|]; keep_loops;
    [|now eexists; split; reflexivity].
  destruct (dict_get raw "project_url") as [url|]; keep_loops;
    [|now eexists; split; reflexivity].
  destruct (dict_get raw "authors") as [[| | | | |entries|]|]; keep_loops;
    try (now eexists; split; reflexivity).
  destruct entries as [|entry entries]; [now eexists; split; reflexivity|].
  destruct (forallb author_entry_ok (entry :: entries)) eqn:Hauthors.
  2:{ destruct (coerce_authors_bad _ [] Hauthors) as (e & He & Hf).
      keep_loops. rewrite He. now exists e. }
  destruct (coerce_authors_ok _ [] Hauthors) as (auths & Ha).
  keep_loops. rewrite Ha.
  destruct (dict_get raw "dependencies") as [[| | | | |deps|]|]; keep_loops;
    try (now eexists; split; reflexivity).
  destruct (dict_get raw "dependency_groups") as [[| | | | | |items]|]; keep_loops;
    try (now eexists; split; reflexivity).
  destruct (forallb (fun item => is_list (snd item)) items) eqn:Hgroups; keep_loops.
  2:{ destruct (overlay_groups_bad _ DEFAULT_DEPENDENCY_GROUPS Hgroups) as (e & He & Hf).
      rewrite He. now exists e. }
  destruct (overlay_groups_ok _ DEFAULT_DEPENDENCY_GROUPS Hgroups) as (groups & Hg).
  rewrite Hg.
  destruct (dict_get raw "dev_extras") as [[| | | | |extras|]|]; keep_loops;
    try (now eexists; split; reflexivity).
Qed.

Lemma coerce_config_total (raw : dict PyVal) :
  first_offending raw = None -> exists config, coerce_config raw = inr config.
Proof.
  intros H. pose proof (coerce_config_cases raw) as Hc. now rewrite H in Hc.
Qed.

Lemma first_offending_none (raw : dict PyVal) :
  (forall field, In field checking_order -> field_ok raw field = true) ->
  first_offending raw = None.
Proof.
  intros Hall. unfold first_offending.
  destruct (find (fun field => negb (field_ok raw field)) checking_order) as [field|] eqn:E;
    [|reflexivity].
  apply find_some in E. destruct E as [Hin Hbad].
  rewrite (Hall field Hin) in Hbad. discriminate.
Qed.

(** C4: resolution fails exactly when some field is missing or
    malformed, and the error it raises is about the first such field in
    the order project_name, description, project_url, authors,
    dependencies, dependency_groups, dev_extras; no descriptor is
    produced then.  Unless the error is about one entry of the field,
    its message quotes the field.  A document without [project_name] is
    rejected with the message naming [project_name], whatever else is
    missing. *)
Theorem coerce_config_first_offending :
  (forall raw : dict PyVal,
     match first_offending raw with
     | Some field =>
         exists e, coerce_config raw = inl e /\ error_field e = Some field
     | None => exists config, coerce_config raw = inr config
     end)
  /\ (forall (e : ConfigError) (field : string),
        error_field e = Some field -> about_entry e = false ->
        Contains ("'" ++ field ++ "'") (message e))
  /\ (forall raw : dict PyVal,
        dict_get raw "project_name" = None ->
        first_offending raw = Some "project_name"
        /\ coerce_config raw = inl (Missing "project_name"))
  /\ message (Missing "project_name") = "Missing 'project_name' in configuration".
Proof.
  split; [|split; [|split; [|reflexivity]]].
  - exact coerce_config_cases.
  - intros e field He Hentry.
    destruct e; try discriminate; cbn in He; inversion He; subst field; cbn [message].
    + exists "Missing ", " in configuration". cbn. now rewrite append_assoc.
    + exists "", " must be a list". cbn. now rewrite append_assoc.
    + now exists "", " must contain at least one entry".
    + now exists "", " must be a mapping".
  - intros raw Hmissing.
    unfold first_offending, checking_order, coerce_config, lookup_required, check_bind.
    cbn [find]. unfold field_ok. rewrite Hmissing. now split.
Qed.

Lemma coerce_config_first_offending_witness :
  first_offending [("description", VStr "only a description")] = Some "project_name"
  /\ coerce_config [("description", VStr "only a description")]
     = inl (Missing "project_name").
Proof.
  apply (proj1 (proj2 (proj2 coerce_config_first_offending))). reflexivity.
Defined.

Lemma coerce_authors_inl (entries : list PyVal) (acc : list Author) (e : ConfigError) :
  coerce_authors entries acc = inl e -> e = AuthorNotMapping \/ e = AuthorMissingKeys.
Proof.
  revert acc. induction entries as [|entry entries IH]; intros acc H; simpl in H.
  - discriminate.
  - destruct entry; try (left; congruence).
    destruct (dict_get items "name"); [|right; congruence].
    destruct (dict_get items "email"); [|right; congruence].
    now apply (IH _ H).
Qed.

Lemma overlay_groups_inl (items : list (string * PyVal)) (acc : dict (list string))
      (e : ConfigError) :
  overlay_groups items acc = inl e -> exists group_name, e = GroupNotList group_name.
Proof.
  revert acc. induction items as [|[k v] items IH]; intros acc H; simpl in H.
  - discriminate.
  - destruct v; try (exists k; congruence). now apply (IH _ H).
Qed.

(** The "Missing" error is raised for a key only when the key is not in
    the document. *)
Lemma coerce_config_Missing (raw : dict PyVal) (key : string) :
  coerce_config raw = inl (Missing key) -> dict_get raw key = None.
Proof.
  unfold coerce_config, lookup_required, expect_list, check_bind.
  rewrite default_groups_copy.
  destruct (dict_get raw "project_name") as [pn|] eqn:E1; [|congruence].
  destruct (dict_get raw "description") as [ds|] eqn:E2; [|congruence].
  destruct (dict_get raw "project_url") as [url|] eqn:E3; [|congruence].
  destruct (dict_get raw "authors") as [[| | | | |entries|]|] eqn:E4; try congruence.
  destruct entries as [|entry entries]; [congruence|].
  destruct (coerce_authors (entry :: entries) []) as [e|auths] eqn:Ha.
  { intros H. destruct (coerce_authors_inl _ _ _ Ha); congruence. }
  destruct (dict_get raw "dependencies") as [[| | | | |deps|]|] eqn:E5; try congruence.
  destruct (dict_get raw "dependency_groups") as [[| | | | | |items]|] eqn:E6; try congruence.
  destruct (overlay_groups items DEFAULT_DEPENDENCY_GROUPS) as [e|groups] eqn:Hg.
  { intros H. destruct (overlay_groups_inl _ _ _ Hg). congruence. }
  destruct (dict_get raw "dev_extras") as [[| | | | |extras|]|] eqn:E7; congruence.
Qed.

(** ** Stripping and escaping *)

Lemma rstrip_by_decompose (drop : ascii -> bool) (s : string) :
  exists suffix, s = Py.rstrip_by drop s ++ suffix /\ all_chars drop suffix = true.
Proof.
  induction s as [|c s (suffix & Hs & Hall)]; simpl.
  - now exists "".
  - destruct (Py.rstrip_by drop s) as [|k kept] eqn:E.
    + simpl in Hs. subst suffix. destruct (drop c) eqn:Ec.
      * exists (String c s). simpl. now rewrite Ec, Hall.
      * exists s. now split.
    + exists suffix. split; [|assumption]. simpl in *. now rewrite <- Hs.
Qed.

Lemma rstrip_by_last (drop : ascii -> bool) (s : string) (c : ascii) :
  last_char (Py.rstrip_by drop s) = Some c -> drop c = false.
Proof.
  induction s as [|x s IH]; simpl; [discriminate|].
  destruct (Py.rstrip_by drop s) as [|k kept] eqn:E.
  - destruct (drop x) eqn:Ex; simpl; [discriminate|]. congruence.
  - intros H. apply IH. exact H.
Qed.

Lemma all_chars_ext (p q : ascii -> bool) (s : string) :
  (forall c, p c = q c) -> all_chars p s = all_chars q s.
Proof. intros H. induction s as [|c s IH]; simpl; [reflexivity | now rewrite H, IH]. Qed.

Lemma all_chars_app (p : ascii -> bool) (a b : string) :
  all_chars p (a ++ b) = all_chars p a && all_chars p b.
Proof. induction a as [|c a IH]; simpl; [reflexivity | now rewrite IH, andb_assoc]. Qed.

(** Replacing a character that does not occur changes nothing. *)
Lemma replace_absent (a : ascii) (new s : string) :
  all_chars (fun c => negb (Ascii.eqb c a)) s = true ->
  Py.replace (String a "") new s = s.
Proof.
  unfold Py.replace. induction s as [|c s IH]; [reflexivity|].
  cbn [Py.replace_from all_chars]. rewrite prefix_char. intros H.
  apply andb_true_iff in H. destruct H as [Hc Hs].
  apply negb_true_iff in Hc. rewrite Hc. now rewrite (IH Hs).
Qed.

Lemma all_chars_and (p q : ascii -> bool) (s : string) :
  all_chars (fun c => p c && q c) s = all_chars p s && all_chars q s.
Proof.
  induction s as [|c s IH]; simpl; [reflexivity|]. rewrite IH.
  destruct (p c), (q c), (all_chars p s), (all_chars q s); reflexivity.
Qed.

Lemma toml_plain_split (s : string) :
  toml_plain s = true ->
  all_chars (fun c => negb (Ascii.eqb c "\")) s = true
  /\ all_chars (fun c => negb (Ascii.eqb c Py.dq)) s = true.
Proof.
  unfold toml_plain. intros H. apply andb_true_iff.
  rewrite <- all_chars_and. etransitivity; [|exact H].
  apply all_chars_ext. intros c. now rewrite negb_orb.
Qed.

Lemma escape_toml_plain (s : string) :
  toml_plain s = true -> escape_toml_string s = s.
Proof.
  intros H. destruct (toml_plain_split s H) as [Hb Hq].
  unfold escape_toml_string, Py.DQ.
  rewrite (replace_absent "\" _ _ Hb). now apply replace_absent.
Qed.

Lemma toml_plain_app (a b : string) :
  toml_plain (a ++ b) = toml_plain a && toml_plain b.
Proof. apply all_chars_app. Qed.

(** C2: for a document whose [dependency_groups] is a mapping,
    resolution succeeds when no field is offending, and whenever it
    succeeds every supplied value is a sequence; a supplied group holds
    exactly its supplied entries, stringified, and any other group holds
    its built-in default; the keys start with test, docs and examples,
    new names following, so these three are always present. *)
Theorem dependency_groups_overlay (raw : dict PyVal) (items : list (string * PyVal)) :
  dict_get raw "dependency_groups" = Some (VDict items) ->
  NoDup (dict_keys items) ->
  (first_offending raw = None -> exists config, coerce_config raw = inr config)
  /\ (forall config,
        coerce_config raw = inr config ->
        (forall group,
           dict_get (dependency_groups config) group
           = match dict_get items group with
             | Some v => Some (stringified v)
             | None => dict_get DEFAULT_DEPENDENCY_GROUPS group
             end)
        /\ forallb (fun item => is_list (snd item)) items = true
        /\ (exists added,
              dict_keys (dependency_groups config)
              = (["test"; "docs"; "examples"] ++ added)%list)
        /\ In "test" (dict_keys (dependency_groups config))
        /\ In "docs" (dict_keys (dependency_groups config))
        /\ In "examples" (dict_keys (dependency_groups config))).
Proof.
  intros Hgroups Hnd. split; [apply coerce_config_total|].
  intros config Hok.
  destruct (coerce_config_inr raw config Hok)
    as (pn & ds & u & entries & deps & items' & extras & _ & _ & _ & _ & _ & _ & _ & Hg & Ho & _).
  rewrite Hgroups in Hg. inversion Hg; subst items'; clear Hg.
  destruct (overlay_groups_keys _ _ _ Ho) as [added Hkeys].
  split; [exact (overlay_groups_get _ _ _ Hnd Ho)|].
  split; [exact (overlay_groups_lists _ _ _ Ho)|].
  split; [exists added; exact Hkeys|].
  rewrite Hkeys. simpl. repeat split; auto 6.
Qed.

Lemma dependency_groups_overlay_witness :
  exists config,
    coerce_config sample_document = inr config
    /\ dict_get (dependency_groups config) "test" = Some ["pytest"]
    /\ dict_get (dependency_groups config) "bench" = Some ["3"]
    /\ dict_get (dependency_groups config) "docs"
       = dict_get DEFAULT_DEPENDENCY_GROUPS "docs"
    /\ In "examples" (dict_keys (dependency_groups config)).
Proof.
  exists (mkProjectConfig "sample-project" "Sample description of the project."
            "https://github.com/MoAly98/sample-project"
            [mkAuthor "Mo" "mo@example.com"] ["numpy"; "scipy"]
            (dict_set (dict_set DEFAULT_DEPENDENCY_GROUPS "test" ["pytest"]) "bench" ["3"])
            ["pytest-xdist"]).
  split; [reflexivity|].
  assert (Hnd : NoDup (dict_keys [("test", VList [VStr "pytest"]); ("bench", VList [VInt 3])])).
  { repeat constructor; simpl; intuition discriminate. }
  destruct (dependency_groups_overlay sample_document _ eq_refl Hnd) as [_ Hprops].
  destruct (Hprops _ eq_refl) as (Hget & _ & _ & _ & _ & Hex).
  split; [exact (Hget "test")|].
  split; [exact (Hget "bench")|].
  split; [exact (Hget "docs")|]. exact Hex.
Defined.

Lemma null_scalar_field_ok (raw : dict PyVal) (key : string) (v : PyVal) :
  In key scalar_fields -> dict_get raw key = Some v -> field_ok raw key = true.
Proof.
  intros Hkey Hv. unfold field_ok. rewrite Hv.
  simpl in Hkey. destruct Hkey as [<-|[<-|[<-|[]]]]; reflexivity.
Qed.

Lemma null_scalar_resolved (raw : dict PyVal) (key : string) (config : ProjectConfig) :
  In key scalar_fields -> dict_get raw key = Some VNone ->
  coerce_config raw = inr config -> scalar_field config key = "None".
Proof.
  intros Hkey Hnull Hcfg.
  destruct (coerce_config_inr raw config Hcfg)
    as (pn & ds & u & entries & deps & items & extras & H1 & H2 & H3 & _ & _ & _ & _ & _
        & _ & _ & Hn & Hd & Hu & _).
  simpl in Hkey. destruct Hkey as [<-|[<-|[<-|[]]]]; unfold scalar_field; simpl.
  - rewrite Hn. rewrite Hnull in H1. now inversion H1.
  - rewrite Hd. rewrite Hnull in H2. now inversion H2.
  - rewrite Hu. rewrite Hnull in H3. now inversion H3.
Qed.

(** C10: a scalar key bound to null does not make resolution fail: the
    field counts as present, it is never the offending field, the
    "Missing" error is not raised for it, and when the other fields are
    well formed resolution succeeds with the text [None] for the field.
    The "Missing" error for a key is raised only when the document has
    no such key; whatever value a scalar key has is stringified. *)
Theorem null_scalar_is_stringified :
  (forall (raw : dict PyVal) (key : string),
     In key scalar_fields ->
     dict_get raw key = Some VNone ->
     field_ok raw key = true
     /\ first_offending raw <> Some key
     /\ coerce_config raw <> inl (Missing key)
     /\ (forall config, coerce_config raw = inr config -> scalar_field config key = "None"))
  /\ (forall (raw : dict PyVal) (key : string),
        In key scalar_fields ->
        dict_get raw key = Some VNone ->
        (forall other, In other checking_order -> other <> key -> field_ok raw other = true) ->
        exists config, coerce_config raw = inr config /\ scalar_field config key = "None")
  /\ (forall (raw : dict PyVal) (key : string),
        coerce_config raw = inl (Missing key) -> dict_get raw key = None)
  /\ (forall (raw : dict PyVal) (config : ProjectConfig) (v : PyVal),
        coerce_config raw = inr config ->
        (dict_get raw "project_name" = Some v -> project_name config = py_str v)
        /\ (dict_get raw "description" = Some v -> description config = py_str v)
        /\ (dict_get raw "project_url" = Some v
            -> project_url config = Py.rstrip_chars "/" (py_str v))).
Proof.
  split; [|split; [|split]].
  - intros raw key Hkey Hnull.
    pose proof (null_scalar_field_ok raw key VNone Hkey Hnull) as Hok.
    split; [exact Hok|]. split; [|split].
    + unfold first_offending. intros Hfind. apply find_some in Hfind.
      destruct Hfind as [_ Hbad]. rewrite Hok in Hbad. discriminate.
    + intros Hmiss. apply coerce_config_Missing in Hmiss. congruence.
    + intros config. now apply null_scalar_resolved.
  - intros raw key Hkey Hnull Hothers.
    destruct (coerce_config_total raw) as [config Hcfg].
    { apply first_offending_none. intros field Hin.
      destruct (string_dec field key) as [->|Hne].
      - exact (null_scalar_field_ok raw key VNone Hkey Hnull).
      - now apply Hothers. }
    exists config. split; [exact Hcfg|]. now apply (null_scalar_resolved raw).
  - exact coerce_config_Missing.
  - intros raw config v Hcfg.
    destruct (coerce_config_inr raw config Hcfg)
      as (pn & ds & u & entries & deps & items & extras & H1 & H2 & H3 & _ & _ & _ & _ & _
          & _ & _ & Hn & Hd & Hu & _).
    repeat split; intros Hv.
    + rewrite Hn. congruence.
    + rewrite Hd. congruence.
    + rewrite Hu. congruence.
Qed.

Lemma null_scalar_is_stringified_witness :
  dict_get null_name_document "project_name" = Some VNone
  /\ exists config,
       coerce_config null_name_document = inr config
       /\ scalar_field config "project_name" = "None".
Proof.
  split; [reflexivity|].
  apply (proj1 (proj2 null_scalar_is_stringified) null_name_document "project_name").
  - now left.
  - reflexivity.
  - intros other Hin Hne. simpl in Hin.
    destruct Hin as [<-|[<-|[<-|[<-|[<-|[<-|[<-|[]]]]]]]]; reflexivity.
Defined.

(** ** Trailing whitespace *)

Lemma rstrip_by_app (drop : ascii -> bool) (a b : string) :
  Py.rstrip_by drop (a ++ b)
  = match Py.rstrip_by drop b with
    | "" => Py.rstrip_by drop a
    | kept => a ++ kept
    end.
Proof.
  induction a as [|c a IH]; simpl.
  - now destruct (Py.rstrip_by drop b).
  - rewrite IH. destruct (Py.rstrip_by drop b) as [|k kept]; [reflexivity|].
    destruct a; reflexivity.
Qed.

Lemma rstrip_by_idem (drop : ascii -> bool) (s : string) :
  Py.rstrip_by drop (Py.rstrip_by drop s) = Py.rstrip_by drop s.
Proof.
  induction s as [|c s IH]; simpl; [reflexivity|].
  destruct (Py.rstrip_by drop s) as [|k kept] eqn:E.
  - destruct (drop c) eqn:Ec; simpl; [reflexivity | now rewrite Ec].
  - change (Py.rstrip_by drop (String c (String k kept))
            = String c (String k kept)).
    cbn [Py.rstrip_by] in IH |- *.
    destruct (match Py.rstrip_by drop kept with
              | "" => if drop k then "" else String k ""
              | String a s0 => String k (String a s0)
              end) eqn:E'; [discriminate|].
    now rewrite IH.
Qed.

(** What [write_file] stores is well terminated. *)
Lemma write_file_text_terminated (content : string) :
  well_terminated (Py.rstrip content ++ Py.NL).
Proof. exists (Py.rstrip content). split; [reflexivity | apply rstrip_by_idem]. Qed.


(** ** The file tree *)

Lemma path_eqb_refl (p : Path) : path_eqb p p = true.
Proof. unfold path_eqb. destruct (list_eq_dec string_dec p p); congruence. Qed.

Lemma path_eqb_neq (p q : Path) : p <> q -> path_eqb p q = false.
Proof. unfold path_eqb. destruct (list_eq_dec string_dec p q); congruence. Qed.

Lemma store_same (fs : FS) (p : Path) (n : Node) : store fs p n p = Some n.
Proof. unfold store. now rewrite path_eqb_refl. Qed.

Lemma store_other (fs : FS) (p q : Path) (n : Node) : q <> p -> store fs p n q = fs q.
Proof. intros H. unfold store. now rewrite (path_eqb_neq q p H). Qed.

Lemma os_mkdir_inr (fs fs' : FS) (p : Path) :
  os_mkdir fs p = inr fs' -> fs' = store fs p Dir /\ fs p = None.
Proof.
  destruct p as [|c parent]; simpl; [discriminate|].
  destruct (stat fs parent) as [e|[|text]]; try discriminate.
  destruct (fs (c :: parent)); [discriminate|].
  intros H. inversion H. now split.
Qed.

Lemma os_write_inr (fs fs' : FS) (p : Path) (text : string) :
  os_write fs p text = inr fs' ->
  fs' = store fs p (File text) /\ fs p <> Some Dir
  /\ exists c parent, p = c :: parent /\ stat fs parent = inr Dir.
Proof.
  destruct p as [|c parent]; simpl; [discriminate|].
  destruct (stat fs parent) as [e|[|t]] eqn:Es; try discriminate.
  destruct (fs (c :: parent)) as [[|t]|] eqn:E; try discriminate;
    intros H; inversion H; (split; [reflexivity|]); (split; [congruence|]);
    now exists c, parent.
Qed.

(** ** Reasoning about actions *)

Lemma bind_Returned {A B : Type} (c : IO A) (k : A -> IO B) (fs fs' : FS) (b : B) :
  bind c k fs = Returned b fs' ->
  exists a fs1, c fs = Returned a fs1 /\ k a fs1 = Returned b fs'.
Proof.
  unfold bind. destruct (c fs) as [a fs1|e fs1]; [|discriminate].
  intros H. now exists a, fs1.
Qed.

Lemma bind_path_exists {B : Type} (p : Path) (k : bool -> IO B) (fs : FS) :
  bind (path_exists p) k fs
  = k (match stat fs p with inr _ => true | inl _ => false end) fs.
Proof. reflexivity. Qed.

Lemma formatted_Returned (result : option string) (text : string) (fs fs' : FS) :
  formatted result fs = Returned text fs' -> result = Some text /\ fs' = fs.
Proof.
  destruct result; simpl; unfold ret, raise; intros H; inversion H. now split.
Qed.

Lemma write_file_Returned (p : Path) (content : string) (fs fs' : FS) :
  write_file p content fs = Returned tt fs' ->
  fs' = store fs p (File (Py.rstrip content ++ Py.NL))
  /\ exists c parent, p = c :: parent /\ stat fs parent = inr Dir.
Proof.
  unfold write_file, write_text.
  destruct (os_write fs p (Py.rstrip content ++ Py.NL)) as [e|fs1] eqn:E; [discriminate|].
  intros H. inversion H; subst fs1.
  destruct (os_write_inr _ _ _ _ E) as (Hs & _ & Hp). now split.
Qed.

Lemma returns_only_bind {A B : Type} (v : B) (c : IO A) (k : A -> IO B) :
  (forall a, returns_only v (k a)) -> returns_only v (bind c k).
Proof.
  intros Hk fs b fs' H. apply bind_Returned in H.
  destruct H as (a & fs1 & _ & H). exact (Hk a fs1 b fs' H).
Qed.

Lemma returns_only_ret {A : Type} (v : A) : returns_only v (ret v).
Proof. intros fs a fs' H. now inversion H. Qed.

Lemma returns_only_raise {A : Type} (v : A) (e : Exception) : returns_only v (raise e).
Proof. intros fs a fs' H. discriminate. Qed.

Section Preservation.

Variable R : FS -> FS -> Prop.
Hypothesis R_refl : forall fs, R fs fs.
Hypothesis R_trans : forall fs1 fs2 fs3, R fs1 fs2 -> R fs2 fs3 -> R fs1 fs3.

Lemma preserves_Returned {A : Type} (c : IO A) (fs fs' : FS) (a : A) :
  preserves R c -> c fs = Returned a fs' -> R fs fs'.
Proof. intros Hc H. specialize (Hc fs). now rewrite H in Hc. Qed.

Lemma preserves_bind {A B : Type} (c : IO A) (k : A -> IO B) :
  preserves R c -> (forall a, preserves R (k a)) -> preserves R (bind c k).
Proof.
  intros Hc Hk fs. unfold bind. specialize (Hc fs).
  destruct (c fs) as [a fs1|e fs1]; simpl in *; [|assumption].
  exact (R_trans _ _ _ Hc (Hk a fs1)).
Qed.

Lemma preserves_ret {A : Type} (a : A) : preserves R (ret a).
Proof. intros fs. apply R_refl. Qed.

Lemma preserves_raise {A : Type} (e : Exception) : preserves R (@raise A e).
Proof. intros fs. apply R_refl. Qed.

Lemma preserves_path_exists (p : Path) : preserves R (path_exists p).
Proof. intros fs. apply R_refl. Qed.

Lemma preserves_formatted (result : option string) : preserves R (formatted result).
Proof. destruct result; [apply preserves_ret | apply preserves_raise]. Qed.

Lemma preserves_for_each {A : Type} (body : A -> IO unit) (items : list A) :
  (forall x, preserves R (body x)) -> preserves R (for_each body items).
Proof.
  intros Hbody. induction items as [|x items IH]; simpl.
  - apply preserves_ret.
  - apply preserves_bind; [apply Hbody | intros _; exact IH].
Qed.

(** What the relation has to allow: a new directory where there was
    nothing, and a file written by [write_file] where there was no
    directory. *)
Hypothesis R_mkdir : forall fs p, fs p = None -> R fs (store fs p Dir).
Hypothesis R_write :
  forall fs p content,
    fs p <> Some Dir -> R fs (store fs p (File (Py.rstrip content ++ Py.NL))).

Lemma preserves_mkdir_here (exist_ok : bool) (p : Path) :
  preserves R (mkdir_here exist_ok p).
Proof.
  intros fs. unfold mkdir_here.
  destruct (os_mkdir fs p) as [e|fs1] eqn:E.
  - destruct e; simpl; try apply R_refl;
      destruct (exist_ok && is_dir fs p); apply R_refl.
  - simpl. destruct (os_mkdir_inr _ _ _ E) as [-> Hnone]. now apply R_mkdir.
Qed.

Lemma preserves_mkdir_parents (exist_ok : bool) (p : Path) :
  preserves R (mkdir_parents exist_ok p).
Proof.
  revert exist_ok. induction p as [|c parent IH]; intros exist_ok fs.
  - simpl. destruct (exist_ok && is_dir fs []); apply R_refl.
  - cbn [mkdir_parents].
    destruct (os_mkdir fs (c :: parent)) as [e|fs1] eqn:E.
    + destruct e; try (destruct (exist_ok && is_dir fs (c :: parent)); apply R_refl).
      apply (preserves_bind (mkdir_parents true parent)
               (fun _ => mkdir_here exist_ok (c :: parent))).
      * apply IH.
      * intros _. apply preserves_mkdir_here.
    + simpl. destruct (os_mkdir_inr _ _ _ E) as [-> Hnone]. now apply R_mkdir.
Qed.

Lemma preserves_ensure_directory (p : Path) : preserves R (ensure_directory p).
Proof. apply preserves_mkdir_parents. Qed.

Lemma preserves_write_file (p : Path) (content : string) :
  preserves R (write_file p content).
Proof.
  intros fs. unfold write_file, write_text.
  destruct (os_write fs p (Py.rstrip content ++ Py.NL)) as [e|fs1] eqn:E; simpl.
  - apply R_refl.
  - destruct (os_write_inr _ _ _ _ E) as (-> & Hnd & _). now apply R_write.
Qed.

Ltac preserve_step :=
  cbv beta zeta;
  match goal with
  | |- preserves _ (bind _ _) => apply preserves_bind; [|intro]
  | |- preserves _ (if ?b then _ else _) => destruct b
  | |- preserves _ (ret _) => apply preserves_ret
  | |- preserves _ (raise _) => apply preserves_raise
  | |- preserves _ (path_exists _) => apply preserves_path_exists
  | |- preserves _ (formatted _) => apply preserves_formatted
  | |- preserves _ (write_file _ _) => apply preserves_write_file
  | |- preserves _ (for_each ensure_directory _) =>
      apply preserves_for_each; intro; apply preserves_ensure_directory
  end.

(** Whatever the emitter does to the tree is made of new directories
    and of files written by [write_file]. *)
Lemma emit_preserves (local_gitignore : option string) (config : ProjectConfig)
      (destination_path : Path) :
  preserves R (emit local_gitignore config destination_path).
Proof. unfold emit. repeat preserve_step. Qed.

End Preservation.

Lemma only_terminated_writes_refl (fs : FS) : only_terminated_writes fs fs.
Proof. intros p text H. now left. Qed.

Lemma only_terminated_writes_trans (fs1 fs2 fs3 : FS) :
  only_terminated_writes fs1 fs2 -> only_terminated_writes fs2 fs3 ->
  only_terminated_writes fs1 fs3.
Proof.
  intros H12 H23 p text H. destruct (H23 p text H) as [H2|Hw]; [|now right].
  exact (H12 p text H2).
Qed.

Lemma only_terminated_writes_mkdir (fs : FS) (p : Path) :
  fs p = None -> only_terminated_writes fs (store fs p Dir).
Proof.
  intros _ q text H. unfold store in H.
  destruct (path_eqb q p); [discriminate | now left].
Qed.

Lemma only_terminated_writes_write (fs : FS) (p : Path) (content : string) :
  fs p <> Some Dir ->
  only_terminated_writes fs (store fs p (File (Py.rstrip content ++ Py.NL))).
Proof.
  intros _ q text H. unfold store in H.
  destruct (path_eqb q p); [|now left].
  inversion H. right. apply write_file_text_terminated.
Qed.

Lemma nodes_kept_refl (fs : FS) : nodes_kept fs fs.
Proof. intros p. split; [auto | intros text H; now exists text]. Qed.

Lemma nodes_kept_trans (fs1 fs2 fs3 : FS) :
  nodes_kept fs1 fs2 -> nodes_kept fs2 fs3 -> nodes_kept fs1 fs3.
Proof.
  intros H12 H23 p. destruct (H12 p) as [Hd1 Hf1]. destruct (H23 p) as [Hd2 Hf2].
  split; [auto|]. intros text H. destruct (Hf1 text H) as [text' H']. exact (Hf2 text' H').
Qed.

Lemma nodes_kept_mkdir (fs : FS) (p : Path) :
  fs p = None -> nodes_kept fs (store fs p Dir).
Proof.
  intros Hnone q. unfold store. unfold path_eqb.
  destruct (list_eq_dec string_dec q p) as [->|Hne].
  - split; [auto | intros text H; congruence].
  - split; [auto | intros text H; now exists text].
Qed.

Lemma nodes_kept_write (fs : FS) (p : Path) (content : string) :
  fs p <> Some Dir -> nodes_kept fs (store fs p (File (Py.rstrip content ++ Py.NL))).
Proof.
  intros Hnd q. unfold store. unfold path_eqb.
  destruct (list_eq_dec string_dec q p) as [->|Hne].
  - split; [intros H; contradiction | intros text H; eauto].
  - split; [auto | intros text H; now exists text].
Qed.

(** What [stat] finds at a path stays of the same kind. *)
Lemma stat_kept (fs fs' : FS) (p : Path) :
  nodes_kept fs fs' ->
  (stat fs p = inr Dir -> stat fs' p = inr Dir)
  /\ (forall text, stat fs p = inr (File text) -> exists text', stat fs' p = inr (File text')).
Proof.
  intros Hk. induction p as [|c parent [IHd IHf]]; simpl.
  - split; [auto | intros text H; discriminate].
  - destruct (stat fs parent) as [e|[|t]] eqn:Es.
    + split; [discriminate | intros text H; discriminate].
    + rewrite (IHd eq_refl). destruct (Hk (c :: parent)) as [Hd Hf].
      destruct (fs (c :: parent)) as [[|t]|] eqn:E.
      * rewrite (Hd eq_refl). split; [auto | intros text H; discriminate].
      * destruct (Hf t eq_refl) as [t' ->].
        split; [discriminate | intros text H; now exists t'].
      * split; [discriminate | intros text H; discriminate].
    + split; [discriminate | intros text H; discriminate].
Qed.

Lemma stat_kept_exists (fs fs' : FS) (p : Path) (n : Node) :
  nodes_kept fs fs' -> stat fs p = inr n -> exists n', stat fs' p = inr n'.
Proof.
  intros Hk H. destruct (stat_kept fs fs' p Hk) as [Hd Hf]. destruct n as [|text].
  - exists Dir. auto.
  - destruct (Hf text H) as [text' H']. now exists (File text').
Qed.

Ltac preserve_tail Hrefl Htrans write_tac :=
  cbv beta zeta;
  match goal with
  | |- preserves _ (bind _ _) => apply (preserves_bind _ Htrans); [|intro]
  | |- preserves _ (if ?b then _ else _) => destruct b
  | |- preserves _ (ret _) => apply (preserves_ret _ Hrefl)
  | |- preserves _ (raise _) => apply (preserves_raise _ Hrefl)
  | |- preserves _ (formatted _) => apply (preserves_formatted _ Hrefl)
  | |- preserves _ (write_file _ _) => write_tac
  end.

Ltac returns_step :=
  cbv beta zeta;
  match goal with
  | |- returns_only _ (bind _ _) => apply returns_only_bind; intro
  | |- returns_only _ (if ?b then _ else _) => destruct b
  | |- returns_only _ (ret _) => apply returns_only_ret
  | |- returns_only _ (raise _) => apply returns_only_raise
  end.

(** ** The emitter *)

Lemma emit_returns (local_gitignore : option string) (config : ProjectConfig)
      (destination_path : Path) :
  returns_only (destination_path // project_name config)
               (emit local_gitignore config destination_path).
Proof. unfold emit. repeat returns_step. Qed.

Lemma emit_destination_missing (local_gitignore : option string) (config : ProjectConfig)
      (destination_path : Path) (fs : FS) (e : OSError) :
  stat fs destination_path = inl e ->
  emit local_gitignore config destination_path fs
  = Raised (DestinationMissing destination_path) fs.
Proof. intros H. unfold emit. rewrite bind_path_exists, H. reflexivity. Qed.

Lemma emit_already_exists (local_gitignore : option string) (config : ProjectConfig)
      (destination_path : Path) (fs : FS) (n m : Node) :
  stat fs destination_path = inr n ->
  stat fs (destination_path // project_name config) = inr m ->
  emit local_gitignore config destination_path fs
  = Raised (AlreadyExists (destination_path // project_name config)) fs.
Proof.
  intros Hd Hr. unfold emit. rewrite bind_path_exists, Hd.
  cbv beta iota zeta delta [negb]. rewrite bind_path_exists, Hr. reflexivity.
Qed.

(** After a successful emission both the destination and the project
    root are there. *)
Lemma emit_Returned_stat (local_gitignore : option string) (config : ProjectConfig)
      (destination_path : Path) (fs fs' : FS) (root : Path) :
  emit local_gitignore config destination_path fs = Returned root fs' ->
  (exists n, stat fs' destination_path = inr n)
  /\ stat fs' (destination_path // project_name config) = inr Dir.
Proof.
  intros H.
  assert (Hkept : nodes_kept fs fs').
  { exact (preserves_Returned _ _ _ _ _
             (emit_preserves _ nodes_kept_refl nodes_kept_trans nodes_kept_mkdir
                nodes_kept_write local_gitignore config destination_path) H). }
  unfold emit in H. rewrite bind_path_exists in H.
  destruct (stat fs destination_path) as [e|n] eqn:Hd; [discriminate H|].
  cbv beta iota zeta delta [negb] in H. rewrite bind_path_exists in H.
  destruct (stat fs (destination_path // project_name config)) as [e|m] eqn:Hr;
    [|discriminate H].
  cbv beta iota in H.
  split; [exact (stat_kept_exists _ _ _ _ Hkept Hd)|].
  apply bind_Returned in H. destruct H as (u1 & fs1 & _ & H).
  match type of H with
  | ?c fs1 = _ =>
      assert (Htail : preserves nodes_kept c)
        by (repeat preserve_tail nodes_kept_refl nodes_kept_trans
              ltac:(apply (preserves_write_file _ nodes_kept_refl nodes_kept_write)))
  end.
  pose proof (preserves_Returned _ _ _ _ _ Htail H) as Hkept1.
  apply bind_Returned in H. destruct H as ([] & fs2 & Hw & _).
  apply write_file_Returned in Hw. destruct Hw as (_ & c & parent & Hp & Hstat).
  change (destination_path // project_name config // "pyproject.toml")
    with ("pyproject.toml" :: (destination_path // project_name config)) in Hp.
  inversion Hp; subst c parent.
  exact (proj1 (stat_kept _ _ _ Hkept1) Hstat).
Qed.

(** C3: emission raises, with the tree as it found it, when the
    destination does not exist and when the project directory already
    exists; after a successful emission, a second one with the same
    descriptor and destination raises "already exists" and leaves the
    tree of the first untouched.  A configuration error leaves the tree
    untouched as well. *)
Theorem emit_checks_first (local_gitignore : option string) (config : ProjectConfig)
        (destination_path : Path) (fs : FS) :
  (forall e, stat fs destination_path = inl e ->
     emit local_gitignore config destination_path fs
     = Raised (DestinationMissing destination_path) fs)
  /\ (forall n m,
        stat fs destination_path = inr n ->
        stat fs (destination_path // project_name config) = inr m ->
        emit local_gitignore config destination_path fs
        = Raised (AlreadyExists (destination_path // project_name config)) fs)
  /\ (forall root fs',
        emit local_gitignore config destination_path fs = Returned root fs' ->
        root = destination_path // project_name config
        /\ emit local_gitignore config destination_path fs'
           = Raised (AlreadyExists root) fs')
  /\ (forall data,
        match check_bind (read_config data) coerce_config with
        | inl e =>
            generate_from_config local_gitignore data destination_path fs
            = Raised (ConfigErr e) fs
        | inr resolved =>
            generate_from_config local_gitignore data destination_path
            = emit local_gitignore resolved destination_path
        end).
Proof.
  split; [|split; [|split]].
  - intros e. apply emit_destination_missing.
  - intros n m. apply emit_already_exists.
  - intros root fs' H.
    assert (Hroot : root = destination_path // project_name config)
      by exact (emit_returns _ _ _ _ _ _ H).
    split; [exact Hroot|].
    destruct (emit_Returned_stat _ _ _ _ _ _ H) as ((n & Hd) & Hr).
    rewrite Hroot. exact (emit_already_exists _ _ _ _ _ _ Hd Hr).
  - intros data. unfold generate_from_config.
    destruct (check_bind (read_config data) coerce_config); reflexivity.
Qed.

Lemma emit_checks_first_witness :
  emit None sample_config ["nowhere"] sample_tree
  = Raised (DestinationMissing ["nowhere"]) sample_tree
  /\ exists root fs',
       emit None sample_config ["tmp"] sample_tree = Returned root fs'
       /\ root = ["sample-project"; "tmp"]
       /\ emit None sample_config ["tmp"] fs' = Raised (AlreadyExists root) fs'.
Proof.
  split.
  - exact (proj1 (emit_checks_first None sample_config ["nowhere"] sample_tree)
             FileNotFoundError eq_refl).
  - destruct (emit None sample_config ["tmp"] sample_tree) as [root fs'|e fs'] eqn:E.
    + exists root, fs'. split; [reflexivity|].
      exact (proj1 (proj2 (proj2 (emit_checks_first None sample_config ["tmp"] sample_tree)))
               root fs' E).
    + exfalso.
      assert (H : is_returned (emit None sample_config ["tmp"] sample_tree) = true)
        by (vm_compute; reflexivity).
      rewrite E in H. discriminate H.
Defined.

(** C8: what [write_file] stores at its path is the content without its
    trailing whitespace, followed by one line feed; the part dropped is
    whitespace only and what is kept does not end in whitespace (a line
    feed is whitespace); and every file the emitter leaves in the tree
    that was not there before has this form. *)
Theorem write_file_normalizes :
  (forall path content fs fs',
     write_file path content fs = Returned tt fs' ->
     fs' path = Some (File (Py.rstrip content ++ Py.NL))
     /\ forall other, other <> path -> fs' other = fs other)
  /\ (forall content,
        (exists trailing,
           content = Py.rstrip content ++ trailing
           /\ all_chars Py.is_space trailing = true)
        /\ (forall c, last_char (Py.rstrip content) = Some c -> Py.is_space c = false)
        /\ well_terminated (Py.rstrip content ++ Py.NL))
  /\ Py.is_space Py.nl = true
  /\ (forall local_gitignore config destination_path fs,
        only_terminated_writes fs
          (final_fs (emit local_gitignore config destination_path fs))).
Proof.
  split; [|split; [|split]].
  - intros path content fs fs' H.
    apply write_file_Returned in H. destruct H as (-> & _).
    split; [apply store_same | intros other Hne; now apply store_other].
  - intros content. split; [|split].
    + apply rstrip_by_decompose.
    + intros c. apply rstrip_by_last.
    + apply write_file_text_terminated.
  - reflexivity.
  - intros local_gitignore config destination_path.
    exact (emit_preserves _ only_terminated_writes_refl only_terminated_writes_trans
             only_terminated_writes_mkdir only_terminated_writes_write
             local_gitignore config destination_path).
Qed.

Lemma write_file_normalizes_witness :
  exists text,
    final_fs (emit None sample_config ["tmp"] sample_tree)
             ["README.md"; "sample-project"; "tmp"] = Some (File text)
    /\ text = "# sample-project" ++ Py.NL ++ Py.NL ++ "This is a STUB." ++ Py.NL
    /\ well_terminated text.
Proof.
  eexists. split; [vm_compute; reflexivity|]. split; [reflexivity|].
  destruct (proj2 (proj2 (proj2 write_file_normalizes)) None sample_config ["tmp"]
              sample_tree ["README.md"; "sample-project"; "tmp"] _
              ltac:(vm_compute; reflexivity)) as [Hold|Hnew].
  - vm_compute in Hold. discriminate Hold.
  - exact Hnew.
Defined.

(** ** Occurrences in rendered templates *)

Lemma string_eqb_eq (a b : string) : String.eqb a b = true -> a = b.
Proof. apply String.eqb_eq. Qed.

Lemma endswith_split (suffix s : string) :
  endswith suffix s = true -> exists pre, s = pre ++ suffix.
Proof.
  induction s as [|c s IH]; cbn [endswith]; intros H.
  - rewrite orb_false_r in H. apply string_eqb_eq in H. exists "". now subst.
  - apply orb_true_iff in H. destruct H as [H|H].
    + apply string_eqb_eq in H. exists "". now subst.
    + destruct (IH H) as [pre ->]. now exists (String c pre).
Qed.

Lemma prefix_split (p s : string) : prefix p s = true -> exists post, s = p ++ post.
Proof.
  revert s. induction p as [|c p IH]; intros s H.
  - now exists s.
  - destruct s as [|d s]; [discriminate|]. simpl in H.
    destruct (ascii_dec c d) as [->|]; [|discriminate].
    destruct (IH s H) as [post ->]. now exists post.
Qed.

Lemma Contains_app_l (sub s pre : string) : Contains sub s -> Contains sub (pre ++ s).
Proof.
  intros (a & b & ->). exists (pre ++ a), b. now rewrite append_assoc.
Qed.

Lemma Contains_app_r (sub s post : string) : Contains sub s -> Contains sub (s ++ post).
Proof.
  intros (a & b & ->). exists a, (b ++ post). now rewrite !append_assoc.
Qed.

Lemma Contains_prefix (a b s : string) : Contains (a ++ b) s -> Contains a s.
Proof.
  intros (pre & post & ->). exists pre, (b ++ post). now rewrite append_assoc.
Qed.

Lemma render_occurs (kwargs : list (string * string)) (before field_name after : string)
      (kv : string * string) (segments : list Py.segment) (out : string) :
  seg_occurs before field_name after segments = true ->
  find (fun kv => String.eqb (fst kv) field_name) kwargs = Some kv ->
  Py.render kwargs segments = Some out ->
  Contains (before ++ snd kv ++ after) out.
Proof.
  intros Hocc Hfind. revert out Hocc.
  induction segments as [|seg rest IH]; intros out Hocc Hout; [discriminate|].
  cbn [seg_occurs] in Hocc. apply orb_true_iff in Hocc. destruct Hocc as [Hhere|Hlater].
  - destruct seg as [t1|]; [|discriminate].
    destruct rest as [|[|n] rest]; try discriminate.
    destruct rest as [|[t2|] rest]; try discriminate.
    apply andb_true_iff in Hhere. destruct Hhere as [Hhere Hafter].
    apply andb_true_iff in Hhere. destruct Hhere as [Hbefore Hname].
    apply string_eqb_eq in Hname. subst n.
    destruct (endswith_split _ _ Hbefore) as [pre ->].
    destruct (prefix_split _ _ Hafter) as [post ->].
    cbn [Py.render] in Hout. rewrite Hfind in Hout.
    destruct (Py.render kwargs rest) as [tail|]; [|discriminate].
    cbn [option_map] in Hout. inversion Hout; subst out.
    exists pre, (post ++ tail). now rewrite !append_assoc.
  - destruct seg as [t|n]; cbn [Py.render] in Hout.
    + destruct (Py.render kwargs rest) as [tail|] eqn:E; [|discriminate].
      cbn [option_map] in Hout. inversion Hout; subst out.
      apply Contains_app_l. now apply IH.
    + destruct (find (fun kv0 => String.eqb (fst kv0) n) kwargs) as [kv'|]; [|discriminate].
      destruct (Py.render kwargs rest) as [tail|] eqn:E; [|discriminate].
      cbn [option_map] in Hout. inversion Hout; subst out.
      apply Contains_app_l. now apply IH.
Qed.

Lemma rstrip_by_app_kept (drop : ascii -> bool) (a b : string) :
  Py.rstrip_by drop b <> "" ->
  Py.rstrip_by drop (a ++ b) = a ++ Py.rstrip_by drop b.
Proof.
  intros H. rewrite rstrip_by_app. destruct (Py.rstrip_by drop b); congruence.
Qed.

(** Text that ends in something other than whitespace survives
    [write_file]. *)
Lemma Contains_written (x after out : string) :
  Py.rstrip after = after -> after <> "" ->
  Contains (x ++ after) out ->
  Contains (x ++ after) (Py.rstrip out ++ Py.NL).
Proof.
  unfold Py.rstrip. intros Hafter Hne (pre & post & ->).
  apply Contains_app_r.
  assert (Hmid : exists rest, Py.rstrip_by Py.is_space ((x ++ after) ++ post)
                              = (x ++ after) ++ rest).
  { rewrite rstrip_by_app.
    destruct (Py.rstrip_by Py.is_space post) as [|k kept].
    - exists "". rewrite append_empty_r.
      rewrite rstrip_by_app_kept by congruence. now rewrite Hafter.
    - now exists (String k kept). }
  destruct Hmid as [rest Hmid].
  rewrite rstrip_by_app_kept.
  - rewrite Hmid. now exists pre, rest.
  - rewrite Hmid. destruct x; simpl; [|discriminate].
    destruct after; [congruence | discriminate].
Qed.

(** ** Files that later writes leave alone *)

Lemma keeps_refl (p : Path) (fs : FS) : keeps p fs fs.
Proof. reflexivity. Qed.

Lemma keeps_trans (p : Path) (fs1 fs2 fs3 : FS) :
  keeps p fs1 fs2 -> keeps p fs2 fs3 -> keeps p fs1 fs3.
Proof. unfold keeps. congruence. Qed.

Lemma join_path_simple (path : Path) (s : string) :
  simple_name s = true -> path // s = s :: path.
Proof.
  unfold simple_name, join_path. intros H.
  apply andb_true_iff in H. destruct H as [Hrel Hparts].
  apply negb_true_iff in Hrel. rewrite Hrel.
  destruct (path_parts s) as [|part [|]]; try discriminate.
  apply string_eqb_eq in Hparts. now subst.
Qed.

Lemma keeps_write_file (p path : Path) (s content : string) :
  simple_name s = true -> s :: path <> p ->
  preserves (keeps p) (write_file (path // s) content).
Proof.
  intros Hs Hne fs. rewrite (join_path_simple _ _ Hs).
  unfold write_file, write_text, keeps.
  destruct (os_write fs (s :: path) (Py.rstrip content ++ Py.NL)) as [e|fs1] eqn:E; simpl.
  - reflexivity.
  - destruct (os_write_inr _ _ _ _ E) as (-> & _). apply store_other. congruence.
Qed.

Ltac keeps_tail :=
  match goal with
  | |- preserves (keeps ?p) _ =>
      repeat preserve_tail (keeps_refl p) (keeps_trans p)
        ltac:(apply keeps_write_file; [reflexivity | congruence])
  end.

(** The license and the documentation configuration as a successful
    emission leaves them. *)
Lemma emit_license_and_conf (local_gitignore : option string) (config : ProjectConfig)
      (destination_path : Path) (fs fs' : FS) (root : Path) :
  emit local_gitignore config destination_path fs = Returned root fs' ->
  exists license conf,
    Py.format LICENSE_TEXT
      [("copyright_holder", build_author_label (authors config) (project_name config))]
    = Some license
    /\ Py.substitute DOC_CONF_TEMPLATE
         [ ("project_name", project_name config);
           ("author_label", build_author_label (authors config) (project_name config));
           ("repository_url", project_url config) ]
       = Some conf
    /\ fs' ("LICENSE" :: root) = Some (File (Py.rstrip license ++ Py.NL))
    /\ fs' ("conf.py" :: "docs" :: root) = Some (File (Py.rstrip conf ++ Py.NL)).
Proof.
  intros H.
  assert (Hroot : root = destination_path // project_name config)
    by exact (emit_returns _ _ _ _ _ _ H).
  unfold emit in H. rewrite bind_path_exists in H.
  destruct (stat fs destination_path) as [e|n] eqn:Hd; [discriminate H|].
  cbv beta iota zeta delta [negb] in H. rewrite bind_path_exists in H.
  destruct (stat fs (destination_path // project_name config)) as [e|m] eqn:Hr;
    [|discriminate H].
  cbv beta iota in H. rewrite <- Hroot in H.
  apply bind_Returned in H. destruct H as (u0 & fs0 & _ & H). cbv beta in H.
  apply bind_Returned in H. destruct H as (u1 & fs1 & _ & H). cbv beta in H.
  apply bind_Returned in H. destruct H as (u2 & fs2 & _ & H). cbv beta in H.
  apply bind_Returned in H. destruct H as (u3 & fs3 & _ & H). cbv beta in H.
  apply bind_Returned in H. destruct H as (license & fs4 & Hlicense & H). cbv beta in H.
  apply bind_Returned in H. destruct H as ([] & fs5 & Hwl & H). cbv beta in H.
  assert (Hkl : keeps ("LICENSE" :: root) fs5 fs').
  { match type of H with
    | ?c fs5 = _ => apply (preserves_Returned _ c fs5 fs' root); [keeps_tail | exact H]
    end. }
  apply bind_Returned in H. destruct H as (readme & fs6 & _ & H). cbv beta in H.
  apply bind_Returned in H. destruct H as (u6 & fs7 & _ & H). cbv beta in H.
  apply bind_Returned in H. destruct H as (u7 & fs8 & _ & H). cbv beta in H.
  apply bind_Returned in H. destruct H as (u8 & fs9 & _ & H). cbv beta in H.
  apply bind_Returned in H. destruct H as (index & fs10 & _ & H). cbv beta in H.
  apply bind_Returned in H. destruct H as (u10 & fs11 & _ & H). cbv beta in H.
  apply bind_Returned in H. destruct H as (conf & fs12 & Hconf & H). cbv beta in H.
  apply bind_Returned in H. destruct H as ([] & fs13 & Hwc & H). cbv beta in H.
  assert (Hkc : keeps ("conf.py" :: "docs" :: root) fs13 fs').
  { match type of H with
    | ?c fs13 = _ => apply (preserves_Returned _ c fs13 fs' root); [keeps_tail | exact H]
    end. }
  apply formatted_Returned in Hlicense. destruct Hlicense as [Hlicense _].
  apply formatted_Returned in Hconf. destruct Hconf as [Hconf _].
  apply write_file_Returned in Hwl. destruct Hwl as (Hfs5 & _).
  apply write_file_Returned in Hwc. destruct Hwc as (Hfs13 & _).
  exists license, conf. split; [exact Hlicense|]. split; [exact Hconf|]. split.
  - unfold keeps in Hkl. rewrite Hkl, Hfs5. apply store_same.
  - unfold keeps in Hkc. rewrite Hkc, Hfs13. apply store_same.
Qed.

Lemma license_names_holder (label license : string) :
  Py.format LICENSE_TEXT [("copyright_holder", label)] = Some license ->
  Contains ("Copyright (c) 2024 " ++ label) (Py.rstrip license ++ Py.NL).
Proof.
  unfold Py.format. intros H.
  assert (Hocc : seg_occurs "Copyright (c) 2024 " "copyright_holder"
                   (Py.NL ++ Py.NL ++ "Permission")
                   (segments_of (Py.parse_format None LICENSE_TEXT)) = true)
    by (vm_compute; reflexivity).
  destruct (Py.parse_format None LICENSE_TEXT) as [segments|]; [|discriminate H].
  cbn [segments_of] in Hocc.
  pose proof (render_occurs [("copyright_holder", label)] _ _ _ ("copyright_holder", label)
                _ _ Hocc eq_refl H) as Hc.
  cbn [snd] in Hc. rewrite <- append_assoc in Hc.
  apply (Contains_prefix _ (Py.NL ++ Py.NL ++ "Permission")).
  apply Contains_written; [reflexivity | discriminate | exact Hc].
Qed.

Lemma conf_names_author_and_repository (pn label url conf : string) :
  Py.substitute DOC_CONF_TEMPLATE
    [("project_name", pn); ("author_label", label); ("repository_url", url)] = Some conf ->
  Contains (Py.lit "author = ~" ++ label ++ Py.DQ) (Py.rstrip conf ++ Py.NL)
  /\ Contains (Py.lit "~source_repository~: ~" ++ url ++ Py.DQ) (Py.rstrip conf ++ Py.NL).
Proof.
  unfold Py.substitute. intros H.
  set (kwargs := [("project_name", pn); ("author_label", label); ("repository_url", url)]) in H.
  assert (Hauthor : seg_occurs (Py.lit "author = ~") "author_label" Py.DQ
                      (segments_of (Py.parse_template Py.InText DOC_CONF_TEMPLATE)) = true)
    by (vm_compute; reflexivity).
  assert (Hrepo : seg_occurs (Py.lit "~source_repository~: ~") "repository_url" Py.DQ
                    (segments_of (Py.parse_template Py.InText DOC_CONF_TEMPLATE)) = true)
    by (vm_compute; reflexivity).
  destruct (Py.parse_template Py.InText DOC_CONF_TEMPLATE) as [segments|]; [|discriminate H].
  cbn [segments_of] in Hauthor, Hrepo.
  split.
  - pose proof (render_occurs kwargs _ _ _ ("author_label", label) _ _ Hauthor eq_refl H) as Hc.
    cbn [snd] in Hc. rewrite <- append_assoc in Hc. rewrite <- append_assoc.
    apply Contains_written; [reflexivity | discriminate | exact Hc].
  - pose proof (render_occurs kwargs _ _ _ ("repository_url", url) _ _ Hrepo eq_refl H) as Hc.
    cbn [snd] in Hc. rewrite <- append_assoc in Hc. rewrite <- append_assoc.
    apply Contains_written; [reflexivity | discriminate | exact Hc].
Qed.

(** C6: the author label is the names of the authors joined by a comma
    and a space, or [<project_name> developers] when there is no author;
    after a successful emission the LICENSE names the label as copyright
    holder, the documentation configuration has it as [author] and has
    the descriptor's [project_url] as [source_repository]; and the
    descriptor's [project_url] is the document's without trailing
    slashes. *)
Theorem author_label_spec (config : ProjectConfig) :
  (authors config <> [] ->
   build_author_label (authors config) (project_name config)
   = Py.join ", " (map name (authors config)))
  /\ (authors config = [] ->
      build_author_label (authors config) (project_name config)
      = project_name config ++ " developers")
  /\ build_author_label [mkAuthor "Mo" "mo@example.com"] (project_name config) = "Mo"
  /\ (forall local_gitignore destination_path fs root fs',
        emit local_gitignore config destination_path fs = Returned root fs' ->
        exists license conf,
          fs' ("LICENSE" :: root) = Some (File license)
          /\ Contains ("Copyright (c) 2024 "
                       ++ build_author_label (authors config) (project_name config))
                      license
          /\ fs' ("conf.py" :: "docs" :: root) = Some (File conf)
          /\ Contains (Py.lit "author = ~"
                       ++ build_author_label (authors config) (project_name config)
                       ++ Py.DQ)
                      conf
          /\ Contains (Py.lit "~source_repository~: ~" ++ project_url config ++ Py.DQ) conf)
  /\ (forall raw v,
        coerce_config raw = inr config ->
        dict_get raw "project_url" = Some v ->
        project_url config = Py.rstrip_chars "/" (py_str v)).
Proof.
  split; [|split; [|split; [|split]]].
  - destruct (authors config); [congruence | reflexivity].
  - intros ->. reflexivity.
  - reflexivity.
  - intros local_gitignore destination_path fs root fs' H.
    destruct (emit_license_and_conf _ _ _ _ _ _ H)
      as (license & conf & Hlicense & Hconf & Hfl & Hfc).
    exists (Py.rstrip license ++ Py.NL), (Py.rstrip conf ++ Py.NL).
    destruct (conf_names_author_and_repository _ _ _ _ Hconf) as [Ha Hrep].
    split; [exact Hfl|]. split; [exact (license_names_holder _ _ Hlicense)|].
    split; [exact Hfc|]. split; assumption.
  - intros raw v Hcfg Hv.
    destruct (coerce_config_inr raw config Hcfg)
      as (pn & ds & u & entries & deps & items & extras & _ & _ & H3 & _ & _ & _ & _ & _
          & _ & _ & _ & _ & Hu & _).
    rewrite Hu. congruence.
Qed.

Lemma author_label_spec_witness :
  build_author_label (authors sample_config) (project_name sample_config) = "Mo"
  /\ exists root fs' license conf,
       emit None sample_config ["tmp"] sample_tree = Returned root fs'
       /\ fs' ("LICENSE" :: root) = Some (File license)
       /\ Contains "Copyright (c) 2024 Mo" license
       /\ fs' ("conf.py" :: "docs" :: root) = Some (File conf)
       /\ Contains (Py.lit "~source_repository~: ~https://github.com/MoAly98/sample-project~")
                   conf.
Proof.
  split.
  - apply (proj1 (author_label_spec sample_config)). discriminate.
  - destruct (emit None sample_config ["tmp"] sample_tree) as [root fs'|e fs'] eqn:E.
    + destruct (proj1 (proj2 (proj2 (proj2 (author_label_spec sample_config))))
                  None ["tmp"] sample_tree root fs' E)
        as (license & conf & Hl & Hholder & Hc & _ & Hrepo).
      exists root, fs', license, conf.
      split; [reflexivity|]. split; [exact Hl|]. split; [exact Hholder|].
      split; [exact Hc | exact Hrepo].
    + exfalso.
      assert (H : is_returned (emit None sample_config ["tmp"] sample_tree) = true)
        by (vm_compute; reflexivity).
      rewrite E in H. discriminate H.
Defined.

(** ** Lines and margins *)

Lemma split_on_cons (sep : ascii) (s : string) :
  exists hd tl, Py.split_on sep s = hd :: tl.
Proof.
  induction s as [|c s (hd & tl & IH)]; simpl.
  - now exists "", [].
  - destruct (Ascii.eqb c sep).
    + now exists "", (Py.split_on sep s).
    + rewrite IH. now exists (String c hd), tl.
Qed.

Lemma split_lines_line (x rest : string) :
  no_line_feed x = true ->
  exists hd tl,
    Py.split_lines rest = hd :: tl /\ Py.split_lines (x ++ rest) = (x ++ hd) :: tl.
Proof.
  unfold Py.split_lines, no_line_feed.
  induction x as [|c x IH]; cbn [all_chars append]; intros H.
  - destruct (split_on_cons Py.nl rest) as (hd & tl & Hs). now exists hd, tl.
  - apply andb_true_iff in H. destruct H as [Hc Hx]. apply negb_true_iff in Hc.
    destruct (IH Hx) as (hd & tl & Hs & Hxs). exists hd, tl. split; [exact Hs|].
    cbn [Py.split_on]. now rewrite Hc, Hxs.
Qed.

Lemma split_lines_has_line (A L B : string) :
  no_line_feed L = true ->
  exists hd tl,
    Py.split_lines (A ++ Py.NL ++ L ++ Py.NL ++ B) = hd :: tl /\ In L tl.
Proof.
  intros HL. induction A as [|c A (hd & tl & Hs & Hin)].
  - destruct (split_lines_line L (Py.NL ++ B) HL) as (hd & tl & Hs & HLs).
    unfold Py.split_lines in *. cbn in Hs. inversion Hs; subst hd tl.
    exists "", ((L ++ "") :: Py.split_on Py.nl B). split.
    + change ("" ++ Py.NL ++ L ++ Py.NL ++ B) with (String Py.nl (L ++ Py.NL ++ B)).
      cbn [Py.split_on]. rewrite Ascii.eqb_refl, HLs. reflexivity.
    + left. apply append_empty_r.
  - unfold Py.split_lines in *. cbn [append Py.split_on]. rewrite Hs.
    destruct (Ascii.eqb c Py.nl).
    + exists "", (hd :: tl). split; [reflexivity | now right].
    + now exists (String c hd), tl.
Qed.

Lemma join_head (sep : string) (l : list string) :
  exists tail, forall x, Py.join sep (x :: l) = x ++ tail.
Proof.
  destruct l as [|y l].
  - exists "". intros x. simpl. now rewrite append_empty_r.
  - exists (sep ++ Py.join sep (y :: l)). reflexivity.
Qed.

Lemma all_blank_app (a b : string) :
  Py.all_blank (a ++ b) = Py.all_blank a && Py.all_blank b.
Proof. induction a as [|c a IH]; simpl; [reflexivity | now rewrite IH, andb_assoc]. Qed.

(** A piece of text on one line, not blank, is still there when the
    blank lines have been emptied. *)
Lemma Contains_lines_text (X : string) :
  no_line_feed X = true -> Py.all_blank X = false ->
  forall P S, Contains X (lines_text (P ++ X ++ S)).
Proof.
  intros HX Hblank P S. unfold lines_text.
  induction P as [|c P IH].
  - cbn [append]. destruct (split_lines_line X S HX) as (hd & tl & _ & ->).
    cbn [map]. unfold blank_to_empty at 1. rewrite all_blank_app, Hblank. cbn [andb].
    destruct (join_head Py.NL (map blank_to_empty tl)) as [tail ->].
    exists "", (hd ++ tail). cbn [append]. now rewrite append_assoc.
  - unfold Py.split_lines in *. cbn [append Py.split_on].
    destruct (split_on_cons Py.nl (P ++ X ++ S)) as (hd & tl & Hs). rewrite Hs in IH |- *.
    destruct (Ascii.eqb c Py.nl).
    + cbn [map]. change (blank_to_empty "") with "".
      change (Py.join Py.NL ("" :: blank_to_empty hd :: map blank_to_empty tl))
        with (Py.NL ++ Py.join Py.NL (blank_to_empty hd :: map blank_to_empty tl)).
      now apply Contains_app_l.
    + cbn [map] in IH |- *.
      destruct (join_head Py.NL (map blank_to_empty tl)) as [tail Ht].
      rewrite Ht in IH |- *. unfold blank_to_empty in IH |- *.
      cbn [Py.all_blank]. destruct (Py.all_blank hd).
      * cbn [append] in IH. apply Contains_app_l. exact IH.
      * rewrite andb_false_r.
        change (String c hd ++ tail) with (String c "" ++ hd ++ tail).
        apply Contains_app_l. exact IH.
Qed.

Lemma common_prefix_empty (m : string) : Py.common_prefix m "" = "".
Proof. now destruct m. Qed.

Lemma dedent_margin_stays (lines : list string) :
  fold_left
    (fun margin line =>
       if Py.all_blank line then margin
       else match margin with
            | None => Some (Py.leading_blanks line)
            | Some m => Some (Py.common_prefix m (Py.leading_blanks line))
            end)
    lines (Some "") = Some "".
Proof.
  induction lines as [|l lines IH]; simpl; [reflexivity|].
  destruct (Py.all_blank l); exact IH.
Qed.

Lemma dedent_margin_zero (lines : list string) (L : string) :
  In L lines -> Py.all_blank L = false -> Py.leading_blanks L = "" ->
  Py.dedent_margin lines = Some "".
Proof.
  unfold Py.dedent_margin. intros Hin Hblank Hlead. generalize (@None string).
  induction lines as [|l lines IH]; intros margin; [contradiction|].
  cbn [fold_left]. destruct Hin as [->|Hin].
  - rewrite Hblank, Hlead. destruct margin as [m|].
    + rewrite common_prefix_empty. apply dedent_margin_stays.
    + apply dedent_margin_stays.
  - apply (IH Hin).
Qed.

(** With a line that starts at the first column there is no margin, and
    [dedent] only empties the blank lines. *)
Lemma dedent_zero_margin (text L : string) :
  In L (Py.split_lines text) -> Py.all_blank L = false -> Py.leading_blanks L = "" ->
  Py.dedent text = lines_text text.
Proof.
  intros Hin Hblank Hlead. unfold Py.dedent, lines_text.
  change (fun line : string => if Py.all_blank line then "" else line) with blank_to_empty.
  cbv zeta.
  rewrite (dedent_margin_zero (map blank_to_empty (Py.split_lines text)) L).
  - reflexivity.
  - apply in_map_iff. exists L. split; [|exact Hin].
    unfold blank_to_empty. now rewrite Hblank.
  - exact Hblank.
  - exact Hlead.
Qed.

(** ** The pieces of an f-string *)

Lemma fstring_two (pieces : list string) (i : nat) (a b : string) :
  nth_error pieces i = Some a -> nth_error pieces (S i) = Some b ->
  exists pre post, Py.fstring pieces = pre ++ a ++ b ++ post.
Proof.
  revert i. induction pieces as [|x pieces IH]; intros i Ha Hb.
  - destruct i; discriminate.
  - destruct i as [|i].
    + cbn in Ha, Hb. inversion Ha; subst x.
      destruct pieces as [|y pieces]; [discriminate|]. cbn in Hb. inversion Hb; subst y.
      now exists "", (Py.fstring pieces).
    + destruct (IH i Ha Hb) as (pre & post & Hp).
      exists (x ++ pre), post.
      change (Py.fstring (x :: pieces)) with (x ++ Py.fstring pieces).
      now rewrite Hp, append_assoc.
Qed.

Lemma fstring_three (pieces : list string) (i : nat) (a v b : string) :
  nth_error pieces i = Some a -> nth_error pieces (S i) = Some v ->
  nth_error pieces (S (S i)) = Some b ->
  exists pre post, Py.fstring pieces = pre ++ a ++ v ++ b ++ post.
Proof.
  revert i. induction pieces as [|x pieces IH]; intros i Ha Hv Hb.
  - destruct i; discriminate.
  - destruct i as [|i].
    + cbn in Ha, Hv, Hb. inversion Ha; subst x.
      destruct pieces as [|y pieces]; [discriminate|]. cbn in Hv, Hb. inversion Hv; subst y.
      destruct pieces as [|z pieces]; [discriminate|]. cbn in Hb. inversion Hb; subst z.
      now exists "", (Py.fstring pieces).
    + destruct (IH i Ha Hv Hb) as (pre & post & Hp).
      exists (x ++ pre), post.
      change (Py.fstring (x :: pieces)) with (x ++ Py.fstring pieces).
      now rewrite Hp, append_assoc.
Qed.

(** A value between two literal pieces is in the text, with what the
    pieces have around it. *)
Lemma lines_text_field (pieces : list string) (i : nat) (a v b before after : string) :
  nth_error pieces i = Some a -> nth_error pieces (S i) = Some v ->
  nth_error pieces (S (S i)) = Some b ->
  endswith before a = true -> prefix after b = true ->
  no_line_feed (before ++ v ++ after) = true ->
  Py.all_blank (before ++ v ++ after) = false ->
  Contains (before ++ v ++ after) (lines_text (Py.fstring pieces)).
Proof.
  intros Ha Hv Hb Hbefore Hafter Hnl Hblank.
  destruct (fstring_three pieces i a v b Ha Hv Hb) as (pre & post & ->).
  destruct (endswith_split _ _ Hbefore) as [a' ->].
  destruct (prefix_split _ _ Hafter) as [b' ->].
  replace (pre ++ (a' ++ before) ++ v ++ (after ++ b') ++ post)
    with ((pre ++ a') ++ (before ++ v ++ after) ++ (b' ++ post))
    by now rewrite !append_assoc.
  now apply Contains_lines_text.
Qed.

Lemma join_snoc (sep x : string) (front : list string) :
  front <> [] -> Py.join sep (front ++ [x]) = Py.join sep front ++ sep ++ x.
Proof.
  induction front as [|y front IH]; intros Hne; [congruence|].
  destruct front as [|z front].
  - reflexivity.
  - change (Py.join sep ((y :: z :: front) ++ [x]))
      with (y ++ sep ++ Py.join sep ((z :: front) ++ [x])).
    rewrite IH by discriminate.
    change (Py.join sep (y :: z :: front)) with (y ++ sep ++ Py.join sep (z :: front)).
    now rewrite !append_assoc.
Qed.

(** The rendered groups always end with the closing bracket of the
    [dev] group on a line of its own. *)
Lemma format_dependency_groups_end (groups : dict (list string)) (extra_dev : list string) :
  exists body, format_dependency_groups groups extra_dev = body ++ Py.NL ++ "]".
Proof.
  rewrite format_dependency_groups_lines. unfold dev_block.
  rewrite !app_assoc. rewrite join_snoc.
  - eexists. reflexivity.
  - intros H. apply (f_equal (@List.length string)) in H.
    rewrite !length_app in H. simpl in H. lia.
Qed.

(** ** The manifest's URL table *)

Lemma all_chars_replace (p : ascii -> bool) (a : ascii) (new s : string) :
  all_chars p new = true -> all_chars p s = true ->
  all_chars p (Py.replace (String a "") new s) = true.
Proof.
  intros Hnew. unfold Py.replace. induction s as [|c s IH]; [reflexivity|].
  cbn [Py.replace_from all_chars]. rewrite prefix_char. intros H.
  apply andb_true_iff in H. destruct H as [Hc Hs].
  destruct (Ascii.eqb c a).
  - rewrite all_chars_app, Hnew. now apply IH.
  - cbn [all_chars]. rewrite Hc. now apply IH.
Qed.

Lemma no_line_feed_escape (s : string) :
  no_line_feed s = true -> no_line_feed (escape_toml_string s) = true.
Proof.
  unfold no_line_feed, escape_toml_string, Py.DQ. intros H.
  apply all_chars_replace; [reflexivity|]. now apply all_chars_replace.
Qed.

Lemma no_line_feed_app (a b : string) :
  no_line_feed (a ++ b) = no_line_feed a && no_line_feed b.
Proof. apply all_chars_app. Qed.

(** ** Escaping, one character at a time *)

Lemma subst_chars_app (f : ascii -> string) (a b : string) :
  subst_chars f (a ++ b) = subst_chars f a ++ subst_chars f b.
Proof.
  induction a as [|c a IH]; simpl; [reflexivity|]. now rewrite IH, append_assoc.
Qed.

Lemma replace_char_by_text (a : ascii) (new s : string) :
  Py.replace (String a "") new s
  = subst_chars (fun c => if Ascii.eqb c a then new else String c "") s.
Proof.
  unfold Py.replace. induction s as [|c s IH]; [reflexivity|].
  cbn [Py.replace_from subst_chars]. rewrite prefix_char.
  destruct (Ascii.eqb c a); cbn; now rewrite IH.
Qed.

Lemma subst_chars_compose (f g : ascii -> string) (s : string) :
  subst_chars g (subst_chars f s) = subst_chars (fun c => subst_chars g (f c)) s.
Proof.
  induction s as [|c s IH]; simpl; [reflexivity|]. now rewrite subst_chars_app, IH.
Qed.

Lemma subst_chars_ext (f g : ascii -> string) (s : string) :
  (forall c, f c = g c) -> subst_chars f s = subst_chars g s.
Proof. intros H. induction s as [|c s IH]; simpl; [reflexivity | now rewrite H, IH]. Qed.

(** The two passes of [escape_toml_string] amount to one pass that
    escapes each character on its own. *)
Lemma escape_toml_string_chars (value : string) :
  escape_toml_string value = subst_chars escaped_char value.
Proof.
  unfold escape_toml_string, Py.DQ.
  rewrite !replace_char_by_text, subst_chars_compose.
  apply subst_chars_ext. intros c. unfold escaped_char.
  destruct (Ascii.eqb c "\") eqn:Eb.
  - reflexivity.
  - cbn [subst_chars]. destruct (Ascii.eqb c Py.dq); reflexivity.
Qed.

Lemma fstring_closing_line (pieces : list string) (i : nat) (body b : string) :
  nth_error pieces i = Some (body ++ Py.NL ++ "]") ->
  nth_error pieces (S i) = Some b ->
  prefix Py.NL b = true ->
  exists hd tl, Py.split_lines (Py.fstring pieces) = hd :: tl /\ In "]" tl.
Proof.
  intros Ha Hb Hpre.
  destruct (fstring_two pieces i _ _ Ha Hb) as (pre & post & Hp).
  destruct (prefix_split Py.NL b Hpre) as [b' Hb'].
  rewrite Hb' in Hp.
  replace (pre ++ (body ++ Py.NL ++ "]") ++ (Py.NL ++ b') ++ post)
    with ((pre ++ body) ++ Py.NL ++ "]" ++ Py.NL ++ b' ++ post) in Hp
    by now rewrite !append_assoc.
  rewrite Hp. now apply split_lines_has_line.
Qed.

(** The text [build_pyproject] hands to [dedent] has the closing
    bracket of the [dev] group at the first column, so there is no
    margin to remove. *)
Ltac manifest_text config :=
  unfold build_pyproject; cbv zeta;
  let pieces := fresh "pieces" in
  let body := fresh "body" in
  let Hbody := fresh "Hbody" in
  let Hclosing := fresh "Hclosing" in
  let hd := fresh "hd" in
  let tl := fresh "tl" in
  let Hlines := fresh "Hlines" in
  let Hin := fresh "Hin" in
  let Hzero := fresh "Hzero" in
  match goal with |- context [Py.fstring ?l] => set (pieces := l) end;
  destruct (format_dependency_groups_end (dependency_groups config) (dev_extras config))
    as [body Hbody];
  assert (Hclosing : nth_error pieces 9 = Some (body ++ Py.NL ++ "]"))
    by (rewrite <- Hbody; reflexivity);
  destruct (fstring_closing_line pieces 9 body _ Hclosing eq_refl eq_refl)
    as (hd & tl & Hlines & Hin);
  assert (Hzero : Py.dedent (Py.fstring pieces) = lines_text (Py.fstring pieces))
    by (apply (dedent_zero_margin _ "]"); [rewrite Hlines; now right | reflexivity | reflexivity]);
  rewrite Hzero.

(** ** Quoted fields *)

Lemma skip_app (a b : string) : skip (String.length a) (a ++ b) = b.
Proof. induction a as [|c a IH]; [now destruct b | exact IH]. Qed.

Lemma prefix_app (a b : string) : prefix a (a ++ b) = true.
Proof.
  induction a as [|c a IH]; [now destruct b|].
  cbn [append prefix]. destruct (ascii_dec c c); [exact IH | congruence].
Qed.

(** What [escape_toml_string] writes between two double quotes reads
    back as the value. *)
Lemma read_quoted_escape (value post : string) :
  read_quoted (escape_toml_string value ++ Py.DQ ++ post) = Some value.
Proof.
  rewrite escape_toml_string_chars.
  induction value as [|c value IH].
  - cbn [subst_chars append]. unfold Py.DQ. cbn [append read_quoted].
    now rewrite Ascii.eqb_refl.
  - cbn [subst_chars]. unfold escaped_char at 1.
    destruct (Ascii.eqb c "\") eqn:Eb.
    + apply Ascii.eqb_eq in Eb. subst c.
      change (("\\" ++ subst_chars escaped_char value) ++ Py.DQ ++ post)
        with (String "\" (String "\" (subst_chars escaped_char value ++ Py.DQ ++ post))).
      cbn [read_quoted]. rewrite Ascii.eqb_refl.
      change (Ascii.eqb "\" Py.dq) with false. cbv iota. now rewrite IH.
    + destruct (Ascii.eqb c Py.dq) eqn:Eq.
      * apply Ascii.eqb_eq in Eq. subst c.
        change ((String "\" Py.DQ ++ subst_chars escaped_char value) ++ Py.DQ ++ post)
          with (String "\" (String Py.dq (subst_chars escaped_char value ++ Py.DQ ++ post))).
        cbn [read_quoted]. rewrite Ascii.eqb_refl.
        change (Ascii.eqb "\" Py.dq) with false. cbv iota. now rewrite IH.
      * change ((String c "" ++ subst_chars escaped_char value) ++ Py.DQ ++ post)
          with (String c (subst_chars escaped_char value ++ Py.DQ ++ post)).
        cbn [read_quoted]. now rewrite Eq, Eb, IH.
Qed.

Lemma field_values_later (opening text : string) (c : ascii) (value : string) :
  In value (field_values opening text) -> In value (field_values opening (String c text)).
Proof. intros H. cbn [field_values]. apply in_or_app. now right. Qed.

(** A value that [escape_toml_string] has written behind [opening] is
    among the values read. *)
Lemma field_values_written (opening value text : string) :
  Contains (opening ++ escape_toml_string value ++ Py.DQ) text ->
  In value (field_values opening text).
Proof.
  intros (pre & post & ->). induction pre as [|c pre IH].
  - cbn [append].
    replace ((opening ++ escape_toml_string value ++ Py.DQ) ++ post)
      with (opening ++ escape_toml_string value ++ Py.DQ ++ post)
      by now rewrite !append_assoc.
    assert (Hhere : value_at opening (opening ++ escape_toml_string value ++ Py.DQ ++ post)
                    = [value]).
    { unfold value_at. now rewrite prefix_app, skip_app, read_quoted_escape. }
    destruct (opening ++ escape_toml_string value ++ Py.DQ ++ post) eqn:E;
      cbn [field_values]; rewrite Hhere; now left.
  - now apply field_values_later.
Qed.

(** ** The manifest's URL table *)

Ltac url_line i :=
  match goal with
  | |- Contains _ (lines_text (Py.fstring ?pieces)) =>
      apply (lines_text_field pieces i _ _ _ _ _ eq_refl eq_refl eq_refl);
      [ reflexivity
      | reflexivity
      | rewrite !no_line_feed_app; repeat (apply andb_true_iff; split);
        try reflexivity; apply no_line_feed_escape;
        rewrite ?no_line_feed_app; try (apply andb_true_iff; split);
        try reflexivity; assumption
      | reflexivity ]
  end.

(** When the URL has no line feed, the manifest has each key of the URL
    table followed by its value, escaped, between double quotes. *)
Lemma manifest_urls (config : ProjectConfig) (key value : string) :
  no_line_feed (project_url config) = true ->
  In (key, value) (url_fields (project_url config)) ->
  Contains (key ++ Py.lit " = ~" ++ escape_toml_string value ++ Py.DQ)
           (build_pyproject config).
Proof.
  intros Hnl Hfield. manifest_text config.
  unfold url_fields in Hfield. cbn [In] in Hfield.
  destruct Hfield as [Hf|[Hf|[Hf|[Hf|[]]]]]; inversion Hf; subst key value.
  - change (Contains (Py.lit "Homepage = ~" ++ homepage config ++ Py.DQ)
                     (lines_text (Py.fstring pieces))).
    unfold homepage. url_line 10.
  - change (Contains (Py.lit "~Bug Tracker~ = ~" ++ issues_url config ++ Py.DQ)
                     (lines_text (Py.fstring pieces))).
    unfold issues_url. url_line 12.
  - change (Contains (Py.lit "Discussions = ~" ++ discussions_url config ++ Py.DQ)
                     (lines_text (Py.fstring pieces))).
    unfold discussions_url. url_line 14.
  - change (Contains (Py.lit "Changelog = ~" ++ releases_url config ++ Py.DQ)
                     (lines_text (Py.fstring pieces))).
    unfold releases_url. url_line 16.
Qed.

Lemma url_fields_plain (base key value : string) :
  toml_plain base = true -> In (key, value) (url_fields base) -> toml_plain value = true.
Proof.
  intros Hbase Hfield. unfold url_fields in Hfield. cbn [In] in Hfield.
  destruct Hfield as [Hf|[Hf|[Hf|[Hf|[]]]]]; inversion Hf; subst key value;
    rewrite ?toml_plain_app, Hbase; reflexivity.
Qed.

(** C5, with the condition it needs: the resolved URL is the document's
    URL without its trailing slashes; and when the URL has no line
    feed, the manifest gives each key of the URL table (Homepage, Bug
    Tracker, Discussions, Changelog) a quoted field whose value, read
    back, is the resolved URL, or the resolved URL with [/issues],
    [/discussions], [/releases] appended; for a URL without backslash
    or double quote the fields hold these strings as they are. *)
Theorem project_url_normalized (raw : dict PyVal) (url : string) (config : ProjectConfig) :
  dict_get raw "project_url" = Some (VStr url) ->
  coerce_config raw = inr config ->
  project_url config = Py.rstrip_chars "/" url
  /\ (exists slashes, url = project_url config ++ slashes
                      /\ all_chars is_slash slashes = true)
  /\ last_char (project_url config) <> Some "/"%char
  /\ (no_line_feed url = true ->
      forall key value,
        In (key, value) (url_fields (project_url config)) ->
        In value (quoted_field_values key (build_pyproject config)))
  /\ (no_line_feed url = true -> toml_plain url = true ->
      forall key value,
        In (key, value) (url_fields (project_url config)) ->
        Contains (key ++ Py.lit " = ~" ++ value ++ Py.DQ) (build_pyproject config)).
Proof.
  intros Hurl Hok.
  destruct (coerce_config_inr raw config Hok)
    as (pn & ds & u & entries & deps & items & extras & _ & _ & Hu & _ & _ & _ & _ & _ & _ & _
        & _ & _ & Hp & _).
  rewrite Hurl in Hu. inversion Hu; subst u; clear Hu. simpl in Hp.
  assert (Hdec : exists slashes, url = project_url config ++ slashes
                                 /\ all_chars is_slash slashes = true).
  { rewrite Hp. unfold Py.rstrip_chars.
    destruct (rstrip_by_decompose (fun c => Py.mem_char c "/") url) as (suffix & Hs & Hall).
    exists suffix. split; [assumption|]. etransitivity; [|exact Hall]. apply all_chars_ext.
    intros c. unfold is_slash. simpl. now rewrite orb_false_r. }
  assert (Hbase_nl : no_line_feed url = true -> no_line_feed (project_url config) = true).
  { intros H. destruct Hdec as (slashes & Hs & _). rewrite Hs, no_line_feed_app in H.
    apply andb_true_iff in H. now destruct H. }
  assert (Hbase_plain : toml_plain url = true -> toml_plain (project_url config) = true).
  { intros H. destruct Hdec as (slashes & Hs & _). rewrite Hs, toml_plain_app in H.
    apply andb_true_iff in H. now destruct H. }
  split; [exact Hp|]. split; [exact Hdec|]. split; [|split].
  - rewrite Hp. unfold Py.rstrip_chars. intros Hlast.
    apply rstrip_by_last in Hlast. discriminate.
  - intros Hnl key value Hfield. unfold quoted_field_values.
    apply field_values_written.
    replace ((key ++ Py.lit " = ~") ++ escape_toml_string value ++ Py.DQ)
      with (key ++ Py.lit " = ~" ++ escape_toml_string value ++ Py.DQ)
      by now rewrite !append_assoc.
    exact (manifest_urls config key value (Hbase_nl Hnl) Hfield).
  - intros Hnl Hplain key value Hfield.
    pose proof (manifest_urls config key value (Hbase_nl Hnl) Hfield) as H.
    now rewrite (escape_toml_plain value
                   (url_fields_plain _ _ _ (Hbase_plain Hplain) Hfield)) in H.
Qed.

Lemma project_url_normalized_witness :
  exists config,
    coerce_config sample_document = inr config
    /\ project_url config = "https://github.com/MoAly98/sample-project"
    /\ In "https://github.com/MoAly98/sample-project/issues"
          (quoted_field_values (Py.lit "~Bug Tracker~") (build_pyproject config))
    /\ Contains (Py.lit "~Bug Tracker~ = ~https://github.com/MoAly98/sample-project/issues~")
                (build_pyproject config).
Proof.
  exists sample_config. split; [reflexivity|].
  destruct (project_url_normalized sample_document
              "https://github.com/MoAly98/sample-project//" sample_config eq_refl eq_refl)
    as (Hp & _ & _ & Hvalue & Hplain).
  split; [exact Hp|]. split.
  - apply (Hvalue eq_refl). cbn. tauto.
  - apply (Hplain eq_refl eq_refl (Py.lit "~Bug Tracker~")
             "https://github.com/MoAly98/sample-project/issues").
    cbn. tauto.
Defined.

(** Without the condition the statement of C5 fails: for a URL with a
    line of one space in it, [dedent] empties that line, and the value
    of the Bug Tracker field of the manifest is not the resolved URL
    with [/issues] appended. *)
Lemma derived_url_line_feed :
  exists config,
    coerce_config line_feed_url_document = inr config
    /\ dict_get line_feed_url_document "project_url" = Some (VStr line_feed_url)
    /\ last_char line_feed_url = Some "/"%char
    /\ project_url config = "https://x.org/a" ++ Py.NL ++ " " ++ Py.NL ++ "b"
    /\ quoted_field_values (Py.lit "~Bug Tracker~") (build_pyproject config)
       = ["https://x.org/a" ++ Py.NL ++ Py.NL ++ "b/issues"]
    /\ ~ In (project_url config ++ "/issues")
            (quoted_field_values (Py.lit "~Bug Tracker~") (build_pyproject config)).
Proof.
  eexists. split; [reflexivity|].
  split; [reflexivity|]. split; [reflexivity|]. split; [reflexivity|].
  split; [vm_compute; reflexivity|].
  intros H. vm_compute in H. destruct H as [H|[]]. discriminate H.
Qed.

(* ================================================================== *)
(** * Part IV: further properties of the code                          *)
(* ================================================================== *)

(** ** Escaping *)

(** X1: escaping loses nothing and always gives text that can stand
    between double quotes: reading the escapes back gives the value,
    so different values have different escaped texts, and in the
    escaped text every double quote follows a backslash that escapes
    it. *)
Theorem escape_toml_string_reversible :
  (forall value, toml_unescape (escape_toml_string value) = value)
  /\ (forall a b, escape_toml_string a = escape_toml_string b -> a = b)
  /\ (forall value, quotable (escape_toml_string value) = true).
Proof.
  assert (Hback : forall value, toml_unescape (escape_toml_string value) = value).
  { intros value. rewrite escape_toml_string_chars.
    induction value as [|c value IH]; [reflexivity|].
    cbn [subst_chars]. unfold escaped_char at 1.
    destruct (Ascii.eqb c "\") eqn:Eb.
    - apply Ascii.eqb_eq in Eb. subst c. cbn. now rewrite IH.
    - destruct (Ascii.eqb c Py.dq) eqn:Eq.
      + apply Ascii.eqb_eq in Eq. subst c. cbn. now rewrite IH.
      + cbn [append toml_unescape]. now rewrite Eb, IH. }
  split; [exact Hback|]. split.
  - intros a b H. rewrite <- (Hback a), <- (Hback b). now rewrite H.
  - intros value. rewrite escape_toml_string_chars.
    induction value as [|c value IH]; [reflexivity|].
    cbn [subst_chars]. unfold escaped_char at 1.
    destruct (Ascii.eqb c "\") eqn:Eb.
    + cbn. exact IH.
    + destruct (Ascii.eqb c Py.dq) eqn:Eq.
      * cbn. exact IH.
      * cbn [append quotable]. now rewrite Eb, Eq, IH.
Qed.

Lemma escape_toml_string_reversible_witness :
  escape_toml_string (Py.lit "say ~hi~\now") = Py.lit "say \~hi\~\\now"
  /\ toml_unescape (Py.lit "say \~hi\~\\now") = Py.lit "say ~hi~\now".
Proof.
  split; [reflexivity|].
  exact (proj1 escape_toml_string_reversible (Py.lit "say ~hi~\now")).
Defined.

(** ** The package identifier *)

Lemma normalize_package_name_map (project_name : string) :
  normalize_package_name project_name = Py.map_chars identifier_char project_name.
Proof.
  unfold normalize_package_name.
  rewrite !replace_char, map_chars_compose.
  apply map_chars_ext. intros c. unfold identifier_char.
  destruct (Ascii.eqb c "-"); reflexivity.
Qed.

Lemma map_chars_length (f : ascii -> ascii) (s : string) :
  String.length (Py.map_chars f s) = String.length s.
Proof. induction s as [|c s IH]; simpl; [reflexivity | now rewrite IH]. Qed.

Lemma all_chars_map_chars (p : ascii -> bool) (f : ascii -> ascii) (s : string) :
  (forall c, p (f c) = true) -> all_chars p (Py.map_chars f s) = true.
Proof. intros H. induction s as [|c s IH]; simpl; [reflexivity | now rewrite H, IH]. Qed.

Lemma identifier_char_clean (c : ascii) :
  negb (Ascii.eqb (identifier_char c) "-" || Ascii.eqb (identifier_char c) " ") = true.
Proof.
  unfold identifier_char.
  destruct (Ascii.eqb c "-") eqn:E1; [reflexivity|].
  destruct (Ascii.eqb c " ") eqn:E2; [reflexivity|].
  cbn [orb]. now rewrite E1, E2.
Qed.

Lemma identifier_char_idem (c : ascii) : identifier_char (identifier_char c) = identifier_char c.
Proof.
  pose proof (identifier_char_clean c) as H. apply negb_true_iff in H.
  unfold identifier_char at 1. now rewrite H.
Qed.

(** X2: the package identifier has the length of the project name and
    holds neither a hyphen nor a space; normalizing it again changes
    nothing, and a name free of hyphens and spaces is its own
    identifier. *)
Theorem normalize_package_name_clean (project_name : string) :
  String.length (normalize_package_name project_name) = String.length project_name
  /\ all_chars (fun c => negb (Ascii.eqb c "-" || Ascii.eqb c " "))
               (normalize_package_name project_name) = true
  /\ normalize_package_name (normalize_package_name project_name)
     = normalize_package_name project_name
  /\ (all_chars (fun c => negb (Ascii.eqb c "-" || Ascii.eqb c " ")) project_name = true
      -> normalize_package_name project_name = project_name).
Proof.
  rewrite !normalize_package_name_map. split; [|split; [|split]].
  - apply map_chars_length.
  - apply all_chars_map_chars. apply identifier_char_clean.
  - rewrite map_chars_compose. apply map_chars_ext. apply identifier_char_idem.
  - induction project_name as [|c s IH]; [reflexivity|].
    cbn [all_chars Py.map_chars]. intros H. apply andb_true_iff in H. destruct H as [Hc Hs].
    rewrite (IH Hs). unfold identifier_char. apply negb_true_iff in Hc. now rewrite Hc.
Qed.

Lemma normalize_package_name_clean_witness :
  normalize_package_name "my.pkg_2" = "my.pkg_2".
Proof.
  apply (proj2 (proj2 (proj2 (normalize_package_name_clean "my.pkg_2")))). reflexivity.
Defined.

(** ** Rendered lists, line by line *)

Lemma split_lines_single (x : string) :
  no_line_feed x = true -> Py.split_lines x = [x].
Proof.
  intros H. destruct (split_lines_line x "" H) as (hd & tl & Hs & Hx).
  rewrite append_empty_r in Hx. rewrite Hx.
  unfold Py.split_lines in Hs. cbn in Hs. inversion Hs. now rewrite append_empty_r.
Qed.

(** Joining lines and splitting the text gives the lines back. *)
Lemma split_lines_join (lines : list string) :
  lines <> [] ->
  Forall (fun line => no_line_feed line = true) lines ->
  Py.split_lines (Py.join Py.NL lines) = lines.
Proof.
  induction lines as [|x lines IH]; intros Hne Hall; [congruence|].
  inversion Hall as [|? ? Hx Hrest]; subst.
  destruct lines as [|y lines].
  - now apply split_lines_single.
  - change (Py.join Py.NL (x :: y :: lines)) with (x ++ Py.NL ++ Py.join Py.NL (y :: lines)).
    destruct (split_lines_line x (Py.NL ++ Py.join Py.NL (y :: lines)) Hx)
      as (hd & tl & Hs & ->).
    unfold Py.split_lines in Hs, IH.
    change (Py.NL ++ Py.join Py.NL (y :: lines))
      with (String Py.nl (Py.join Py.NL (y :: lines))) in Hs.
    cbn [Py.split_on] in Hs. rewrite Ascii.eqb_refl in Hs.
    rewrite IH in Hs by (congruence || assumption).
    inversion Hs. now rewrite append_empty_r.
Qed.

Lemma no_line_feed_spaces (n : nat) : no_line_feed (Py.spaces n) = true.
Proof. induction n as [|n IH]; [reflexivity | exact IH]. Qed.

Lemma fold_left_list_append_nil {A B : Type} (f : B -> A) (l : list B) :
  fold_left (fun out x => list_append out (f x)) l [] = map f l.
Proof. now rewrite fold_left_list_append. Qed.

(** X3: a list without entries is rendered as one comment line; any
    other list as one line per entry, in order, each the indentation,
    the entry between double quotes and a comma.  The entry is put in
    as it is, so with entries free of line feeds the lines of the
    result are exactly these and as many as there are entries. *)
Theorem format_string_array_lines (values : list string) (indent : nat) :
  (values = [] ->
   format_string_array values indent = Py.spaces indent ++ "# Add entries here")
  /\ (values <> [] ->
      format_string_array values indent = Py.join Py.NL (map (array_line indent) values))
  /\ (values <> [] ->
      Forall (fun value => no_line_feed value = true) values ->
      Py.split_lines (format_string_array values indent) = map (array_line indent) values
      /\ List.length (Py.split_lines (format_string_array values indent))
         = List.length values).
Proof.
  assert (Hform : values <> [] ->
                  format_string_array values indent
                  = Py.join Py.NL (map (array_line indent) values)).
  { intros Hne. destruct values; [congruence | reflexivity]. }
  split; [intros ->; reflexivity|]. split; [exact Hform|].
  intros Hne Hall.
  assert (Hlines : Py.split_lines (format_string_array values indent)
                   = map (array_line indent) values).
  { rewrite (Hform Hne). apply split_lines_join.
    - destruct values; [congruence | discriminate].
    - apply Forall_map. apply (Forall_impl _ (P := fun value => no_line_feed value = true));
        [|exact Hall].
      intros value Hv. unfold array_line. rewrite !no_line_feed_app, no_line_feed_spaces, Hv.
      reflexivity. }
  split; [exact Hlines|]. now rewrite Hlines, length_map.
Qed.

Lemma format_string_array_lines_witness :
  Py.split_lines (format_string_array ["numpy"; "scipy"] 4)
  = [Py.lit "    ~numpy~,"; Py.lit "    ~scipy~,"].
Proof.
  apply (proj2 (proj2 (format_string_array_lines ["numpy"; "scipy"] 4))).
  - discriminate.
  - repeat constructor.
Defined.

Lemma format_authors_join (authors : list Author) :
  authors <> [] -> format_authors authors = Py.join Py.NL (map author_line authors).
Proof.
  intros Hne. destruct authors as [|a rest]; [congruence|].
  unfold format_authors.
  now rewrite (fold_left_list_append_nil
                 (fun author => Py.lit "    { name = ~" ++ name author
                                  ++ Py.lit "~, email = ~" ++ email author
                                  ++ Py.lit "~ },")).
Qed.

(** X4: without authors the block is one placeholder record; otherwise
    it is one record line per author, in order, with the name and the
    email as they are, and with names and emails free of line feeds the
    lines of the block are exactly these. *)
Theorem format_authors_lines (authors : list Author) :
  (authors = [] ->
   format_authors authors = Py.lit "    { name = ~Mo~, email = ~todo@example.com~ },")
  /\ (authors <> [] ->
      format_authors authors = Py.join Py.NL (map author_line authors))
  /\ (authors <> [] ->
      Forall (fun author => author_plain author = true) authors ->
      Py.split_lines (format_authors authors) = map author_line authors).
Proof.
  pose proof (format_authors_join authors) as Hform.
  split; [intros ->; reflexivity|]. split; [exact Hform|].
  intros Hne Hall. rewrite (Hform Hne). apply split_lines_join.
  - destruct authors; [congruence | discriminate].
  - apply Forall_map. apply (Forall_impl _ (P := fun author => author_plain author = true));
      [|exact Hall].
    intros author Ha. unfold author_plain in Ha. apply andb_true_iff in Ha.
    destruct Ha as [Hn He]. unfold author_line.
    rewrite !no_line_feed_app, Hn, He. reflexivity.
Qed.

Lemma format_authors_lines_witness :
  Py.split_lines (format_authors [mkAuthor "Mo" "mo@example.com"; mkAuthor "Al" "al@example.com"])
  = [ Py.lit "    { name = ~Mo~, email = ~mo@example.com~ },";
      Py.lit "    { name = ~Al~, email = ~al@example.com~ }," ].
Proof.
  exact (proj2 (proj2 (format_authors_lines
                         [mkAuthor "Mo" "mo@example.com"; mkAuthor "Al" "al@example.com"]))
           ltac:(discriminate) ltac:(repeat constructor)).
Defined.

(** ** What resolution looks at *)

Lemma coerce_config_ext (raw1 raw2 : dict PyVal) :
  (forall key, In key checking_order -> dict_get raw1 key = dict_get raw2 key) ->
  coerce_config raw1 = coerce_config raw2.
Proof.
  intros H. unfold coerce_config, lookup_required.
  rewrite (H "project_name"), (H "description"), (H "project_url"), (H "authors"),
    (H "dependencies"), (H "dependency_groups"), (H "dev_extras");
    try reflexivity; simpl; auto 8.
Qed.

Lemma dict_get_cons_other {V : Type} (d : dict V) (k k' : string) (v : V) :
  k <> k' -> dict_get ((k, v) :: d) k' = dict_get d k'.
Proof.
  intros H. simpl. destruct (String.eqb k k') eqn:E; [|reflexivity].
  apply String.eqb_eq in E. contradiction.
Qed.

Lemma dict_get_in_keys {V : Type} (d : dict V) (k : string) (v : V) :
  dict_get d k = Some v -> In k (dict_keys d).
Proof.
  unfold dict_keys. induction d as [|[k0 v0] d IH]; simpl; [discriminate|].
  destruct (String.eqb k0 k) eqn:E.
  - apply String.eqb_eq in E. now left.
  - intros H. right. now apply IH.
Qed.

(** With distinct keys, the order of the items does not matter to a
    lookup. *)
Lemma dict_get_permutation {V : Type} (d1 d2 : dict V) (k : string) :
  Permutation d1 d2 -> NoDup (dict_keys d1) -> dict_get d1 k = dict_get d2 k.
Proof.
  intros Hp. induction Hp as [|[k0 v0] l l' Hp IH|[k1 v1] [k2 v2] l|l l' l'' Hp1 IH1 Hp2 IH2];
    intros Hnd.
  - reflexivity.
  - simpl. inversion Hnd; subst. destruct (String.eqb k0 k); [reflexivity | now apply IH].
  - simpl. destruct (String.eqb k2 k) eqn:E2; destruct (String.eqb k1 k) eqn:E1; try reflexivity.
    apply String.eqb_eq in E1, E2. subst k1 k2.
    inversion Hnd as [|? ? Hnotin _]. exfalso. apply Hnotin. now left.
  - rewrite IH1 by assumption. apply IH2.
    unfold dict_keys in *. apply (Permutation_NoDup (Permutation_map fst Hp1) Hnd).
Qed.

(** X5: resolution looks at the seven keys and at nothing else: two
    documents that agree on them resolve alike (to the same descriptor
    or the same error).  So a key that is not one of the seven is
    ignored, whatever its value, and the order in which a document
    lists its keys makes no difference. *)
Theorem coerce_config_seven_keys :
  (forall raw1 raw2 : dict PyVal,
     (forall key, In key checking_order -> dict_get raw1 key = dict_get raw2 key) ->
     coerce_config raw1 = coerce_config raw2)
  /\ (forall (raw : dict PyVal) (key : string) (v : PyVal),
        ~ In key checking_order ->
        coerce_config (dict_set raw key v) = coerce_config raw
        /\ coerce_config ((key, v) :: raw) = coerce_config raw)
  /\ (forall raw1 raw2 : dict PyVal,
        Permutation raw1 raw2 -> NoDup (dict_keys raw1) ->
        coerce_config raw1 = coerce_config raw2).
Proof.
  split; [exact coerce_config_ext|]. split.
  - intros raw key v Hkey. split; apply coerce_config_ext; intros k Hk.
    + apply dict_get_set_other. intros ->. contradiction.
    + apply dict_get_cons_other. intros ->. contradiction.
  - intros raw1 raw2 Hp Hnd. apply coerce_config_ext. intros k _.
    now apply dict_get_permutation.
Qed.

Lemma coerce_config_seven_keys_witness :
  coerce_config (("license", VStr "MIT") :: sample_document) = coerce_config sample_document
  /\ coerce_config (rev sample_document) = coerce_config sample_document.
Proof.
  split.
  - apply (proj1 (proj2 coerce_config_seven_keys) sample_document "license" (VStr "MIT")).
    simpl. intuition discriminate.
  - apply (proj2 (proj2 coerce_config_seven_keys)).
    + apply Permutation_sym, Permutation_rev.
    + vm_compute. repeat constructor; simpl; intuition discriminate.
Defined.

(** ** Trailing slashes *)

Lemma rstrip_chars_slash (url : string) :
  Py.rstrip_chars "/" (url ++ "/") = Py.rstrip_chars "/" url.
Proof. unfold Py.rstrip_chars. now rewrite rstrip_by_app. Qed.

Lemma coerce_config_url (raw : dict PyVal) (v1 v2 : PyVal) :
  Py.rstrip_chars "/" (py_str v1) = Py.rstrip_chars "/" (py_str v2) ->
  coerce_config (dict_set raw "project_url" v1) = coerce_config (dict_set raw "project_url" v2).
Proof.
  intros Hurl. unfold coerce_config, lookup_required, expect_list, check_bind.
  rewrite !dict_get_set_same.
  rewrite !(dict_get_set_other raw "project_url") by discriminate.
  rewrite Hurl. reflexivity.
Qed.

(** X6: trailing slashes of [project_url] make no difference to what
    resolution gives: a document and the same document with one more
    slash at the end of the URL resolve alike, and putting the resolved
    URL in the place of the document's leaves the result as it is. *)
Theorem project_url_slash_insensitive (raw : dict PyVal) (url : string) :
  coerce_config (dict_set raw "project_url" (VStr (url ++ "/")))
  = coerce_config (dict_set raw "project_url" (VStr url))
  /\ coerce_config (dict_set raw "project_url" (VStr (Py.rstrip_chars "/" url)))
     = coerce_config (dict_set raw "project_url" (VStr url)).
Proof.
  split; apply coerce_config_url; cbn [py_str].
  - apply rstrip_chars_slash.
  - unfold Py.rstrip_chars. apply rstrip_by_idem.
Qed.

(** ** Resolved authors *)

Lemma coerce_authors_map (entries : list PyVal) (acc result : list Author) :
  coerce_authors entries acc = inr result ->
  result = (acc ++ map author_of entries)%list.
Proof.
  revert acc. induction entries as [|entry entries IH]; intros acc H; simpl in H.
  - inversion H. now rewrite app_nil_r.
  - destruct entry; try discriminate.
    destruct (dict_get items "name") as [n|] eqn:En; [|discriminate].
    destruct (dict_get items "email") as [e|] eqn:Ee; [|discriminate].
    rewrite (IH _ H). unfold list_append. rewrite <- app_assoc. cbn [app map].
    unfold author_of, entry_text. now rewrite En, Ee.
Qed.

(** X7: a resolved descriptor has one author per entry of the
    document, in order, with name and email stringified, and at least
    one.  So for a resolved descriptor the author label is always the
    joined names and the authors block always has the authors' own
    records: the fallback label and the placeholder record are never
    used. *)
Theorem resolved_authors (raw : dict PyVal) (config : ProjectConfig) (entries : list PyVal) :
  coerce_config raw = inr config ->
  dict_get raw "authors" = Some (VList entries) ->
  authors config = map author_of entries
  /\ authors config <> []
  /\ build_author_label (authors config) (project_name config)
     = Py.join ", " (map (fun entry => entry_text entry "name") entries)
  /\ format_authors (authors config) = Py.join Py.NL (map author_line (authors config)).
Proof.
  intros Hcfg Hentries.
  destruct (coerce_config_inr raw config Hcfg)
    as (pn & ds & u & entries' & deps & items & extras & _ & _ & _ & Ha & Hne & Hc & _).
  rewrite Hentries in Ha. inversion Ha; subst entries'; clear Ha.
  apply coerce_authors_map in Hc. cbn [app] in Hc.
  assert (Hnonempty : authors config <> []).
  { rewrite Hc. destruct entries; [congruence | discriminate]. }
  split; [exact Hc|]. split; [exact Hnonempty|]. split.
  - rewrite Hc. destruct entries as [|entry rest]; [congruence|].
    unfold build_author_label. cbn [map]. now rewrite map_map.
  - now apply format_authors_join.
Qed.

Lemma resolved_authors_witness :
  exists config,
    coerce_config sample_document = inr config
    /\ authors config = [mkAuthor "Mo" "mo@example.com"]
    /\ build_author_label (authors config) (project_name config) = "Mo".
Proof.
  exists sample_config. split; [reflexivity|].
  destruct (resolved_authors sample_document sample_config _ eq_refl eq_refl)
    as (Ha & _ & Hl & _).
  split; [exact Ha | exact Hl].
Defined.

(** ** Resolved groups, rendered *)

Lemma dict_keys_start3 {V : Type} (d : dict V) (k1 k2 k3 : string) (added : list string) :
  dict_keys d = (k1 :: k2 :: k3 :: added) ->
  exists v1 v2 v3 rest,
    d = (k1, v1) :: (k2, v2) :: (k3, v3) :: rest /\ dict_keys rest = added.
Proof.
  unfold dict_keys. intros H.
  destruct d as [|[a1 v1] [|[a2 v2] [|[a3 v3] rest]]]; try discriminate.
  cbn in H. inversion H; subst. now exists v1, v2, v3, rest.
Qed.

(** X8: whatever groups the document gives, the rendered block of a
    resolved descriptor starts with the list blocks of test, docs and
    examples, in this order, and its [dev] group starts with the
    include-group references to test, docs and examples, in this
    order. *)
Theorem resolved_groups_rendered (raw : dict PyVal) (config : ProjectConfig) :
  coerce_config raw = inr config ->
  exists tests docs examples more,
    other_groups (dependency_groups config)
    = ("test", tests) :: ("docs", docs) :: ("examples", examples) :: other_groups more
    /\ format_dependency_groups (dependency_groups config) (dev_extras config)
       = Py.join Py.NL
           (group_block ("test", tests) ++ group_block ("docs", docs)
            ++ group_block ("examples", examples)
            ++ flat_map group_block (other_groups more)
            ++ ["dev = ["; include_line "test"; include_line "docs"; include_line "examples"]
            ++ map include_line (dict_keys (other_groups more))
            ++ map entry_line DEV_BASELINE
            ++ map entry_line (dev_extras config)
            ++ ["]"]).
Proof.
  intros Hcfg.
  destruct (coerce_config_inr raw config Hcfg)
    as (pn & ds & u & entries & deps & items & extras & _ & _ & _ & _ & _ & _ & _ & _ & Ho & _).
  destruct (overlay_groups_keys _ _ _ Ho) as [added Hkeys].
  destruct (dict_keys_start3 _ _ _ _ _ Hkeys) as (tests & docs & examples & more & Hd & _).
  exists tests, docs, examples, more.
  rewrite format_dependency_groups_lines. unfold dev_block. rewrite Hd.
  split; reflexivity.
Qed.

Lemma resolved_groups_rendered_witness :
  coerce_config sample_document = inr sample_config
  /\ exists tests docs examples more,
       other_groups (dependency_groups sample_config)
       = ("test", tests) :: ("docs", docs) :: ("examples", examples) :: other_groups more.
Proof.
  split; [reflexivity|].
  destruct (resolved_groups_rendered sample_document sample_config eq_refl)
    as (tests & docs & examples & more & Hother & _).
  now exists tests, docs, examples, more.
Defined.

(** ** The layout of the manifest *)

Lemma split_lines_no_line_feed (text : string) :
  Forall (fun line => no_line_feed line = true) (Py.split_lines text).
Proof.
  unfold Py.split_lines, no_line_feed. induction text as [|c text IH]; cbn [Py.split_on].
  - now repeat constructor.
  - destruct (Ascii.eqb c Py.nl) eqn:E.
    + now constructor.
    + destruct (Py.split_on Py.nl text) as [|item more].
      * repeat constructor. cbn [all_chars]. now rewrite E.
      * inversion IH as [|? ? Hitem Hmore]; subst. constructor; [|exact Hmore].
        cbn [all_chars]. now rewrite E, Hitem.
Qed.

Lemma no_line_feed_blank_to_empty (line : string) :
  no_line_feed line = true -> no_line_feed (blank_to_empty line) = true.
Proof. unfold blank_to_empty. now destruct (Py.all_blank line). Qed.

(** The lines of a text whose blank lines have been emptied. *)
Lemma split_lines_lines_text (text : string) :
  Py.split_lines (lines_text text) = map blank_to_empty (Py.split_lines text).
Proof.
  unfold lines_text. apply split_lines_join.
  - destruct (split_on_cons Py.nl text) as (hd & tl & Hs).
    unfold Py.split_lines. rewrite Hs. discriminate.
  - apply Forall_map. eapply Forall_impl; [|apply split_lines_no_line_feed].
    intros line. apply no_line_feed_blank_to_empty.
Qed.

Lemma fstring_first_line (pieces : list string) (a X : string) :
  nth_error pieces 0 = Some a ->
  prefix (X ++ Py.NL) a = true ->
  no_line_feed X = true ->
  exists tl, Py.split_lines (Py.fstring pieces) = X :: tl.
Proof.
  intros Ha Hpre HX.
  destruct pieces as [|a0 pieces]; [discriminate|]. cbn in Ha. inversion Ha; subst a0.
  destruct (prefix_split _ _ Hpre) as [a' ->].
  change (Py.fstring (((X ++ Py.NL) ++ a') :: pieces))
    with (((X ++ Py.NL) ++ a') ++ Py.fstring pieces).
  rewrite !append_assoc.
  destruct (split_lines_line X (Py.NL ++ a' ++ Py.fstring pieces) HX) as (hd & tl & Hs & ->).
  unfold Py.split_lines in Hs.
  change (Py.NL ++ a' ++ Py.fstring pieces) with (String Py.nl (a' ++ Py.fstring pieces)) in Hs.
  cbn [Py.split_on] in Hs. rewrite Ascii.eqb_refl in Hs. inversion Hs; subst.
  rewrite append_empty_r. now eexists.
Qed.

(** X9: the manifest keeps the indentation of the template: its first
    line is the [build-system] header behind eight spaces, while the
    closing bracket of the [dev] group stands at the first column of a
    later line. *)
Theorem manifest_keeps_indentation (config : ProjectConfig) :
  exists rest,
    manifest_lines config = Py.lit "        [build-system]" :: rest /\ In "]" rest.
Proof.
  unfold manifest_lines. manifest_text config.
  rewrite split_lines_lines_text.
  destruct (fstring_first_line pieces _ (Py.lit "        [build-system]") eq_refl eq_refl eq_refl)
    as [tl' Hfirst].
  rewrite Hlines in Hfirst. inversion Hfirst; subst hd tl'.
  exists (map blank_to_empty tl). split; [now rewrite Hlines|].
  change "]" with (blank_to_empty "]"). now apply in_map.
Qed.

Ltac manifest_line i :=
  match goal with
  | |- Contains _ (lines_text (Py.fstring ?pieces)) =>
      apply (lines_text_field pieces i _ _ _ _ _ eq_refl eq_refl eq_refl);
      [ reflexivity
      | reflexivity
      | rewrite !no_line_feed_app; repeat (apply andb_true_iff; split);
        try reflexivity; assumption
      | reflexivity ]
  end.

Lemma no_line_feed_normalize (project_name : string) :
  no_line_feed project_name = true ->
  no_line_feed (normalize_package_name project_name) = true.
Proof.
  rewrite normalize_package_name_map. unfold no_line_feed.
  induction project_name as [|c s IH]; [reflexivity|].
  cbn [Py.map_chars all_chars]. intros H. apply andb_true_iff in H. destruct H as [Hc Hs].
  rewrite (IH Hs), andb_true_r. unfold identifier_char.
  destruct (Ascii.eqb c "-"); [reflexivity|].
  destruct (Ascii.eqb c " "); [reflexivity | exact Hc].
Qed.

(** X10: when the project name and the description hold no line feed,
    the manifest has the line of the name with the project name as it
    is, the line of the description with the description escaped, and
    the version path and the coverage source with the package name. *)
Theorem manifest_metadata (config : ProjectConfig) :
  no_line_feed (project_name config) = true ->
  no_line_feed (description config) = true ->
  Contains (Py.lit "        name = ~" ++ project_name config ++ Py.DQ)
           (build_pyproject config)
  /\ Contains (Py.lit "        description = ~" ++ escape_toml_string (description config)
               ++ Py.DQ)
              (build_pyproject config)
  /\ Contains (Py.lit "        version.path = ~src/" ++ package_of config
               ++ Py.lit "/__init__.py~")
              (build_pyproject config)
  /\ Contains (Py.lit "        run.source = [~" ++ package_of config ++ Py.lit "~]")
              (build_pyproject config).
Proof.
  intros Hname Hdescription.
  pose proof (no_line_feed_normalize _ Hname) as Hpackage.
  pose proof (no_line_feed_escape _ Hdescription) as Hescaped.
  unfold package_of. manifest_text config.
  repeat split.
  - manifest_line 0.
  - manifest_line 2.
  - manifest_line 18.
  - manifest_line 20.
Qed.

Lemma manifest_metadata_witness :
  Contains (Py.lit "        name = ~sample-project~") (build_pyproject sample_config)
  /\ Contains (Py.lit "        run.source = [~sample_project~]") (build_pyproject sample_config).
Proof.
  destruct (manifest_metadata sample_config eq_refl eq_refl) as (Hname & _ & _ & Hsource).
  split; [exact Hname | exact Hsource].
Defined.

(** ** Writing a file *)

Lemma stat_store_shorter (fs : FS) (p q : Path) (n : Node) :
  (length q < length p)%nat -> stat (store fs p n) q = stat fs q.
Proof.
  induction q as [|c parent IH]; intros Hlen; [reflexivity|].
  cbn [stat]. cbn [length] in Hlen. rewrite IH by lia.
  rewrite store_other; [reflexivity|].
  intros Heq. apply (f_equal (@length string)) in Heq. cbn [length] in Heq. lia.
Qed.

Lemma stat_store_here (fs : FS) (c : string) (parent : Path) (n : Node) :
  stat fs parent = inr Dir -> stat (store fs (c :: parent) n) (c :: parent) = inr n.
Proof.
  intros Hparent. cbn [stat].
  rewrite stat_store_shorter by (cbn [length]; lia).
  now rewrite Hparent, store_same.
Qed.





(** ** Making directories *)


Lemma os_mkdir_parent (fs fs' : FS) (p : Path) :
  os_mkdir fs p = inr fs' ->
  exists c parent, p = c :: parent /\ stat fs parent = inr Dir.
Proof.
  destruct p as [|c parent]; cbn [os_mkdir]; [discriminate|].
  destruct (stat fs parent) as [e|[|t]] eqn:E; try discriminate.
  intros _. now exists c, parent.
Qed.

Lemma is_dir_stat (fs : FS) (p : Path) : is_dir fs p = true -> stat fs p = inr Dir.
Proof. unfold is_dir. now destruct (stat fs p) as [e|[|t]]. Qed.

Lemma os_mkdir_stat (fs fs' : FS) (p : Path) :
  os_mkdir fs p = inr fs' -> stat fs' p = inr Dir.
Proof.
  intros H. destruct (os_mkdir_parent _ _ _ H) as (c & parent & -> & Hparent).
  destruct (os_mkdir_inr _ _ _ H) as [-> _]. now apply stat_store_here.
Qed.

Lemma mkdir_here_stat (exist_ok : bool) (p : Path) (fs fs' : FS) :
  mkdir_here exist_ok p fs = Returned tt fs' -> stat fs' p = inr Dir.
Proof.
  unfold mkdir_here. destruct (os_mkdir fs p) as [e|fs1] eqn:E.
  - destruct e; try discriminate;
      (destruct (exist_ok && is_dir fs p) eqn:Hok; [|discriminate]);
      intros H; inversion H; subst fs';
      apply andb_true_iff in Hok; now apply is_dir_stat.
  - intros H. inversion H; subst fs1. exact (os_mkdir_stat _ _ _ E).
Qed.

Lemma mkdir_parents_stat (exist_ok : bool) (p : Path) (fs fs' : FS) :
  mkdir_parents exist_ok p fs = Returned tt fs' -> stat fs' p = inr Dir.
Proof.
  destruct p as [|c parent]; [reflexivity|].
  cbn [mkdir_parents].
  destruct (os_mkdir fs (c :: parent)) as [e|fs1] eqn:E.
  - destruct e.
    + intros H. apply bind_Returned in H. destruct H as (u & fs1 & _ & H).
      exact (mkdir_here_stat _ _ _ _ H).
    + destruct (exist_ok && is_dir fs (c :: parent)) eqn:Hok; [|discriminate].
      intros H; inversion H; subst fs'.
      apply andb_true_iff in Hok. now apply is_dir_stat.
    + destruct (exist_ok && is_dir fs (c :: parent)) eqn:Hok; [|discriminate].
      intros H; inversion H; subst fs'.
      apply andb_true_iff in Hok. now apply is_dir_stat.
    + destruct (exist_ok && is_dir fs (c :: parent)) eqn:Hok; [|discriminate].
      intros H; inversion H; subst fs'.
      apply andb_true_iff in Hok. now apply is_dir_stat.
  - intros H. inversion H; subst fs1. exact (os_mkdir_stat _ _ _ E).
Qed.

Lemma stat_entry (fs : FS) (c : string) (parent : Path) (n : Node) :
  stat fs (c :: parent) = inr n -> stat fs parent = inr Dir /\ fs (c :: parent) = Some n.
Proof.
  cbn [stat]. destruct (stat fs parent) as [e|[|t]]; try discriminate.
  destruct (fs (c :: parent)) as [m|]; [|discriminate].
  intros H. inversion H. now split.
Qed.

Lemma os_mkdir_present (fs : FS) (p : Path) (n : Node) :
  stat fs p = inr n -> os_mkdir fs p = inl FileExistsError.
Proof.
  destruct p as [|c parent]; [reflexivity|]. intros H.
  destruct (stat_entry _ _ _ _ H) as [Hparent Hentry].
  cbn [os_mkdir]. now rewrite Hparent, Hentry.
Qed.

(** A directory that is there already is left alone. *)
Lemma mkdir_parents_present (p : Path) (fs : FS) :
  stat fs p = inr Dir -> mkdir_parents true p fs = Returned tt fs.
Proof.
  intros H. pose proof (os_mkdir_present _ _ _ H) as Hmk.
  assert (Hdir : is_dir fs p = true) by (unfold is_dir; now rewrite H).
  destruct p as [|c parent]; cbn [mkdir_parents]; rewrite Hmk; cbn [andb]; now rewrite Hdir.
Qed.

Lemma only_new_directories_refl (fs : FS) : only_new_directories fs fs.
Proof. intros q. now left. Qed.

Lemma only_new_directories_trans (fs1 fs2 fs3 : FS) :
  only_new_directories fs1 fs2 -> only_new_directories fs2 fs3 ->
  only_new_directories fs1 fs3.
Proof.
  intros H12 H23 q. destruct (H23 q) as [H|[Hnone Hdir]].
  - rewrite H. apply H12.
  - destruct (H12 q) as [H|[Hnone1 Hdir1]]; [|congruence].
    right. split; congruence.
Qed.

Lemma only_new_directories_mkdir (fs : FS) (p : Path) :
  fs p = None -> only_new_directories fs (store fs p Dir).
Proof.
  intros Hnone q. unfold store, path_eqb.
  destruct (list_eq_dec string_dec q p) as [->|Hne]; [now right | now left].
Qed.

(** X12: when [ensure_directory] returns, the path is a directory and
    a second call changes nothing; whether it returns or raises, every
    entry of the tree is as before or is a new directory; a path that
    is a directory already is left alone, and a path that is a file
    makes it raise "file exists" with the tree as it was. *)
Theorem ensure_directory_spec (path : Path) (fs : FS) :
  (forall fs',
     ensure_directory path fs = Returned tt fs' ->
     stat fs' path = inr Dir /\ ensure_directory path fs' = Returned tt fs')
  /\ only_new_directories fs (final_fs (ensure_directory path fs))
  /\ (stat fs path = inr Dir -> ensure_directory path fs = Returned tt fs)
  /\ (forall text,
        stat fs path = inr (File text) ->
        ensure_directory path fs = Raised (OSErr FileExistsError path) fs).
Proof.
  unfold ensure_directory. split; [|split; [|split]].
  - intros fs' H. pose proof (mkdir_parents_stat _ _ _ _ H) as Hdir.
    split; [exact Hdir | now apply mkdir_parents_present].
  - exact (preserves_mkdir_parents _ only_new_directories_refl only_new_directories_trans
             only_new_directories_mkdir true path fs).
  - apply mkdir_parents_present.
  - intros text H. pose proof (os_mkdir_present _ _ _ H) as Hmk.
    assert (Hdir : is_dir fs path = false) by (unfold is_dir; now rewrite H).
    destruct path as [|c parent]; [discriminate H|].
    cbn [mkdir_parents]. rewrite Hmk. cbn [andb]. now rewrite Hdir.
Qed.

Lemma ensure_directory_spec_witness :
  exists fs',
    ensure_directory ["api"; "docs"; "tmp"] sample_tree = Returned tt fs'
    /\ stat fs' ["api"; "docs"; "tmp"] = inr Dir
    /\ stat fs' ["docs"; "tmp"] = inr Dir
    /\ ensure_directory ["api"; "docs"; "tmp"] fs' = Returned tt fs'.
Proof.
  destruct (ensure_directory ["api"; "docs"; "tmp"] sample_tree) as [[] fs'|e fs'] eqn:E.
  - exists fs'. split; [reflexivity|].
    destruct (proj1 (ensure_directory_spec ["api"; "docs"; "tmp"] sample_tree) fs' E)
      as [Hdir Hagain].
    split; [exact Hdir|]. split; [|exact Hagain].
    now destruct (stat_entry _ _ _ _ Hdir).
  - exfalso.
    assert (H : is_returned (ensure_directory ["api"; "docs"; "tmp"] sample_tree) = true)
      by (vm_compute; reflexivity).
    rewrite E in H. discriminate H.
Defined.

(** ** Where the emitter writes *)





















(** ** Building the scaffold in an empty place *)



Section Scaffold.

Variables (destination root : Path) (project : string).
Hypothesis root_is : root = project :: destination.











End Scaffold.


(** ** Templates that have their keywords *)





(** ** The package name as a path component *)







(** ** The scaffold as a whole *)









(** ** The lists of the manifest *)

Lemma Contains_join (sep x : string) (l : list string) :
  In x l -> Contains x (Py.join sep l).
Proof.
  induction l as [|y l IH]; [contradiction|]. intros [->|Hin].
  - destruct (join_head sep l) as [tail Htail]. rewrite Htail. now exists "", tail.
  - destruct l as [|z l]; [contradiction|].
    change (Py.join sep (y :: z :: l)) with (y ++ sep ++ Py.join sep (z :: l)).
    apply Contains_app_l, Contains_app_l, IH, Hin.
Qed.

Lemma Contains_trans (a b c : string) : Contains a b -> Contains b c -> Contains a c.
Proof.
  intros (p & s & ->) (p' & s' & ->). exists (p' ++ p), (s ++ s').
  now rewrite !append_assoc.
Qed.

Lemma fstring_one (pieces : list string) (i : nat) (a : string) :
  nth_error pieces i = Some a -> exists pre post, Py.fstring pieces = pre ++ a ++ post.
Proof.
  revert i. induction pieces as [|x pieces IH]; intros i Ha.
  - destruct i; discriminate.
  - destruct i as [|i].
    + cbn in Ha. inversion Ha; subst x. now exists "", (Py.fstring pieces).
    + destruct (IH i Ha) as (pre & post & Hp). exists (x ++ pre), post.
      change (Py.fstring (x :: pieces)) with (x ++ Py.fstring pieces).
      now rewrite Hp, append_assoc.
Qed.

(** A line of a block that is one piece of the text is a line of the
    text. *)
Lemma lines_text_piece (pieces : list string) (i : nat) (block line : string) :
  nth_error pieces i = Some block -> Contains line block ->
  no_line_feed line = true -> Py.all_blank line = false ->
  Contains line (lines_text (Py.fstring pieces)).
Proof.
  intros Hi (p & s & Hblock) Hnl Hblank.
  destruct (fstring_one pieces i block Hi) as (pre & post & ->). rewrite Hblock.
  replace (pre ++ (p ++ line ++ s) ++ post) with ((pre ++ p) ++ line ++ (s ++ post))
    by now rewrite !append_assoc.
  now apply Contains_lines_text.
Qed.

Lemma array_line_plain (indent : nat) (value : string) :
  no_line_feed value = true ->
  no_line_feed (array_line indent value) = true
  /\ Py.all_blank (array_line indent value) = false.
Proof.
  intros Hvalue. unfold array_line. split.
  - rewrite !no_line_feed_app, no_line_feed_spaces, Hvalue. reflexivity.
  - rewrite all_blank_app. apply andb_false_iff. now right.
Qed.

Lemma author_line_plain (author : Author) :
  author_plain author = true ->
  no_line_feed (author_line author) = true /\ Py.all_blank (author_line author) = false.
Proof.
  unfold author_plain, author_line. intros H.
  apply andb_true_iff in H. destruct H as [Hname Hemail]. split.
  - rewrite !no_line_feed_app, Hname, Hemail. reflexivity.
  - reflexivity.
Qed.

Lemma format_string_array_line (values : list string) (indent : nat) (value : string) :
  In value values -> Contains (array_line indent value) (format_string_array values indent).
Proof.
  intros Hin. destruct values as [|v values]; [contradiction|].
  unfold format_string_array. apply Contains_join.
  apply in_map_iff. exists value. split; [reflexivity | exact Hin].
Qed.

(** X15: the manifest has the record line of every author, the quoted
    line of every dependency, of every entry of every group that is not
    called [dev], and of every baseline tool and every extra of the
    [dev] group, with the value as it is in the descriptor, for values
    without line feed. *)
Theorem manifest_lists (config : ProjectConfig) :
  (forall author,
     In author (authors config) -> author_plain author = true ->
     Contains (author_line author) (build_pyproject config))
  /\ (forall dep,
        In dep (dependencies config) -> no_line_feed dep = true ->
        Contains (array_line 4 dep) (build_pyproject config))
  /\ (forall group deps dep,
        In (group, deps) (other_groups (dependency_groups config)) -> In dep deps ->
        no_line_feed dep = true ->
        Contains (array_line 4 dep) (build_pyproject config))
  /\ (forall dep,
        In dep (DEV_BASELINE ++ dev_extras config)%list -> no_line_feed dep = true ->
        Contains (array_line 4 dep) (build_pyproject config)).
Proof.
  manifest_text config. split; [|split; [|split]].
  - intros author Hmem Hplain. destruct (author_line_plain _ Hplain) as [Hnl Hblank].
    apply (lines_text_piece pieces 5 _ _ eq_refl); [|exact Hnl | exact Hblank].
    rewrite format_authors_join by (intros Hnil; rewrite Hnil in Hmem; contradiction).
    apply Contains_join. now apply in_map.
  - intros dep Hmem Hplain. destruct (array_line_plain 4 _ Hplain) as [Hnl Hblank].
    apply (lines_text_piece pieces 7 _ _ eq_refl); [|exact Hnl | exact Hblank].
    now apply format_string_array_line.
  - intros group deps dep Hgroup Hmem Hplain.
    destruct (array_line_plain 4 _ Hplain) as [Hnl Hblank].
    apply (lines_text_piece pieces 9 _ _ eq_refl); [|exact Hnl | exact Hblank].
    rewrite format_dependency_groups_lines.
    apply (Contains_trans _ (format_string_array deps 4));
      [now apply format_string_array_line|].
    apply Contains_join, in_or_app. left. apply in_flat_map.
    exists (group, deps). split; [exact Hgroup|]. cbn [group_block snd In]. tauto.
  - intros dep Hmem Hplain. destruct (array_line_plain 4 _ Hplain) as [Hnl Hblank].
    apply (lines_text_piece pieces 9 _ _ eq_refl); [|exact Hnl | exact Hblank].
    rewrite format_dependency_groups_lines. apply Contains_join.
    unfold dev_block. apply in_or_app. right. apply in_or_app. right.
    apply in_or_app. right. rewrite app_assoc, <- map_app. apply in_or_app. left.
    change (array_line 4 dep) with (entry_line dep). now apply in_map.
Qed.

Lemma manifest_lists_witness :
  Contains (Py.lit "    { name = ~Mo~, email = ~mo@example.com~ },")
           (build_pyproject sample_config)
  /\ Contains (Py.lit "    ~numpy~,") (build_pyproject sample_config)
  /\ Contains (Py.lit "    ~pytest-xdist~,") (build_pyproject sample_config).
Proof.
  destruct (manifest_lists sample_config) as (Hauthors & Hdeps & _ & Hdev).
  split; [|split].
  - apply (Hauthors (mkAuthor "Mo" "mo@example.com")); [now left | reflexivity].
  - apply (Hdeps "numpy"); [now left | reflexivity].
  - apply (Hdev "pytest-xdist"); [|reflexivity].
    cbn. tauto.
Defined.

(** ** What the emitter raises *)














